(** * Dark Mind: analytics store, topic freshness and daily scheduler

    A shallow embedding of the decision core of the repository
    ([analytics.py], [scheduler.py], the freshness filter of
    [run_pipeline.py]) and the properties of it that the specification
    states.

    Modelling conventions.
    - The SQLite database is a record [DB]: the [videos] table is the list
      of its rows in insertion (rowid) order; the two aggregate tables,
      which have a primary key, are finite maps keyed by it.
    - INTEGER columns are [Z]; REAL columns (engagement rates, averages,
      timestamps) are exact rationals [Qc]; TEXT columns are [string].
    - Every function that opens the database does so inside [try/except];
      the model describes the run in which the database is readable, and
      each of those functions is total.
    - A function that raises on data it can be given returns a
      [PyResult]: the value returned, or the exception raised.
    - [print] calls are left out, except where a claim is about them.
    - The clock ([datetime.now()], [time.time()]) and the random source are
      explicit arguments. *)

From Stdlib Require Import ZArith QArith Qcanon String Ascii List.
From stdpp Require Import base numbers list gmap sets strings sorting.

Local Open Scope Z_scope.

(** ** SQL helpers *)

(** [LIMIT n]: a negative limit means no limit. *)
Definition sql_limit {A} (n : Z) (rows : list A) : list A :=
  if decide (n < 0) then rows else take (Z.to_nat n) rows.

(** [SUM] over integers and reals, and [AVG], which is NULL ([None]) on an
    empty set of rows. *)
Definition Qc_sum (l : list Qc) : Qc := foldr Qcplus (Qc_of_Z 0) l.

Definition sql_avg (l : list Qc) : option Qc :=
  match l with
  | [] => None
  | _ => Some (Qc_sum l / Qc_of_Z (Z.of_nat (length l)))%Qc
  end.

(** Python's [row[0] or 0] on a nullable REAL. *)
Definition or_zero (o : option Qc) : Qc := default (Qc_of_Z 0) o.

(** [ORDER BY key DESC] on a REAL key and on an INTEGER key. *)
Definition desc_Qc {A} (key : A → Qc) : relation A :=
  λ x y, (key y ≤ key x)%Qc.

Definition desc_Z {A} (key : A → Z) : relation A :=
  λ x y, key y ≤ key x.

Global Instance desc_Qc_dec {A} (key : A → Qc) : RelDecision (desc_Qc key).
Proof. intros x y. unfold desc_Qc. apply _. Defined.

Global Instance desc_Z_dec {A} (key : A → Z) : RelDecision (desc_Z key).
Proof. intros x y. unfold desc_Z. apply _. Defined.

Definition order_by_desc_Qc {A} (key : A → Qc) : list A → list A :=
  merge_sort (desc_Qc key).

Definition order_by_desc_Z {A} (key : A → Z) : list A → list A :=
  merge_sort (desc_Z key).

(** The distinct values of a list, in order of first occurrence. *)
Fixpoint distinct {A} `{EqDecision A} (seen : list A) (l : list A) : list A :=
  match l with
  | [] => []
  | x :: r => if decide (x ∈ seen) then distinct seen r
              else x :: distinct (x :: seen) r
  end.

(** ** Tactics *)

(** Membership in a list that is written out. *)
Ltac list_mem :=
  repeat first [apply list_elem_of_here | apply list_elem_of_further].

(** ** Python helpers *)

(** [random.choice(seq)] from a raw random value; [None] is the
    [IndexError] on an empty sequence. *)
Definition choice {A} (l : list A) (raw : Z) : option A :=
  match l with
  | [] => None
  | _ => l !! Z.to_nat (raw `mod` Z.of_nat (length l))
  end.

(** [random.random()], a value in [[0, 1)], and [random.uniform(a, b)],
    which is [a + (b - a) * random()]. *)
Definition random_unit (raw : Z) : Qc :=
  (Qc_of_Z (raw `mod` 2 ^ 53) / Qc_of_Z (2 ^ 53))%Qc.

Definition uniform (a b : Qc) (raw : Z) : Qc :=
  (a + (b - a) * random_unit raw)%Qc.

(** [sorted(l, key=..., reverse=True)]: descending, and stable. *)
Fixpoint insert_desc {A} (key : A → Qc) (x : A) (l : list A) : list A :=
  match l with
  | [] => [x]
  | y :: r => if decide (key x < key y)%Qc then y :: insert_desc key x r
              else x :: l
  end.

Definition sorted_reverse {A} (key : A → Qc) (l : list A) : list A :=
  foldr (insert_desc key) [] l.

(** The outcome of a call that may raise: the value returned, or the
    exception that leaves the function. *)
Inductive PyError := TypeError.

Inductive PyResult (A : Type) :=
  | Returned (a : A)
  | Raised (e : PyError).

Arguments Returned {A} a.
Arguments Raised {A} e.

(** A set comprehension [{f(x) for x in xs}] whose elements are [set]
    objects.  A [set] is mutable and has no hash: adding the first element
    raises [TypeError: unhashable type: 'set'], and only the comprehension
    over no element returns, with the empty set. *)
Definition set_of_sets (elements : list (gset string))
    : PyResult (gset (gset string)) :=
  match elements with
  | [] => Returned ∅
  | _ :: _ => Raised TypeError
  end.

(** ** The data model ([init_db]) *)

Module Analytics.

Record Video := mkVideo {
  run_id : string;
  format : string;
  topic : string;
  hook_text : string;
  voice_type : string;
  suggested_music : string;
  post_hour : Z;
  post_day_of_week : Z;
  created_at : Qc;
  output_path : string;
  views : Z;
  likes : Z;
  comments : Z;
  shares : Z;
  watch_time_avg : Qc;
  engagement_rate : Qc;
  pumped : Z;
  youtube_id : string;
  tiktok_id : string;
  youtube_url : string;
  tiktok_url : string;
  last_stats_fetch : Qc
}.

Record HourlyRow := mkHourly {
  h_avg_views : Qc;
  h_avg_engagement : Qc;
  h_total_videos : Z;
  h_last_updated : Qc
}.

Record FormatRow := mkFormat {
  f_avg_views : Qc;
  f_avg_engagement : Qc;
  f_total_videos : Z;
  f_best_topics : list string;
  f_last_updated : Qc
}.

Record DB := mkDB {
  videos : list Video;
  hourly_performance : gmap Z HourlyRow;
  format_performance : gmap string FormatRow
}.

Definition PSYCHOLOGY_PEAK_HOURS (day : Z) : option (list Z) :=
  match day with
  | 0 => Some [7; 8; 12; 19; 20]
  | 1 => Some [7; 8; 12; 19; 20; 21]
  | 2 => Some [7; 8; 12; 19; 20; 21]
  | 3 => Some [7; 8; 12; 19; 20]
  | 4 => Some [7; 8; 12; 19]
  | 5 => Some [10; 11; 12; 14; 20]
  | 6 => Some [11; 12; 14; 19]
  | _ => None
  end.

Definition PUMP_THRESHOLD : Z := 10000.

(** The UNIQUE constraint on [run_id]. *)
Definition unique_run_ids (db : DB) : Prop := NoDup (run_id <$> videos db).

Definition has_run_id (rid : string) (db : DB) : bool :=
  bool_decide (rid ∈ (run_id <$> videos db)).

(** The rows a [WHERE run_id=?] selects. *)
Definition rows_with_run_id (rid : string) (db : DB) : list Video :=
  filter (λ v, run_id v = rid) (videos db).

(** ** [log_video] *)

(** The five keys of [script_data] that are read, each with the empty
    string as default. *)
Record ScriptData := mkScript {
  sd_format : string;
  sd_topic : string;
  sd_hook_text : string;
  sd_voice_type : string;
  sd_suggested_music : string
}.

(** The local time of the call: [datetime.now()] and [time.time()]. *)
Record Clock := mkClock {
  now_date : string;
  now_hour : Z;
  now_minute : Z;
  now_weekday : Z;
  now_time : Qc;
  today_start : Qc
}.

Definition new_video (rid : string) (sd : ScriptData) (out : string)
    (now : Clock) : Video :=
  {| run_id := rid;
     format := sd_format sd;
     topic := sd_topic sd;
     hook_text := sd_hook_text sd;
     voice_type := sd_voice_type sd;
     suggested_music := sd_suggested_music sd;
     post_hour := now_hour now;
     post_day_of_week := now_weekday now;
     created_at := now_time now;
     output_path := out;
     views := 0; likes := 0; comments := 0; shares := 0;
     watch_time_avg := Qc_of_Z 0;
     engagement_rate := Qc_of_Z 0;
     pumped := 0;
     youtube_id := EmptyString; tiktok_id := EmptyString;
     youtube_url := EmptyString; tiktok_url := EmptyString;
     last_stats_fetch := Qc_of_Z 0 |}.

(** [INSERT OR IGNORE]: a row whose [run_id] is taken is dropped. *)
Definition log_video (rid : string) (sd : ScriptData) (out : string)
    (now : Clock) (db : DB) : DB :=
  if has_run_id rid db then db
  else {| videos := videos db ++ [new_video rid sd out now];
          hourly_performance := hourly_performance db;
          format_performance := format_performance db |}.

(** ** [_recalculate_aggregates] *)

Definition hour_rows (hour : Z) (vs : list Video) : list Video :=
  filter (λ v, post_hour v = hour ∧ 0 < views v) vs.

Definition format_rows (fmt : string) (vs : list Video) : list Video :=
  filter (λ v, format v = fmt ∧ 0 < views v) vs.

Definition avg_views_of (rows : list Video) : option Qc :=
  sql_avg ((λ v, Qc_of_Z (views v)) <$> rows).

Definition avg_engagement_of (rows : list Video) : option Qc :=
  sql_avg (engagement_rate <$> rows).

Definition recalc_hour (vs : list Video) (now : Qc)
    (tbl : gmap Z HourlyRow) (hour : Z) : gmap Z HourlyRow :=
  let rows := hour_rows hour vs in
  let cnt := Z.of_nat (length rows) in
  if decide (0 < cnt)
  then <[hour := {| h_avg_views := or_zero (avg_views_of rows);
                    h_avg_engagement := or_zero (avg_engagement_of rows);
                    h_total_videos := cnt;
                    h_last_updated := now |}]> tbl
  else tbl.

Definition top_pumped_topics (fmt : string) (limit : Z) (vs : list Video)
    : list string :=
  topic <$> sql_limit limit
    (order_by_desc_Z views (filter (λ v, format v = fmt ∧ pumped v = 1) vs)).

Definition recalc_format (vs : list Video) (now : Qc)
    (tbl : gmap string FormatRow) (fmt : string) : gmap string FormatRow :=
  let rows := format_rows fmt vs in
  let cnt := Z.of_nat (length rows) in
  let topics := top_pumped_topics fmt 10 vs in
  if decide (0 < cnt)
  then <[fmt := {| f_avg_views := or_zero (avg_views_of rows);
                   f_avg_engagement := or_zero (avg_engagement_of rows);
                   f_total_videos := cnt;
                   f_best_topics := topics;
                   f_last_updated := now |}]> tbl
  else tbl.

Definition ALL_FORMATS : list string :=
  ["story_lesson"; "scary_truth"; "hidden_psychology"]%string.

Definition _recalculate_aggregates (now : Qc) (db : DB) : DB :=
  {| videos := videos db;
     hourly_performance :=
       foldl (recalc_hour (videos db) now) (hourly_performance db) (seqZ 0 24);
     format_performance :=
       foldl (recalc_format (videos db) now) (format_performance db)
             ALL_FORMATS |}.

(** ** [update_performance] *)

Definition engagement_of (views likes comments shares : Z) : Qc :=
  (Qc_of_Z (likes + comments + shares) / Qc_of_Z (Z.max views 1)
   * Qc_of_Z 100)%Qc.

Definition pumped_of (views : Z) : Z :=
  if decide (PUMP_THRESHOLD ≤ views) then 1 else 0.

Definition set_metrics (views likes comments shares : Z) (wta : Qc)
    (v : Video) : Video :=
  {| run_id := run_id v; format := format v; topic := topic v;
     hook_text := hook_text v; voice_type := voice_type v;
     suggested_music := suggested_music v;
     post_hour := post_hour v; post_day_of_week := post_day_of_week v;
     created_at := created_at v; output_path := output_path v;
     views := views; likes := likes; comments := comments; shares := shares;
     watch_time_avg := wta;
     engagement_rate := engagement_of views likes comments shares;
     pumped := pumped_of views;
     youtube_id := youtube_id v; tiktok_id := tiktok_id v;
     youtube_url := youtube_url v; tiktok_url := tiktok_url v;
     last_stats_fetch := last_stats_fetch v |}.

(** [UPDATE videos SET ... WHERE run_id=?] *)
Definition update_where_run_id (rid : string) (f : Video → Video)
    (vs : list Video) : list Video :=
  (λ v, if decide (run_id v = rid) then f v else v) <$> vs.

(** What the function prints on the path without exception. *)
Inductive Printed :=
  | PrintedUpdated (rid : string) (views : Z) (pumped : bool).

Definition update_performance (rid : string)
    (views likes comments shares : Z) (wta : Qc) (now : Qc) (db : DB)
    : DB * Printed :=
  let db1 := {| videos := update_where_run_id rid
                            (set_metrics views likes comments shares wta)
                            (videos db);
                hourly_performance := hourly_performance db;
                format_performance := format_performance db |} in
  (_recalculate_aggregates now db1,
   PrintedUpdated rid views (bool_decide (pumped_of views ≠ 0))).

(** ** Queries *)

(** [get_all_used_topics] *)
Record UsedInfo := mkUsedInfo {
  used : list string;
  pumped_topics : list string
}.

Definition get_all_used_topics (db : DB) : UsedInfo :=
  let rows := order_by_desc_Qc created_at
                (filter (λ v, topic v ≠ EmptyString) (videos db)) in
  {| used := topic <$> rows;
     pumped_topics := topic <$> filter (λ v, pumped v = 1) rows |}.

(** [get_viral_candidates] *)
Record Candidate := mkCandidate {
  c_run_id : string;
  c_topic : string;
  c_format : string;
  c_views : Z;
  c_hook_text : string
}.

Definition to_candidate (v : Video) : Candidate :=
  {| c_run_id := run_id v; c_topic := topic v; c_format := format v;
     c_views := views v; c_hook_text := hook_text v |}.

(** [SELECT COUNT( * ) FROM videos WHERE topic=? AND created_at > ? AND
    run_id != ?] with the topic, timestamp and id of [v]. *)
Definition is_followup_of (v w : Video) : Prop :=
  topic w = topic v ∧ (created_at v < created_at w)%Qc ∧ run_id w ≠ run_id v.

Global Instance is_followup_of_dec v w : Decision (is_followup_of v w).
Proof. unfold is_followup_of. apply _. Defined.

Definition followup_count (v : Video) (vs : list Video) : Z :=
  Z.of_nat (length (filter (is_followup_of v) vs)).

Definition pumped_with_topic (db : DB) : list Video :=
  order_by_desc_Z views
    (filter (λ v, pumped v = 1 ∧ topic v ≠ EmptyString) (videos db)).

Definition get_viral_candidates (db : DB) : list Candidate :=
  to_candidate <$>
    filter (λ v, followup_count v (videos db) = 0) (pumped_with_topic db).

(** [get_today_video_count] *)
Definition get_today_video_count (now : Clock) (db : DB) : Z :=
  Z.of_nat (length (filter (λ v, (today_start now ≤ created_at v)%Qc)
                           (videos db))).

(** [get_best_hours_for_day] *)
Definition day_rows (day_of_week : Z) (vs : list Video) : list Video :=
  filter (λ v, post_day_of_week v = day_of_week ∧ 0 < views v) vs.

(** One output row of the tier-1 query: [post_hour], [avg_eng], [cnt]. *)
Record HourGroup := mkGroup {
  g_hour : Z;
  g_avg_eng : Qc;
  g_cnt : Z
}.

Definition hour_group (rows : list Video) (h : Z) : HourGroup :=
  let g := filter (λ v, post_hour v = h) rows in
  {| g_hour := h;
     g_avg_eng := or_zero (avg_engagement_of g);
     g_cnt := Z.of_nat (length g) |}.

(** [GROUP BY post_hour]: one row per distinct hour. *)
Definition group_by_post_hour (rows : list Video) : list HourGroup :=
  hour_group rows <$> distinct [] (post_hour <$> rows).

(** The tier-1 query before [LIMIT], and with it. *)
Definition tier1_sorted (day_of_week : Z) (db : DB) : list HourGroup :=
  order_by_desc_Qc g_avg_eng
    (filter (λ g, 2 ≤ g_cnt g)
       (group_by_post_hour (day_rows day_of_week (videos db)))).

Definition tier1_rows (day_of_week n : Z) (db : DB) : list HourGroup :=
  sql_limit n (tier1_sorted day_of_week db).

(** The tier-2 query before [LIMIT], and with it. *)
Definition tier2_sorted (db : DB) : list (Z * HourlyRow) :=
  order_by_desc_Qc (λ r, h_avg_engagement r.2)
    (filter (λ r, 3 ≤ h_total_videos r.2)
       (map_to_list (hourly_performance db))).

Definition tier2_rows (n : Z) (db : DB) : list (Z * HourlyRow) :=
  sql_limit n (tier2_sorted db).

Definition get_best_hours_for_day (day_of_week n : Z) (db : DB) : list Z :=
  match tier1_rows day_of_week n db with
  | [] => fst <$> tier2_rows n db
  | rows => g_hour <$> rows
  end.

(** [save_platform_ids]; [None] is Python's [None]. *)
Definition or_empty (o : option string) : string := default EmptyString o.

Definition is_empty (s : string) : bool :=
  match s with EmptyString => true | _ => false end.

Definition youtube_url_of (yt_id : string) : string :=
  if is_empty yt_id then EmptyString
  else ("https://youtube.com/shorts/" +:+ yt_id)%string.

Definition tiktok_url_of (tt_id : string) : string :=
  if is_empty tt_id then EmptyString
  else ("https://www.tiktok.com/@/video/" +:+ tt_id)%string.

Definition set_platform_ids (yt_id tt_id yt_url tt_url : string)
    (v : Video) : Video :=
  {| run_id := run_id v; format := format v; topic := topic v;
     hook_text := hook_text v; voice_type := voice_type v;
     suggested_music := suggested_music v;
     post_hour := post_hour v; post_day_of_week := post_day_of_week v;
     created_at := created_at v; output_path := output_path v;
     views := views v; likes := likes v; comments := comments v;
     shares := shares v; watch_time_avg := watch_time_avg v;
     engagement_rate := engagement_rate v; pumped := pumped v;
     youtube_id := yt_id; tiktok_id := tt_id;
     youtube_url := yt_url; tiktok_url := tt_url;
     last_stats_fetch := last_stats_fetch v |}.

Definition save_platform_ids (rid : string)
    (youtube_id tiktok_id : option string) (db : DB) : DB :=
  let yt_id := or_empty youtube_id in
  let tt_id := or_empty tiktok_id in
  let yt_url := youtube_url_of yt_id in
  let tt_url := tiktok_url_of tt_id in
  {| videos := update_where_run_id rid
                 (set_platform_ids yt_id tt_id yt_url tt_url) (videos db);
     hourly_performance := hourly_performance db;
     format_performance := format_performance db |}.

(** [get_hour_confidence] *)
Record Confidence := mkConfidence {
  day_videos : Z;
  any_videos : Z;
  data_driven : bool;
  tier : string
}.

Definition day_count (day_of_week : Z) (db : DB) : Z :=
  Z.of_nat (length (day_rows day_of_week (videos db))).

Definition any_count (db : DB) : Z :=
  Z.of_nat (length (filter (λ v, 0 < views v) (videos db))).

Definition get_hour_confidence (day_of_week : Z) (db : DB) : Confidence :=
  let day_count := day_count day_of_week db in
  let any_count := any_count db in
  let tier := if decide (4 ≤ day_count) then "day-specific"%string
              else if decide (6 ≤ any_count) then "cross-day"%string
              else "psychology"%string in
  {| day_videos := day_count;
     any_videos := any_count;
     data_driven := bool_decide (tier ≠ "psychology"%string);
     tier := tier |}.

(** [get_best_post_hour]; [raw] is what [random.choice] draws. *)
Definition get_psychology_peaks_today (now : Clock) : list Z :=
  default [7; 8; 12; 19; 20] (PSYCHOLOGY_PEAK_HOURS (now_weekday now)).

Definition get_best_post_hour (now : Clock) (raw : Z) (db : DB) : option Z :=
  match tier2_rows 1 db with
  | row :: _ => Some row.1
  | [] => choice (get_psychology_peaks_today now) raw
  end.

(** [get_best_format] *)
Definition best_format_rows (db : DB) : list (string * FormatRow) :=
  sql_limit 1
    (order_by_desc_Qc (λ r, f_avg_views r.2)
       (filter (λ r, 3 ≤ f_total_videos r.2)
          (map_to_list (format_performance db)))).

Definition get_best_format (db : DB) : option string :=
  match best_format_rows db with
  | row :: _ => Some row.1
  | [] => None
  end.

(** [get_pumped_topics] *)
Definition get_pumped_topics (format_key : string) (db : DB) : list string :=
  top_pumped_topics format_key 8 (videos db).

(** [get_used_hooks] *)
Definition hook_rows (db : DB) : list Video :=
  order_by_desc_Qc created_at
    (filter (λ v, hook_text v ≠ EmptyString) (videos db)).

Definition get_used_hooks (limit : Z) (db : DB) : list string :=
  filter (λ h, h ≠ EmptyString) (hook_text <$> sql_limit limit (hook_rows db)).

(** [get_videos_for_stats_fetch] *)
Record StatsRow := mkStatsRow {
  s_run_id : string;
  s_youtube_id : string;
  s_tiktok_id : string;
  s_views : Z;
  s_likes : Z;
  s_comments : Z;
  s_shares : Z
}.

Definition to_stats_row (v : Video) : StatsRow :=
  {| s_run_id := run_id v; s_youtube_id := youtube_id v;
     s_tiktok_id := tiktok_id v; s_views := views v; s_likes := likes v;
     s_comments := comments v; s_shares := shares v |}.

Definition stats_cutoff (max_age_days : Z) (now : Clock) : Qc :=
  (now_time now - Qc_of_Z (max_age_days * 86400))%Qc.

Definition due_for_stats (max_age_days : Z) (now : Clock) (v : Video) : Prop :=
  (stats_cutoff max_age_days now ≤ created_at v)%Qc ∧
  (youtube_id v ≠ EmptyString ∨ tiktok_id v ≠ EmptyString).

Global Instance due_for_stats_dec d now v : Decision (due_for_stats d now v).
Proof. unfold due_for_stats. apply _. Defined.

Definition get_videos_for_stats_fetch (max_age_days : Z) (now : Clock)
    (db : DB) : list StatsRow :=
  to_stats_row <$>
    order_by_desc_Qc created_at
      (filter (due_for_stats max_age_days now) (videos db)).

(** The invariant of the data model on the derived columns. *)
Definition metrics_consistent (v : Video) : Prop :=
  engagement_rate v = engagement_of (views v) (likes v) (comments v) (shares v)
  ∧ pumped v = pumped_of (views v).

(** The columns that are written at creation only. *)
Definition creation_fields (v : Video)
    : string * string * string * string * Z * Z * Qc * string :=
  (run_id v, format v, topic v, hook_text v, post_hour v,
   post_day_of_week v, created_at v, output_path v).

(** The rows that [_recalculate_aggregates] writes for an hour and for a
    format, where it writes one. *)
Definition hour_row (vs : list Video) (now : Qc) (hour : Z)
    : option HourlyRow :=
  let rows := hour_rows hour vs in
  if decide (0 < Z.of_nat (length rows))
  then Some {| h_avg_views := or_zero (avg_views_of rows);
               h_avg_engagement := or_zero (avg_engagement_of rows);
               h_total_videos := Z.of_nat (length rows);
               h_last_updated := now |}
  else None.

Definition format_row (vs : list Video) (now : Qc) (fmt : string)
    : option FormatRow :=
  let rows := format_rows fmt vs in
  if decide (0 < Z.of_nat (length rows))
  then Some {| f_avg_views := or_zero (avg_views_of rows);
               f_avg_engagement := or_zero (avg_engagement_of rows);
               f_total_videos := Z.of_nat (length rows);
               f_best_topics := top_pumped_topics fmt 10 vs;
               f_last_updated := now |}
  else None.

End Analytics.

(** ** The topic freshness filter ([run_pipeline.py]) *)

Module RunPipeline.
Import Analytics.

Local Open Scope string_scope.

(** Stop-words ignored when comparing topic similarity. *)
Definition _STOP : gset string := list_to_set [
  "the";"a";"an";"of";"in";"to";"how";"why";"what";"is";"are";"was";"were";
  "be";"been";"i";"you";"we";"they";"it";"this";"that";"for";"on";"at";"by";
  "with";"from";"and";"or";"but";"do";"does";"did";"have";"has";"had";"not";
  "no";"so";"if";"as";"can";"will";"just";"about";"into";"its";"s";"your"
].

(** Topics are strings of 8-bit characters; on those [str.lower] changes
    the letters [A]-[Z] only, as far as the characters the regular
    expression keeps are concerned. *)
Definition lower_char (c : ascii) : ascii :=
  let n := nat_of_ascii c in
  if (65 <=? n)%nat && (n <=? 90)%nat then ascii_of_nat (n + 32) else c.

Fixpoint lower (s : string) : string :=
  match s with
  | EmptyString => EmptyString
  | String c r => String (lower_char c) (lower r)
  end.

(** The characters outside the class [[^a-z0-9 ]]. *)
Definition kept_char (c : ascii) : bool :=
  let n := nat_of_ascii c in
  ((97 <=? n)%nat && (n <=? 122)%nat)
  || ((48 <=? n)%nat && (n <=? 57)%nat)
  || (n =? 32)%nat.

(** [re.sub] deleting every character of the class [[^a-z0-9 ]]. *)
Fixpoint strip_other (s : string) : string :=
  match s with
  | EmptyString => EmptyString
  | String c r => if kept_char c then String c (strip_other r)
                  else strip_other r
  end.

(** [str.split()] on a string whose only white space is the space. *)
Fixpoint split_go (cur : string) (s : string) : list string :=
  match s with
  | EmptyString => if is_empty cur then [] else [cur]
  | String c r =>
      if Ascii.eqb c " "
      then (if is_empty cur then split_go EmptyString r
            else cur :: split_go EmptyString r)
      else split_go (cur +:+ String c EmptyString) r
  end.

Definition split (s : string) : list string := split_go EmptyString s.

Definition _topic_words (topic : string) : gset string :=
  list_to_set (split (strip_other (lower topic))) ∖ _STOP.

(** The [for used in ...] loop of [_topic_is_fresh].  The test
    [used_words in pumped_set] does not raise: for a [set] on its left,
    [set.__contains__] looks its frozen copy up. *)
Fixpoint fresh_loop (cand_words : gset string)
    (pumped_set : gset (gset string)) (useds : list string) : bool :=
  match useds with
  | [] => true
  | used :: rest =>
      let used_words := _topic_words used in
      if decide (used_words ∈ pumped_set) then
        fresh_loop cand_words pumped_set rest
      else if decide (3 ≤ size (cand_words ∩ used_words))%nat then false
      else fresh_loop cand_words pumped_set rest
  end.

(** [_topic_words] returns a [set], so the comprehension that builds
    [pumped_set] raises as soon as the list of pumped topics has an
    element, before the loop is entered. *)
Definition _topic_is_fresh (candidate : string) (used_info : UsedInfo)
    : PyResult bool :=
  let cand_words := _topic_words candidate in
  match set_of_sets (_topic_words <$> pumped_topics used_info) with
  | Raised e => Raised e
  | Returned pumped_set =>
      Returned (fresh_loop cand_words pumped_set (used used_info))
  end.

(** [_pick_fresh_topic].  What [get_intelligence_for_format] returns for a
    format: the [viral_score] of each angle ([None] where the key is
    missing), the best topic and the main topics. *)
Record Intel := mkIntel {
  viral_angles : list (option Qc);
  best_topic_right_now : string;
  main_topics : list string
}.

Definition ALL_FORMATS : list string :=
  ["story_lesson"; "scary_truth"; "hidden_psychology"].

Definition avg_viral_score (angles : list (option Qc)) : Qc :=
  (Qc_sum (default (Qc_of_Z 50) <$> angles)
   / Qc_of_Z (Z.of_nat (length angles)))%Qc.

(** The first loop: one random draw for each format without angles. *)
Fixpoint format_scores (intel : string → Intel) (draw : nat → Z) (pos : nat)
    (fmts : list string) : list (string * Qc) * nat :=
  match fmts with
  | [] => ([], pos)
  | fmt :: rest =>
      match viral_angles (intel fmt) with
      | [] =>
          let '(scores, pos') := format_scores intel draw (S pos) rest in
          ((fmt, uniform (Qc_of_Z 40) (Qc_of_Z 70) (draw pos)) :: scores, pos')
      | angles =>
          let '(scores, pos') := format_scores intel draw pos rest in
          ((fmt, avg_viral_score angles) :: scores, pos')
      end
  end.

(** The sort keys: the score plus noise, one draw for each format. *)
Fixpoint noisy_keys (draw : nat → Z) (pos : nat) (scores : list (string * Qc))
    : list (string * Qc) :=
  match scores with
  | [] => []
  | (fmt, score) :: rest =>
      (fmt, (score + uniform (Qc_of_Z (-10)) (Qc_of_Z 10) (draw pos))%Qc)
        :: noisy_keys draw (S pos) rest
  end.

Definition sorted_formats (intel : string → Intel) (draw : nat → Z)
    (pos : nat) : list string :=
  let '(scores, pos') := format_scores intel draw pos ALL_FORMATS in
  (sorted_reverse snd (noisy_keys draw pos' scores)).*1.

Definition candidates (intel : string → Intel) (trends : string → list string)
    (fmt : string) : list string :=
  (if is_empty (best_topic_right_now (intel fmt)) then []
   else [best_topic_right_now (intel fmt)])
  ++ take 4 (main_topics (intel fmt)) ++ trends fmt.

(** The loop over the candidates of one format: [Returned None] when it
    ends without a [return].  An exception of [_topic_is_fresh] is not
    caught here. *)
Fixpoint first_fresh (used_info : UsedInfo) (topics : list string)
    : PyResult (option string) :=
  match topics with
  | [] => Returned None
  | topic :: rest =>
      if is_empty topic then first_fresh used_info rest
      else match _topic_is_fresh topic used_info with
           | Raised e => Raised e
           | Returned true => Returned (Some topic)
           | Returned false => first_fresh used_info rest
           end
  end.

Fixpoint pick_loop (intel : string → Intel) (trends : string → list string)
    (used_info : UsedInfo) (fmts : list string)
    : PyResult (option (string * string)) :=
  match fmts with
  | [] => Returned None
  | fmt :: rest =>
      match first_fresh used_info (candidates intel trends fmt) with
      | Raised e => Raised e
      | Returned (Some topic) => Returned (Some (topic, fmt))
      | Returned None => pick_loop intel trends used_info rest
      end
  end.

(** [Returned None] is the pair [(None, None)]. *)
Definition _pick_fresh_topic (intel : string → Intel)
    (trends : string → list string) (used_info : UsedInfo)
    (draw : nat → Z) (pos : nat) : PyResult (option (string * string)) :=
  pick_loop intel trends used_info (sorted_formats intel draw pos).

(** The characters a meaningful word is made of: [a]-[z] and [0]-[9]. *)
Definition word_char (c : ascii) : bool :=
  kept_char c && negb (Ascii.eqb c " ").

Fixpoint all_chars (P : ascii → bool) (s : string) : bool :=
  match s with
  | EmptyString => true
  | String c r => P c && all_chars P r
  end.

(** A topic that the candidate loop of [_pick_fresh_topic] may return. *)
Definition eligible (used_info : UsedInfo) (topic : string) : Prop :=
  topic ≠ EmptyString ∧ _topic_is_fresh topic used_info = Returned true.

End RunPipeline.

(** ** The daily schedule and the run gate ([scheduler.py]) *)

Module Scheduler.
Import Analytics.

Definition ACTIVE_HOURS_START : Z := 6.
Definition ACTIVE_HOURS_END : Z := 23.
Definition _DEFAULT_MAX_VIDEOS : Z := 4.

Definition PEAK_HOURS (day : Z) : option (list Z) :=
  match day with
  | 0 => Some [7; 8; 12; 19; 20]
  | 1 => Some [7; 8; 12; 19; 20; 21]
  | 2 => Some [7; 8; 12; 19; 20; 21]
  | 3 => Some [7; 8; 12; 19; 20]
  | 4 => Some [7; 8; 12; 19]
  | 5 => Some [10; 11; 12; 14; 20]
  | 6 => Some [11; 12; 14; 19]
  | _ => None
  end.

(** What the scheduler reads from outside: the clock, the integer under
    ["max_videos_per_day"] in [settings.json] ([None] when the file or the
    key is missing or unreadable), the database, and the random source
    ([draw i] is the [i]-th raw value it yields). *)
Record Env := mkEnv {
  now : Clock;
  setting : option Z;
  db : DB;
  draw : nat → Z
}.

(** The module-level variables, and how many random values were drawn. *)
Record State := mkState {
  _last_run_hour : Z;
  _daily_run_count_date : string;
  _daily_run_count_count : Z;
  _today_schedule : list (Z * Z);
  _schedule_date : string;
  rng_pos : nat
}.

Definition initial_state : State :=
  {| _last_run_hour := -1;
     _daily_run_count_date := EmptyString;
     _daily_run_count_count := 0;
     _today_schedule := [];
     _schedule_date := EmptyString;
     rng_pos := 0 |}.

Definition get_max_videos_per_day (e : Env) : Z :=
  default _DEFAULT_MAX_VIDEOS (setting e).

Definition is_active_hour (e : Env) : bool :=
  bool_decide (ACTIVE_HOURS_START ≤ now_hour (now e) < ACTIVE_HOURS_END).

Definition get_daily_count (e : Env) (st : State) : Z * State :=
  let today := now_date (now e) in
  if decide (_daily_run_count_date st ≠ today) then
    let c := get_today_video_count (now e) (db e) in
    (c, {| _last_run_hour := _last_run_hour st;
           _daily_run_count_date := today;
           _daily_run_count_count := c;
           _today_schedule := _today_schedule st;
           _schedule_date := _schedule_date st;
           rng_pos := rng_pos st |})
  else (_daily_run_count_count st, st).

Definition inc_daily_count (e : Env) (st : State) : State :=
  let st1 := (get_daily_count e st).2 in
  {| _last_run_hour := _last_run_hour st1;
     _daily_run_count_date := _daily_run_count_date st1;
     _daily_run_count_count := _daily_run_count_count st1 + 1;
     _today_schedule := _today_schedule st1;
     _schedule_date := _schedule_date st1;
     rng_pos := rng_pos st1 |}.

(** The merge loop of step 3: [seen] and [combined] grow together. *)
Fixpoint merge_loop (seen : gset Z) (combined : list Z) (hs : list Z)
    : list Z :=
  match hs with
  | [] => combined
  | h :: rest =>
      if decide (h ∈ seen) then merge_loop seen combined rest
      else merge_loop ({[h]} ∪ seen) (combined ++ [h]) rest
  end.

(** Python's [l[:n]]: a negative [n] counts from the end. *)
Definition py_prefix {A} (n : Z) (l : list A) : list A :=
  if decide (0 ≤ n) then take (Z.to_nat n) l
  else take (length l - Z.to_nat (- n)) l.

(** [random.randint(a, b)] from a raw random value. *)
Definition randint (a b raw : Z) : Z := a + raw `mod` (b - a + 1).

Fixpoint add_jitter (draw : nat → Z) (pos : nat) (hours : list Z)
    : list (Z * Z) :=
  match hours with
  | [] => []
  | h :: rest => (h, randint 5 55 (draw pos)) :: add_jitter draw (S pos) rest
  end.

Definition in_active_window (h : Z) : Prop :=
  ACTIVE_HOURS_START ≤ h < ACTIVE_HOURS_END.

Global Instance in_active_window_dec h : Decision (in_active_window h).
Proof. unfold in_active_window. apply _. Defined.

Definition learned_hours (e : Env) : list Z :=
  get_best_hours_for_day (now_weekday (now e)) (get_max_videos_per_day e)
                         (db e).

Definition psych_hours (e : Env) : list Z :=
  default [7; 8; 12; 19; 20] (PEAK_HOURS (now_weekday (now e))).

(** Steps 3 and 4: [combined], then [active], then [chosen_hours]. *)
Definition combined_hours (e : Env) : list Z :=
  merge_loop ∅ [] (learned_hours e ++ psych_hours e).

Definition active_hours (e : Env) : list Z :=
  merge_sort Z.le (filter in_active_window (combined_hours e)).

Definition chosen_hours (e : Env) : list Z :=
  py_prefix (get_max_videos_per_day e) (active_hours e).

Definition build_daily_schedule (e : Env) (st : State)
    : list (Z * Z) * State :=
  let hours := chosen_hours e in
  let chosen := add_jitter (draw e) (rng_pos st) hours in
  (chosen,
   {| _last_run_hour := _last_run_hour st;
      _daily_run_count_date := _daily_run_count_date st;
      _daily_run_count_count := _daily_run_count_count st;
      _today_schedule := _today_schedule st;
      _schedule_date := _schedule_date st;
      rng_pos := (rng_pos st + length hours)%nat |}).

Definition get_today_schedule (e : Env) (st : State)
    : list (Z * Z) * State :=
  let today := now_date (now e) in
  if decide (_schedule_date st ≠ today ∨ _today_schedule st = []) then
    let '(sched, st1) := build_daily_schedule e st in
    (sched, {| _last_run_hour := _last_run_hour st1;
               _daily_run_count_date := _daily_run_count_date st1;
               _daily_run_count_count := _daily_run_count_count st1;
               _today_schedule := sched;
               _schedule_date := today;
               rng_pos := rng_pos st1 |})
  else (_today_schedule st, st).

(** The reason strings of [should_run_now], with the values they show. *)
Inductive Reason :=
  | OutsideActiveHours (start stop : Z)
  | AlreadyRanThisHour
  | DailyCapReached (count max_vids : Z)
  | NotScheduledSlot (next : option (Z * Z))
  | WaitingFor (target_minute now_minute : Z)
  | OK.

Definition should_run_now (e : Env) (st : State) : (bool * Reason) * State :=
  let hour := now_hour (now e) in
  if negb (is_active_hour e) then
    ((false, OutsideActiveHours ACTIVE_HOURS_START ACTIVE_HOURS_END), st)
  else if decide (hour = _last_run_hour st) then
    ((false, AlreadyRanThisHour), st)
  else
    let '(count, st1) := get_daily_count e st in
    let max_vids := get_max_videos_per_day e in
    if decide (max_vids ≤ count) then
      ((false, DailyCapReached count max_vids), st1)
    else
      let '(schedule, st2) := get_today_schedule e st1 in
      match filter (λ s, s.1 = hour) schedule with
      | [] =>
          let future := filter (λ s, hour < s.1) schedule in
          ((false, NotScheduledSlot (head future)), st2)
      | (_, target_minute) :: _ =>
          if decide (now_minute (now e) < target_minute) then
            ((false, WaitingFor target_minute (now_minute (now e))), st2)
          else ((true, OK), st2)
      end.

(** What every schedule that [build_daily_schedule] caches satisfies. *)
Definition schedule_ok (st : State) : Prop :=
  StronglySorted Z.lt (_today_schedule st).*1 ∧
  ∀ h m, (h, m) ∈ _today_schedule st → in_active_window h ∧ 5 ≤ m ≤ 55.

End Scheduler.

(** ** The periodic stats fetch ([stats_fetcher.py]) *)

Module StatsFetcher.
Import Analytics.

(** What [fetch_stats] of the YouTube uploader returns; the empty dict is
    [None].  [fetch_stats] of the TikTok uploader always returns the empty
    dict. *)
Record YtStats := mkYtStats {
  yt_views : Z;
  yt_likes : Z;
  yt_comments : Z
}.

(** [yt_stats] of one loop iteration. *)
Definition stats_for (yt_fetch : string → option YtStats) (v : StatsRow)
    : option YtStats :=
  if is_empty (s_youtube_id v) then None else yt_fetch (s_youtube_id v).

(** The body of the [for v in videos] loop; [time k] is [time.time()] in
    the update made after [k] earlier ones. *)
Definition fetch_step (yt_fetch : string → option YtStats) (time : Z → Qc)
    (acc : DB * Z) (v : StatsRow) : DB * Z :=
  let '(db, updated) := acc in
  match stats_for yt_fetch v with
  | None => (db, updated)
  | Some yt =>
      let m_views := Z.max (yt_views yt) 0 in
      let m_likes := Z.max (yt_likes yt) 0 in
      let m_comments := Z.max (yt_comments yt) 0 in
      let m_shares := 0 in
      if decide (s_views v < m_views ∨ updated = 0) then
        ((update_performance (s_run_id v) m_views m_likes m_comments m_shares
            (Qc_of_Z 0) (time updated) db).1, updated + 1)
      else (db, updated)
  end.

(** The result is [None] where the function returns without a value. *)
Definition fetch_and_update_all (yt_fetch : string → option YtStats)
    (time : Z → Qc) (now : Clock) (db : DB) : DB * option Z :=
  match get_videos_for_stats_fetch 30 now db with
  | [] => (db, None)
  | videos =>
      let '(db', updated) := foldl (fetch_step yt_fetch time) (db, 0) videos in
      (db', Some updated)
  end.

(** The first fetched video for which the platform returned stats. *)
Definition first_with_stats (yt_fetch : string → option YtStats)
    (videos : list StatsRow) : option StatsRow :=
  head (filter (λ v, is_Some (stats_for yt_fetch v)) videos).

(** The row that an update from the stats [yt] leaves. *)
Definition merged_row (yt : YtStats) (v : Video) : Video :=
  set_metrics (Z.max (yt_views yt) 0) (Z.max (yt_likes yt) 0)
              (Z.max (yt_comments yt) 0) 0 (Qc_of_Z 0) v.

End StatsFetcher.

(** ** One scheduler cycle ([run_once], [maybe_fetch_stats]) *)

Module SchedulerRuns.
Import Analytics Scheduler StatsFetcher.

Definition STATS_FETCH_INTERVAL : Z := 2 * 3600.

(** The scheduler's variables together with [_last_stats_fetch]. *)
Record Process := mkProcess {
  sched : State;
  _last_stats_fetch : Qc
}.

Definition set_last_run_hour (hour : Z) (st : State) : State :=
  {| _last_run_hour := hour;
     _daily_run_count_date := _daily_run_count_date st;
     _daily_run_count_count := _daily_run_count_count st;
     _today_schedule := _today_schedule st;
     _schedule_date := _schedule_date st;
     rng_pos := rng_pos st |}.

Definition skip_draws (n : nat) (st : State) : State :=
  {| _last_run_hour := _last_run_hour st;
     _daily_run_count_date := _daily_run_count_date st;
     _daily_run_count_count := _daily_run_count_count st;
     _today_schedule := _today_schedule st;
     _schedule_date := _schedule_date st;
     rng_pos := (rng_pos st + n)%nat |}.

(** [run_once].  The pipeline and [get_intelligence] are outside the
    model: [pipeline_ok] tells whether [run_pipeline] returned a result
    (no exception, not [None]), and [intel_draws] is the number of random
    values that [get_intelligence] consumed. *)
Definition run_once (force pipeline_ok : bool) (intel_draws : nat)
    (e : Env) (p : Process) : bool * Process :=
  let gate :=
    if force then ((true, OK), sched p) else should_run_now e (sched p) in
  if negb gate.1.1 then
    (false, {| sched := gate.2; _last_stats_fetch := _last_stats_fetch p |})
  else
    let st1 := (get_today_schedule e gate.2).2 in
    let st2 := (get_daily_count e st1).2 in
    let st3 := skip_draws intel_draws st2 in
    if pipeline_ok then
      (true,
       {| sched := inc_daily_count e
                     (set_last_run_hour (now_hour (now e)) st3);
          _last_stats_fetch := now_time (now e) |})
    else
      (false, {| sched := st3; _last_stats_fetch := _last_stats_fetch p |}).

(** [maybe_fetch_stats], on the database of [e]. *)
Definition maybe_fetch_stats (yt_fetch : string → option YtStats)
    (time : Z → Qc) (e : Env) (p : Process) : DB * Process :=
  if decide (now_time (now e) - _last_stats_fetch p
             < Qc_of_Z STATS_FETCH_INTERVAL)%Qc
  then (db e, p)
  else ((fetch_and_update_all yt_fetch time (now e) (db e)).1,
        {| sched := sched p; _last_stats_fetch := now_time (now e) |}).

End SchedulerRuns.

(** ** The dashboard ([app.py]) *)

Module App.
Import Analytics Scheduler.

(** The [schedule] field of [get_schedule], before formatting. *)
Definition schedule_hours (e : Env) : list Z :=
  let max_vids := default 4 (setting e) in
  let learned :=
    get_best_hours_for_day (now_weekday (now e)) max_vids (db e) in
  let psych := get_psychology_peaks_today (now e) in
  let combined := merge_loop ∅ [] (learned ++ psych) in
  py_prefix max_vids (merge_sort Z.le (filter (λ h, 6 ≤ h < 23) combined)).

(** The JSON value under ["max_videos_per_day"] in a request. *)
Inductive JsonValue :=
  | JMissing
  | JBool (b : bool)
  | JInt (z : Z)
  | JOther.

(** [isinstance(val, int)], with the integer value: [bool] is a subclass
    of [int]. *)
Definition as_int (val : JsonValue) : option Z :=
  match val with
  | JInt z => Some z
  | JBool b => Some (if b then 1 else 0)
  | _ => None
  end.

Inductive Response :=
  | Accepted (val : JsonValue)
  | Rejected400.

(** [post_settings]; the settings file is seen through the integer that
    [get_max_videos_per_day] reads from it. *)
Definition post_settings (val : JsonValue) (stored : option Z)
    : Response * option Z :=
  match as_int val with
  | Some z =>
      if decide (1 ≤ z ≤ 20) then (Accepted val, Some z)
      else (Rejected400, stored)
  | None => (Rejected400, stored)
  end.

End App.

(** ** Sample data for the concrete instances below *)

Module Samples.
Import Analytics Scheduler.

Definition sample_video (rid : string) (day hour views : Z) (eng ts : Z)
    (topic : string) (pumped : Z) : Video :=
  {| run_id := rid; format := "story_lesson"; topic := topic;
     hook_text := EmptyString; voice_type := EmptyString;
     suggested_music := EmptyString;
     post_hour := hour; post_day_of_week := day; created_at := Qc_of_Z ts;
     output_path := EmptyString; views := views; likes := 0; comments := 0;
     shares := 0; watch_time_avg := Qc_of_Z 0;
     engagement_rate := Qc_of_Z eng; pumped := pumped;
     youtube_id := EmptyString; tiktok_id := EmptyString;
     youtube_url := EmptyString; tiktok_url := EmptyString;
     last_stats_fetch := Qc_of_Z 0 |}.

Definition sample_db (vs : list Video) : DB :=
  {| videos := vs; hourly_performance := ∅; format_performance := ∅ |}.

Definition sample_script (topic : string) : ScriptData :=
  {| sd_format := "scary_truth"; sd_topic := topic; sd_hook_text := "hook";
     sd_voice_type := "deep"; sd_suggested_music := "dark" |}.

Definition sample_clock (date : string) (weekday hour minute : Z)
    (time start : Z) : Clock :=
  {| now_date := date; now_hour := hour; now_minute := minute;
     now_weekday := weekday; now_time := Qc_of_Z time;
     today_start := Qc_of_Z start |}.

(** Four Monday videos with views: two at 21h, two at 22h. *)
Definition learned_db : DB :=
  sample_db [sample_video "a" 0 21 5 3 1 "t" 0;
             sample_video "b" 0 21 5 3 2 "t" 0;
             sample_video "c" 0 22 5 2 3 "t" 0;
             sample_video "d" 0 22 5 2 4 "t" 0].

(** Two videos created today, without views yet. *)
Definition fresh_db : DB :=
  sample_db [sample_video "a" 0 9 0 0 50 "t" 0;
             sample_video "b" 0 10 0 0 60 "t" 0].

Definition sample_env (clock : Clock) (cap : Z) (db : DB) : Env :=
  {| now := clock; setting := Some cap; db := db;
     draw := λ i, Z.of_nat i * 17 |}.

(** A scheduler that counted no video on the given day. *)
Definition counted_none (date : string) : State :=
  {| _last_run_hour := -1;
     _daily_run_count_date := date;
     _daily_run_count_count := 0;
     _today_schedule := [];
     _schedule_date := EmptyString;
     rng_pos := 0 |}.

End Samples.

(** ** The specification's wording, for comparison with the code *)

Module Spec.
Import Analytics RunPipeline Scheduler.

(** "No other record with the identical topic string has a strictly later
    creation timestamp." *)
Definition has_later_same_topic (db : DB) (v : Video) : Prop :=
  ∃ w, w ∈ videos db ∧ run_id w ≠ run_id v ∧ topic w = topic v
       ∧ (created_at v < created_at w)%Qc.

Definition needs_followup (db : DB) (v : Video) : Prop :=
  pumped v = 1 ∧ topic v ≠ EmptyString ∧ ¬ has_later_same_topic db v.

Global Instance has_later_same_topic_dec db v :
  Decision (has_later_same_topic db v).
Proof.
  unfold has_later_same_topic.
  destruct (decide (Exists (λ w, run_id w ≠ run_id v ∧ topic w = topic v
                                 ∧ (created_at v < created_at w)%Qc)
                           (videos db))) as [H|H].
  - left. apply Exists_exists in H. exact H.
  - right. intros H'. apply H. apply Exists_exists. exact H'.
Defined.

Global Instance needs_followup_dec db v : Decision (needs_followup db v).
Proof. unfold needs_followup. apply _. Defined.

(** "Shares at least 3 meaningful words with some previously-used topic
    that did not itself pump", read on the history [{used, pumped}]. *)
Definition overlaps_unpumped_topic (candidate : string) (used_info : UsedInfo)
    : Prop :=
  ∃ u, u ∈ used used_info ∧ (u ∉ pumped_topics used_info) ∧
       (3 ≤ size (_topic_words candidate ∩ _topic_words u))%nat.

(** "Restricted to the active window, truncated to the first
    max_videos_per_day hours of that merged order." *)
Definition hours_in_merged_order (e : Env) : list Z :=
  take (Z.to_nat (get_max_videos_per_day e))
       (filter in_active_window (combined_hours e)).

(** The average of a non-empty list of rates. *)
Definition average (l : list Qc) : Qc :=
  (Qc_sum l / Qc_of_Z (Z.of_nat (length l)))%Qc.

(** Tier 1: the weekday's videos with views, by posting hour. *)
Definition day_hour_samples (db : DB) (day hour : Z) : list Video :=
  filter (λ v, post_day_of_week v = day ∧ 0 < views v ∧ post_hour v = hour)
         (videos db).

Definition tier1_qualifies (db : DB) (day hour : Z) : Prop :=
  (2 ≤ length (day_hour_samples db day hour))%nat.

Definition tier1_score (db : DB) (day hour : Z) : Qc :=
  average (engagement_rate <$> day_hour_samples db day hour).

(** Tier 2: the rows of the hourly aggregate table. *)
Definition tier2_qualifies (db : DB) (hour : Z) : Prop :=
  ∃ r, hourly_performance db !! hour = Some r ∧ 3 ≤ h_total_videos r.

Definition tier2_score (db : DB) (hour : Z) : Qc :=
  default (Qc_of_Z 0) (h_avg_engagement <$> (hourly_performance db !! hour)).

(** [r] lists up to [n] of the qualifying hours, best score first: no hour
    twice, none left out that scores better than one listed, and none left
    out at all while there is room. *)
Definition top_hours (qualifies : Z → Prop) (score : Z → Qc) (n : Z)
    (r : list Z) : Prop :=
  NoDup r ∧
  (∀ h, h ∈ r → qualifies h) ∧
  StronglySorted (λ a b, (score b ≤ score a)%Qc) r ∧
  (∀ a b, a ∈ r → qualifies b → b ∉ r → (score b ≤ score a)%Qc) ∧
  Z.of_nat (length r) ≤ n ∧
  (Z.of_nat (length r) < n → ∀ h, qualifies h → h ∈ r).

End Spec.


(** * Properties *)

Import Analytics RunPipeline Scheduler Samples.

(** ** Shared lemmas on the [videos] table *)

Lemma update_where_run_id_absent rid f (vs : list Video) :
  rid ∉ (run_id <$> vs) → update_where_run_id rid f vs = vs.
Proof.
  unfold update_where_run_id. induction vs as [|v vs IH]; intros Hn; [done|].
  rewrite fmap_cons in Hn. apply not_elem_of_cons in Hn as [Hv Hvs].
  rewrite fmap_cons, IH by done.
  destruct (decide (run_id v = rid)); congruence.
Qed.

Lemma update_where_run_id_elem rid f (vs : list Video) w :
  w ∈ update_where_run_id rid f vs ↔
  ∃ v, v ∈ vs ∧ w = (if decide (run_id v = rid) then f v else v).
Proof.
  unfold update_where_run_id. rewrite list_elem_of_fmap.
  split; intros (v & H1 & H2); eauto.
Qed.

Lemma has_run_id_true rid db :
  has_run_id rid db = true ↔ ∃ v, v ∈ videos db ∧ run_id v = rid.
Proof.
  unfold has_run_id. rewrite bool_decide_eq_true, list_elem_of_fmap.
  split; intros (v & H1 & H2); eauto.
Qed.

Lemma has_run_id_false rid db :
  has_run_id rid db = false ↔ rid ∉ (run_id <$> videos db).
Proof. unfold has_run_id. apply bool_decide_eq_false. Qed.

Lemma pumped_of_spec views :
  (pumped_of views = 1 ↔ 10000 ≤ views) ∧
  (pumped_of views = 0 ↔ views < 10000).
Proof.
  unfold pumped_of, PUMP_THRESHOLD. destruct (decide (10000 ≤ views)); lia.
Qed.

Lemma filter_run_id_absent rid (vs : list Video) :
  rid ∉ (run_id <$> vs) → filter (λ v, run_id v = rid) vs = [].
Proof.
  induction vs as [|v vs IH]; intros Hn; [done|].
  rewrite fmap_cons in Hn. apply not_elem_of_cons in Hn as [Hv Hvs].
  rewrite filter_cons. destruct (decide (run_id v = rid)); [congruence|auto].
Qed.

Lemma filter_run_id_unique rid (vs : list Video) :
  NoDup (run_id <$> vs) → rid ∈ (run_id <$> vs) →
  length (filter (λ v, run_id v = rid) vs) = 1%nat.
Proof.
  induction vs as [|v vs IH]; intros Hnd Hin.
  - by apply elem_of_nil in Hin.
  - rewrite fmap_cons in Hnd, Hin. apply NoDup_cons in Hnd as [Hv Hnd].
    rewrite filter_cons. destruct (decide (run_id v = rid)) as [Heq|Hne].
    + rewrite Heq in Hv. by rewrite (filter_run_id_absent _ _ Hv).
    + apply elem_of_cons in Hin as [Hin|Hin]; [congruence|auto].
Qed.

(** ** The store *)

(** C3: after [update_performance] on an existing [run_id], the record
    holds the counts passed, its engagement rate is
    [(likes+comments+shares)/max(views,1)*100], and it is flagged pumped
    exactly when [views >= 10000]; no condition on the counts is needed, so
    [views = 0] is included. *)
Theorem update_performance_engagement_and_pumped
    rid views likes comments shares wta now db :
  has_run_id rid db = true →
  let db' := (update_performance rid views likes comments shares wta now db).1 in
  (∃ v, v ∈ Analytics.videos db' ∧ run_id v = rid) ∧
  ∀ v, v ∈ Analytics.videos db' → run_id v = rid →
    Analytics.views v = views ∧ Analytics.likes v = likes ∧
    Analytics.comments v = comments ∧ Analytics.shares v = shares ∧
    engagement_rate v =
      (Qc_of_Z (Analytics.likes v + Analytics.comments v + Analytics.shares v)
       / Qc_of_Z (Z.max (Analytics.views v) 1) * Qc_of_Z 100)%Qc ∧
    (pumped v = 1 ↔ 10000 ≤ Analytics.views v) ∧
    (pumped v = 0 ↔ Analytics.views v < 10000).
Proof.
  intros Hex db'. subst db'. simpl.
  apply has_run_id_true in Hex as (v0 & Hv0 & Hrid). split.
  - exists (set_metrics views likes comments shares wta v0). split; [|done].
    apply update_where_run_id_elem. exists v0. split; [done|].
    by rewrite decide_True.
  - intros v Hv Hr. apply update_where_run_id_elem in Hv as (u & Hu & ->).
    destruct (decide (run_id u = rid)) as [_|Hne]; [|congruence].
    simpl. repeat split; try apply pumped_of_spec.
Qed.

Lemma update_performance_engagement_and_pumped_witness :
  let db := sample_db [sample_video "r1" 1 19 0 0 10 "X" 0] in
  let db' := (update_performance "r1" 0 3 2 1 (Qc_of_Z 0) (Qc_of_Z 20) db).1 in
  has_run_id "r1" db = true ∧
  (∃ v, v ∈ Analytics.videos db' ∧ run_id v = "r1"%string) ∧
  ∀ v, v ∈ Analytics.videos db' → run_id v = "r1"%string →
    Analytics.views v = 0 ∧ Analytics.likes v = 3 ∧
    Analytics.comments v = 2 ∧ Analytics.shares v = 1 ∧
    engagement_rate v =
      (Qc_of_Z (Analytics.likes v + Analytics.comments v + Analytics.shares v)
       / Qc_of_Z (Z.max (Analytics.views v) 1) * Qc_of_Z 100)%Qc ∧
    (pumped v = 1 ↔ 10000 ≤ Analytics.views v) ∧
    (pumped v = 0 ↔ Analytics.views v < 10000).
Proof.
  intros db db'. split; [reflexivity|].
  apply (update_performance_engagement_and_pumped "r1" 0 3 2 1 (Qc_of_Z 0)
           (Qc_of_Z 20) db). reflexivity.
Defined.

(** C7: [get_hour_confidence] reports the number of the weekday's videos
    with views and the number of all videos with views, and the tier is
    "day-specific" exactly when the first is at least 4, otherwise
    "cross-day" exactly when the second is at least 6, otherwise
    "psychology". *)
Theorem get_hour_confidence_tier day_of_week db :
  let c := get_hour_confidence day_of_week db in
  day_videos c =
    Z.of_nat (length (filter (λ v, post_day_of_week v = day_of_week
                                   ∧ 0 < Analytics.views v)
                             (Analytics.videos db))) ∧
  any_videos c =
    Z.of_nat (length (filter (λ v, 0 < Analytics.views v)
                             (Analytics.videos db))) ∧
  (tier c = "day-specific"%string ↔ 4 ≤ day_videos c) ∧
  (tier c = "cross-day"%string ↔ day_videos c < 4 ∧ 6 ≤ any_videos c) ∧
  (tier c = "psychology"%string ↔ day_videos c < 4 ∧ any_videos c < 6).
Proof.
  unfold get_hour_confidence. simpl.
  split; [reflexivity|]. split; [reflexivity|].
  destruct (decide (4 ≤ day_count day_of_week db)) as [Hd|Hd];
    [|destruct (decide (6 ≤ any_count db)) as [Ha|Ha]];
    repeat split; intros; try lia; try done.
Qed.

(** C8: on a store with unique run ids, two [log_video] calls with the same
    [run_id] leave exactly one row for it; the second call returns the
    store of the first unchanged, whatever its other arguments. *)
Theorem log_video_twice_same_run_id rid sd1 out1 now1 sd2 out2 now2 db :
  unique_run_ids db →
  let db1 := log_video rid sd1 out1 now1 db in
  let db2 := log_video rid sd2 out2 now2 db1 in
  db2 = db1 ∧
  length (rows_with_run_id rid db2) = 1%nat ∧
  unique_run_ids db2.
Proof.
  intros Hu db1 db2.
  assert (Hin1 : has_run_id rid db1 = true).
  { subst db1. unfold log_video.
    destruct (has_run_id rid db) eqn:E; [done|].
    unfold has_run_id. apply bool_decide_eq_true. simpl.
    rewrite fmap_app. apply elem_of_app. right. simpl. apply list_elem_of_here. }
  assert (Hu1 : unique_run_ids db1).
  { subst db1. unfold log_video.
    destruct (has_run_id rid db) eqn:E; [done|].
    apply has_run_id_false in E.
    unfold unique_run_ids. simpl. rewrite fmap_app. apply NoDup_app.
    split; [done|]. split.
    - intros x Hx Hx'. simpl in Hx'. apply list_elem_of_singleton in Hx'.
      by subst x.
    - simpl. apply NoDup_singleton. }
  assert (E : db2 = db1).
  { subst db2. unfold log_video at 1. by rewrite Hin1. }
  rewrite E. split; [done|]. split; [|done].
  unfold rows_with_run_id. apply filter_run_id_unique; [done|].
  unfold has_run_id in Hin1. by apply bool_decide_eq_true in Hin1.
Qed.

Lemma log_video_twice_same_run_id_witness :
  let db := sample_db [sample_video "r0" 1 19 0 0 10 "X" 0] in
  let db1 := log_video "r1" (sample_script "A") "a.mp4"
               (sample_clock "2026-01-05" 0 7 30 100 0) db in
  let db2 := log_video "r1" (sample_script "B") "b.mp4"
               (sample_clock "2026-01-06" 1 8 31 200 150) db1 in
  unique_run_ids db ∧
  db2 = db1 ∧ length (rows_with_run_id "r1" db2) = 1%nat ∧ unique_run_ids db2.
Proof.
  intros db db1 db2.
  assert (Hu : unique_run_ids db).
  { unfold unique_run_ids. simpl. apply NoDup_singleton. }
  split; [exact Hu|].
  exact (log_video_twice_same_run_id "r1" (sample_script "A") "a.mp4"
           (sample_clock "2026-01-05" 0 7 30 100 0) (sample_script "B")
           "b.mp4" (sample_clock "2026-01-06" 1 8 31 200 150) db Hu).
Defined.

(** C9 as stated fails: a call that supplies only the YouTube id erases a
    stored TikTok id and URL. *)
Lemma save_platform_ids_youtube_only_erases_tiktok :
  let v := set_platform_ids EmptyString "7301" EmptyString
             "https://www.tiktok.com/@/video/7301"
             (sample_video "r1" 1 19 0 0 10 "X" 0) in
  let db' := save_platform_ids "r1" (Some "abc"%string) None (sample_db [v]) in
  ¬ (∀ w, w ∈ Analytics.videos db' → run_id w = "r1"%string →
          tiktok_id w = tiktok_id v ∧ tiktok_url w = tiktok_url v).
Proof.
  intros v db' H.
  destruct (H (set_platform_ids "abc" EmptyString
                 "https://youtube.com/shorts/abc" EmptyString v)) as [Hid _].
  - apply list_elem_of_here.
  - reflexivity.
  - discriminate Hid.
Qed.

(** C9, amended: [save_platform_ids] writes all four platform columns of
    the rows with the given [run_id] and nothing else.  An identifier that
    is supplied is stored with its canonical URL; one that is not supplied
    (or is empty) is stored as the empty string with an empty URL, whatever
    the row held before.  Rows with another [run_id] are unchanged. *)
Theorem save_platform_ids_overwrites rid yt tt db i v :
  Analytics.videos db !! i = Some v →
  ∃ v', Analytics.videos (save_platform_ids rid yt tt db) !! i = Some v' ∧
    (run_id v ≠ rid → v' = v) ∧
    (run_id v = rid →
       youtube_id v' = default EmptyString yt ∧
       tiktok_id v' = default EmptyString tt ∧
       youtube_url v' =
         (if is_empty (youtube_id v') then EmptyString
          else "https://youtube.com/shorts/" +:+ youtube_id v')%string ∧
       tiktok_url v' =
         (if is_empty (tiktok_id v') then EmptyString
          else "https://www.tiktok.com/@/video/" +:+ tiktok_id v')%string ∧
       v' = set_platform_ids (youtube_id v') (tiktok_id v')
                             (youtube_url v') (tiktok_url v') v).
Proof.
  intros Hv. unfold save_platform_ids. simpl.
  unfold update_where_run_id. rewrite list_lookup_fmap, Hv. simpl.
  destruct (decide (run_id v = rid)) as [Heq|Hne].
  - eexists. split; [reflexivity|]. split; [done|]. intros _. simpl.
    repeat split.
  - exists v. repeat split; done.
Qed.

Lemma save_platform_ids_overwrites_witness :
  let v := set_platform_ids EmptyString "7301" EmptyString
             "https://www.tiktok.com/@/video/7301"
             (sample_video "r1" 1 19 0 0 10 "X" 0) in
  Analytics.videos (sample_db [v]) !! 0%nat = Some v ∧
  ∃ v', Analytics.videos
          (save_platform_ids "r1" (Some "abc"%string) None (sample_db [v]))
          !! 0%nat = Some v' ∧
        youtube_id v' = "abc"%string ∧ tiktok_id v' = EmptyString ∧
        youtube_url v' = "https://youtube.com/shorts/abc"%string ∧
        tiktok_url v' = EmptyString.
Proof.
  intros v. split; [reflexivity|].
  destruct (save_platform_ids_overwrites "r1" (Some "abc"%string) None
              (sample_db [v]) 0%nat v eq_refl) as (v' & Hl & _ & Hset).
  exists v'. split; [exact Hl|].
  destruct (Hset eq_refl) as (Hy & Ht & Hyu & Htu & _).
  rewrite Hyu, Htu, Hy, Ht. simpl. repeat split.
Defined.

(** C10: [update_performance] with a [run_id] that no row has leaves the
    [videos] table as it was; the aggregate tables are those that
    [_recalculate_aggregates] computes from the unchanged store, and the
    success line is printed. *)
Theorem update_performance_unknown_run_id
    rid views likes comments shares wta now db :
  has_run_id rid db = false →
  let r := update_performance rid views likes comments shares wta now db in
  Analytics.videos r.1 = Analytics.videos db ∧
  r.1 = _recalculate_aggregates now db ∧
  r.2 = PrintedUpdated rid views (bool_decide (10000 ≤ views)).
Proof.
  intros Hn r. subst r. apply has_run_id_false in Hn.
  unfold update_performance. simpl.
  rewrite (update_where_run_id_absent _ _ _ Hn).
  split; [done|]. split.
  - by destruct db.
  - f_equal. apply bool_decide_ext.
    unfold pumped_of, PUMP_THRESHOLD.
    destruct (decide (10000 ≤ views)); split; intros; try lia; done.
Qed.

Lemma update_performance_unknown_run_id_witness :
  let db := sample_db [sample_video "r1" 1 19 500 2 10 "X" 0] in
  let r := update_performance "nope" 20000 5 4 3 (Qc_of_Z 0) (Qc_of_Z 20) db in
  has_run_id "nope" db = false ∧
  Analytics.videos r.1 = Analytics.videos db ∧
  r.1 = _recalculate_aggregates (Qc_of_Z 20) db ∧
  r.2 = PrintedUpdated "nope" 20000 (bool_decide (10000 ≤ 20000)).
Proof.
  intros db r. split; [reflexivity|].
  exact (update_performance_unknown_run_id "nope" 20000 5 4 3 (Qc_of_Z 0)
           (Qc_of_Z 20) db eq_refl).
Defined.



(** ** Sorting and selection *)

Section sorted_lists.
Context {A : Type} (R : relation A).

Lemma StronglySorted_sublist (l k : list A) :
  k `sublist_of` l → StronglySorted R l → StronglySorted R k.
Proof.
  induction 1 as [|x k l Hs IH|x k l Hs IH]; intros Hl.
  - constructor.
  - apply StronglySorted_inv in Hl as [Hl Hx]. constructor; [auto|].
    apply Forall_forall. intros y Hy.
    rewrite Forall_forall in Hx. apply Hx.
    eapply sublist_subseteq; eauto.
  - apply StronglySorted_inv in Hl as [Hl _]. auto.
Qed.

Lemma StronglySorted_filter (P : A → Prop) `{∀ x, Decision (P x)} l :
  StronglySorted R l → StronglySorted R (filter P l).
Proof. apply StronglySorted_sublist, sublist_filter. Qed.

Lemma StronglySorted_take n l :
  StronglySorted R l → StronglySorted R (take n l).
Proof. apply StronglySorted_sublist, sublist_take. Qed.

(** In a sorted list, what [take] leaves out comes after what it keeps. *)
Lemma StronglySorted_take_drop n l x y :
  StronglySorted R l → x ∈ take n l → y ∈ drop n l → R x y.
Proof.
  intros Hl Hx Hy. rewrite <- (take_drop n l) in Hl.
  eapply StronglySorted_app_1_elem_of; eauto.
Qed.
End sorted_lists.

Lemma filter_nil_Forall {A} (P : A → Prop) `{∀ x, Decision (P x)} (l : list A) :
  filter P l = [] ↔ Forall (λ x, ¬ P x) l.
Proof.
  induction l as [|x l IH]; [by split; [constructor|]|].
  rewrite filter_cons, Forall_cons. destruct (decide (P x)); [|tauto].
  split; [done|]. intros [? _]. tauto.
Qed.

Global Instance desc_Z_trans {A} (key : A → Z) : Transitive (desc_Z key).
Proof. unfold desc_Z. intros x y z ??. lia. Qed.

Global Instance desc_Z_total {A} (key : A → Z) : Total (desc_Z key).
Proof. unfold desc_Z. intros x y. lia. Qed.

Global Instance desc_Qc_trans {A} (key : A → Qc) : Transitive (desc_Qc key).
Proof. unfold desc_Qc. intros x y z ??. by etrans. Qed.

Global Instance desc_Qc_total {A} (key : A → Qc) : Total (desc_Qc key).
Proof. unfold desc_Qc. intros x y. destruct (total Qcle (key x) (key y)); auto. Qed.

(** ** The viral follow-up detector *)

Lemma followup_count_zero db v :
  followup_count v (Analytics.videos db) = 0 ↔ ¬ Spec.has_later_same_topic db v.
Proof.
  unfold followup_count, Spec.has_later_same_topic.
  rewrite <- Nat2Z.inj_0, Nat2Z.inj_iff, length_zero_iff_nil, filter_nil_Forall.
  rewrite Forall_forall. unfold is_followup_of. split.
  - intros H (w & Hw & Hr & Ht & Hc). apply (H w Hw). auto.
  - intros H w Hw (Ht & Hc & Hr). apply H. exists w. auto.
Qed.

(** C6: [get_viral_candidates] returns, each once, the records that are
    pumped, have a topic, and have no other record with the same topic
    string and a strictly later creation time; they are ordered by views,
    largest first; a record with such a later record, pumped or not, is not
    returned. *)
Theorem get_viral_candidates_spec db :
  unique_run_ids db →
  let r := get_viral_candidates db in
  r ≡ₚ to_candidate <$> filter (Spec.needs_followup db) (Analytics.videos db) ∧
  StronglySorted (λ c1 c2, c_views c2 ≤ c_views c1) r ∧
  (∀ c, c ∈ r ↔
        ∃ v, v ∈ Analytics.videos db ∧ c = to_candidate v ∧
             pumped v = 1 ∧ topic v ≠ EmptyString ∧
             ∀ w, w ∈ Analytics.videos db → run_id w ≠ run_id v →
                  topic w = topic v → ¬ (created_at v < created_at w)%Qc) ∧
  (∀ v w, v ∈ Analytics.videos db → w ∈ Analytics.videos db →
          run_id w ≠ run_id v → topic w = topic v →
          (created_at v < created_at w)%Qc →
          run_id v ∉ (c_run_id <$> r)).
Proof.
  intros Hu r.
  assert (Hperm : r ≡ₚ to_candidate <$>
                    filter (Spec.needs_followup db) (Analytics.videos db)).
  { subst r. unfold get_viral_candidates, pumped_with_topic, order_by_desc_Z.
    apply fmap_Permutation.
    rewrite merge_sort_Permutation, list_filter_filter.
    erewrite list_filter_iff; [reflexivity|].
    intros v. unfold Spec.needs_followup. rewrite followup_count_zero. tauto. }
  assert (Hmem : ∀ c, c ∈ r ↔
        ∃ v, v ∈ Analytics.videos db ∧ c = to_candidate v ∧
             pumped v = 1 ∧ topic v ≠ EmptyString ∧
             ∀ w, w ∈ Analytics.videos db → run_id w ≠ run_id v →
                  topic w = topic v → ¬ (created_at v < created_at w)%Qc).
  { intros c. rewrite Hperm, list_elem_of_fmap. split.
    - intros (v & -> & Hv). apply list_elem_of_filter in Hv as [(Hp & Ht & Hn) Hv].
      exists v. repeat split; auto. intros w Hw Hr Htw Hc. apply Hn.
      exists w. auto.
    - intros (v & Hv & -> & Hp & Ht & Hn). exists v. split; [done|].
      apply list_elem_of_filter. split; [|done]. repeat split; auto.
      intros (w & Hw & Hr & Htw & Hc). exact (Hn w Hw Hr Htw Hc). }
  split; [exact Hperm|]. split; [|split; [exact Hmem|]].
  - subst r. unfold get_viral_candidates, pumped_with_topic, order_by_desc_Z.
    apply (StronglySorted_fmap _ (desc_Z Analytics.views)).
    + intros x y Hxy. exact Hxy.
    + apply StronglySorted_filter, StronglySorted_merge_sort; apply _.
  - intros v w Hv Hw Hr Ht Hc Hin.
    apply list_elem_of_fmap in Hin as (c & Hc1 & Hc2).
    apply Hmem in Hc2 as (v' & Hv' & -> & _ & _ & Hn). simpl in Hc1.
    assert (v' = v) as ->.
    { unfold unique_run_ids in Hu.
      apply list_elem_of_lookup in Hv as [i Hi].
      apply list_elem_of_lookup in Hv' as [j Hj].
      assert (i = j) as ->.
      { apply (NoDup_lookup _ i j (run_id v) Hu);
          rewrite list_lookup_fmap; [rewrite Hi|rewrite Hj]; simpl; congruence. }
      congruence. }
    exact (Hn w Hw Hr Ht Hc).
Qed.



Lemma get_viral_candidates_spec_witness :
  let v1 := sample_video "r1" 1 19 12000 2 10 "X" 1 in
  let db := log_video "r2" (sample_script "X") "out.mp4"
              (sample_clock "2026-01-06" 1 20 15 50 0) (sample_db [v1]) in
  unique_run_ids db ∧
  "r1"%string ∉ (c_run_id <$> get_viral_candidates db).
Proof.
  intros v1 db.
  assert (Hu : unique_run_ids db).
  { unfold unique_run_ids. apply (bool_decide_unpack _). vm_compute. exact I. }
  split; [exact Hu|].
  destruct (get_viral_candidates_spec db Hu) as (_ & _ & _ & H).
  apply (H v1 (new_video "r2" (sample_script "X") "out.mp4"
                 (sample_clock "2026-01-06" 1 20 15 50 0))).
  - apply list_elem_of_here.
  - apply list_elem_of_further, list_elem_of_here.
  - discriminate.
  - reflexivity.
  - reflexivity.
Defined.

(** ** The topic freshness filter *)

Lemma fresh_loop_false cand_words pumped_set useds :
  fresh_loop cand_words pumped_set useds = false ↔
  ∃ u, u ∈ useds ∧ (_topic_words u ∉ pumped_set) ∧
       (3 ≤ size (cand_words ∩ _topic_words u))%nat.
Proof.
  induction useds as [|u rest IH]; simpl.
  - split; [done|]. intros (u & Hu & _). by apply elem_of_nil in Hu.
  - destruct (decide (_topic_words u ∈ pumped_set)) as [Hp|Hp];
      [|destruct (decide (3 ≤ size (cand_words ∩ _topic_words u))%nat)
          as [Hs|Hs]].
    + rewrite IH. split.
      * intros (w & Hw & H). exists w. split; [by apply list_elem_of_further|done].
      * intros (w & Hw & Hn & Hs). apply elem_of_cons in Hw as [->|Hw]; [done|].
        exists w. auto.
    + split; [|done]. intros _. exists u. split; [apply list_elem_of_here|done].
    + rewrite IH. split.
      * intros (w & Hw & H). exists w. split; [by apply list_elem_of_further|done].
      * intros (w & Hw & Hn & Hs'). apply elem_of_cons in Hw as [->|Hw]; [done|].
        exists w. auto.
Qed.

(** The comprehension over the pumped topics decides whether
    [_topic_is_fresh] returns at all. *)
Lemma topic_is_fresh_pumped candidate used_info :
  pumped_topics used_info ≠ [] →
  _topic_is_fresh candidate used_info = Raised TypeError.
Proof.
  unfold _topic_is_fresh. destruct (pumped_topics used_info); [done|].
  reflexivity.
Qed.

Lemma topic_is_fresh_no_pumped candidate used_info :
  pumped_topics used_info = [] →
  _topic_is_fresh candidate used_info =
  Returned (fresh_loop (_topic_words candidate) ∅ (used used_info)).
Proof. unfold _topic_is_fresh. intros ->. reflexivity. Qed.

Lemma topic_is_fresh_false candidate used_info :
  pumped_topics used_info = [] →
  _topic_is_fresh candidate used_info = Returned false ↔
  ∃ u, u ∈ used used_info ∧
       (3 ≤ size (_topic_words candidate ∩ _topic_words u))%nat.
Proof.
  intros Hp. rewrite (topic_is_fresh_no_pumped _ _ Hp). split.
  - intros H. injection H as H. apply fresh_loop_false in H.
    destruct H as (u & Hu & _ & Hs). exists u. auto.
  - intros (u & Hu & Hs). f_equal. apply fresh_loop_false. exists u.
    split; [done|]. split; [apply not_elem_of_empty|done].
Qed.

Lemma topic_is_fresh_true candidate used_info :
  pumped_topics used_info = [] →
  _topic_is_fresh candidate used_info = Returned true ↔
  ¬ ∃ u, u ∈ used used_info ∧
         (3 ≤ size (_topic_words candidate ∩ _topic_words u))%nat.
Proof.
  intros Hp. rewrite <- (topic_is_fresh_false _ _ Hp).
  rewrite (topic_is_fresh_no_pumped _ _ Hp).
  destruct (fresh_loop _ _ _); split; done.
Qed.

(** C2: the code breaks the claim.  With the used topic
    "Trader lost everything in 2021" pumped, the candidate
    "Trader lost everything in 2021 part 2" is not accepted:
    [_topic_is_fresh] raises [TypeError], as it does for every candidate on
    every history whose pumped list is not empty, because it builds a set
    whose elements are the word sets of the pumped topics and a word set
    has no hash.  On a history without pumped topic it returns, and rejects
    the candidate exactly when it shares at least 3 meaningful words with a
    used topic that did not pump; the first example is rejected. *)
Theorem topic_is_fresh_raises_on_pumped_history :
  _topic_is_fresh "Trader lost everything in 2021 part 2"
    {| used := ["Trader lost everything in 2021"]%string;
       pumped_topics := ["Trader lost everything in 2021"]%string |}
  = Raised TypeError ∧
  (∀ candidate used_info,
     pumped_topics used_info ≠ [] →
     _topic_is_fresh candidate used_info = Raised TypeError) ∧
  (∀ candidate used_info,
     pumped_topics used_info = [] →
     (_topic_is_fresh candidate used_info = Returned false ↔
      Spec.overlaps_unpumped_topic candidate used_info) ∧
     (_topic_is_fresh candidate used_info = Returned true ↔
      ¬ Spec.overlaps_unpumped_topic candidate used_info)) ∧
  _topic_is_fresh "Trader lost it all in 2021"
    {| used := ["Trader lost everything in 2021"]%string;
       pumped_topics := [] |} = Returned false.
Proof.
  split; [reflexivity|]. split; [apply topic_is_fresh_pumped|].
  split; [|vm_compute; reflexivity].
  intros candidate used_info Hp.
  assert (Ho : Spec.overlaps_unpumped_topic candidate used_info ↔
               ∃ u, u ∈ used used_info ∧
                 (3 ≤ size (_topic_words candidate ∩ _topic_words u))%nat).
  { unfold Spec.overlaps_unpumped_topic. rewrite Hp. split.
    - intros (u & Hu & _ & Hs). exists u. auto.
    - intros (u & Hu & Hs). exists u. split; [done|]. split; [|done].
      apply not_elem_of_nil. }
  rewrite Ho. split.
  - by apply topic_is_fresh_false.
  - by apply topic_is_fresh_true.
Qed.



(** ** The daily schedule *)

Lemma merge_loop_spec (hs : list Z) : ∀ (seen : gset Z) (combined : list Z),
  (∀ x, x ∈ seen ↔ x ∈ combined) → NoDup combined →
  NoDup (merge_loop seen combined hs) ∧
  ∀ x, x ∈ merge_loop seen combined hs ↔ x ∈ combined ∨ x ∈ hs.
Proof.
  induction hs as [|h rest IH]; intros seen combined Hseen Hnd; simpl.
  - split; [done|]. intros x. rewrite elem_of_nil. tauto.
  - destruct (decide (h ∈ seen)) as [Hin|Hin].
    + destruct (IH seen combined Hseen Hnd) as [Hn Hm]. split; [done|].
      intros x. rewrite Hm, elem_of_cons. split; [tauto|].
      intros [?|[->|?]]; auto. left. by apply Hseen.
    + destruct (IH ({[h]} ∪ seen) (combined ++ [h])) as [Hn Hm].
      * intros x. rewrite elem_of_union, elem_of_singleton, elem_of_app,
          list_elem_of_singleton, Hseen. tauto.
      * apply NoDup_app. split; [done|]. split; [|apply NoDup_singleton].
        intros x Hx Hx'. apply list_elem_of_singleton in Hx' as ->.
        apply Hin. by apply Hseen.
      * split; [done|]. intros x.
        rewrite Hm, elem_of_app, list_elem_of_singleton, elem_of_cons. tauto.
Qed.

Lemma StronglySorted_le_lt (l : list Z) :
  StronglySorted Z.le l → NoDup l → StronglySorted Z.lt l.
Proof.
  induction 1 as [|x l Hl IH Hx]; intros Hnd; constructor.
  - apply NoDup_cons in Hnd as [_ Hnd]. auto.
  - apply NoDup_cons in Hnd as [Hnx _]. apply Forall_forall. intros y Hy.
    rewrite Forall_forall in Hx. specialize (Hx y Hy).
    assert (x ≠ y) by (intros ->; done). lia.
Qed.

Lemma py_prefix_take {A} n (l : list A) : ∃ k, py_prefix n l = take k l.
Proof. unfold py_prefix. destruct (decide (0 ≤ n)); eauto. Qed.

Lemma add_jitter_hours draw hours : ∀ pos,
  (add_jitter draw pos hours).*1 = hours.
Proof. induction hours as [|h r IH]; intros pos; simpl; [done|]. by rewrite IH. Qed.

Lemma add_jitter_minutes draw hours : ∀ pos h m,
  (h, m) ∈ add_jitter draw pos hours → 5 ≤ m ≤ 55.
Proof.
  induction hours as [|h0 r IH]; intros pos h m Hin; simpl in Hin.
  - by apply elem_of_nil in Hin.
  - apply elem_of_cons in Hin as [Heq|Hin]; [|eauto].
    injection Heq as -> ->. unfold randint.
    pose proof (Z.mod_pos_bound (draw pos) (55 - 5 + 1)). lia.
Qed.

Lemma active_hours_elem e h :
  h ∈ active_hours e ↔
  in_active_window h ∧ h ∈ learned_hours e ++ psych_hours e.
Proof.
  unfold active_hours, combined_hours.
  rewrite merge_sort_Permutation, list_elem_of_filter.
  destruct (merge_loop_spec (learned_hours e ++ psych_hours e) ∅ []) as [_ Hm].
  - intros x. rewrite elem_of_nil. set_solver.
  - constructor.
  - rewrite Hm, elem_of_nil. tauto.
Qed.

Lemma active_hours_sorted e : StronglySorted Z.lt (active_hours e).
Proof.
  apply StronglySorted_le_lt.
  - apply StronglySorted_merge_sort; apply _.
  - unfold active_hours, combined_hours. rewrite merge_sort_Permutation.
    apply NoDup_filter.
    apply (merge_loop_spec (learned_hours e ++ psych_hours e) ∅ []).
    + intros x. rewrite elem_of_nil. set_solver.
    + constructor.
Qed.

(** C5: the code breaks the claim.  On a Monday whose store holds four
    Monday videos with views, two made at 21h and two at 22h, the learned
    hours are [21; 22] and the confidence tier is "day-specific".  The
    merge puts them first, but step 4 sorts the active hours before it
    truncates them: with a cap of 2 the schedule is made of the hours
    [7; 8] of the prior table, where the first two hours of the merged
    order are [21; 22]; with a cap of 4 it is [7; 8; 12; 19], where the
    merged order gives [21; 22; 7; 8].  No learned hour is scheduled. *)
Theorem build_daily_schedule_drops_learned_hours :
  let monday := sample_clock "2026-01-05" 0 3 0 100 0 in
  let e2 := sample_env monday 2 learned_db in
  let e4 := sample_env monday 4 learned_db in
  tier (get_hour_confidence 0 learned_db) = "day-specific"%string ∧
  learned_hours e2 = [21; 22] ∧
  Spec.hours_in_merged_order e2 = [21; 22] ∧
  (build_daily_schedule e2 initial_state).1.*1 = [7; 8] ∧
  learned_hours e4 = [21; 22] ∧
  Spec.hours_in_merged_order e4 = [21; 22; 7; 8] ∧
  (build_daily_schedule e4 initial_state).1.*1 = [7; 8; 12; 19].
Proof. repeat split; vm_compute; reflexivity. Qed.

(** What [build_daily_schedule] computes on every input, the sort before
    the truncation included: every slot is in the active window
    (6 <= h < 23), comes from the learned hours or from the prior table and
    has its minute in [5,55]; the slots are strictly ascending; and for a
    cap that is not negative there are at most cap slots, every active
    merged hour left out is later than every hour kept, and none is left
    out while there are fewer than cap slots. *)
Lemma build_daily_schedule_earliest_hours e st :
  let sched := (build_daily_schedule e st).1 in
  let cap := get_max_videos_per_day e in
  let merged := learned_hours e ++ psych_hours e in
  (∀ h m, (h, m) ∈ sched → 6 ≤ h < 23 ∧ 5 ≤ m ≤ 55 ∧ h ∈ merged) ∧
  StronglySorted Z.lt sched.*1 ∧
  (0 ≤ cap →
     Z.of_nat (length sched) ≤ cap ∧
     (∀ a b, a ∈ sched.*1 → b ∈ merged → 6 ≤ b < 23 → b ∉ sched.*1 → a < b) ∧
     (Z.of_nat (length sched) < cap →
        ∀ b, b ∈ merged → 6 ≤ b < 23 → b ∈ sched.*1)).
Proof.
  intros sched cap merged. subst sched. unfold build_daily_schedule. simpl.
  rewrite add_jitter_hours.
  assert (Hlen : length (add_jitter (draw e) (rng_pos st) (chosen_hours e))
                 = length (chosen_hours e)).
  { rewrite <- (add_jitter_hours (draw e) (chosen_hours e) (rng_pos st)) at 2.
    by rewrite length_fmap. }
  rewrite Hlen.
  assert (Hch : chosen_hours e = py_prefix cap (active_hours e)) by done.
  split; [|split].
  - intros h m Hin. split; [|split].
    + assert (Hh : h ∈ chosen_hours e).
      { rewrite <- (add_jitter_hours (draw e) (chosen_hours e) (rng_pos st)).
        apply list_elem_of_fmap. by exists (h, m). }
      rewrite Hch in Hh. destruct (py_prefix_take cap (active_hours e)) as [k Hk].
      rewrite Hk in Hh. apply (sublist_subseteq _ _ (sublist_take _ _)) in Hh.
      apply active_hours_elem in Hh as [Hh _]. exact Hh.
    + by eapply add_jitter_minutes.
    + assert (Hh : h ∈ chosen_hours e).
      { rewrite <- (add_jitter_hours (draw e) (chosen_hours e) (rng_pos st)).
        apply list_elem_of_fmap. by exists (h, m). }
      rewrite Hch in Hh. destruct (py_prefix_take cap (active_hours e)) as [k Hk].
      rewrite Hk in Hh. apply (sublist_subseteq _ _ (sublist_take _ _)) in Hh.
      apply active_hours_elem in Hh as [_ Hh]. exact Hh.
  - rewrite Hch. destruct (py_prefix_take cap (active_hours e)) as [k ->].
    apply StronglySorted_take, active_hours_sorted.
  - intros Hcap. rewrite Hch. unfold py_prefix. rewrite decide_True by done.
    rewrite length_take. split; [lia|]. split.
    + intros a b Ha Hb Hact Hnb.
      assert (Hb' : b ∈ active_hours e) by (by apply active_hours_elem).
      rewrite <- (take_drop (Z.to_nat cap) (active_hours e)) in Hb'.
      apply elem_of_app in Hb' as [Hb'|Hb']; [done|].
      eapply StronglySorted_take_drop; eauto using active_hours_sorted.
    + intros Hlt b Hb Hact.
      rewrite take_ge by lia. by apply active_hours_elem.
Qed.

Lemma build_daily_schedule_earliest_hours_witness :
  let e := sample_env (sample_clock "2026-01-05" 0 3 0 100 0) 2 learned_db in
  let sched := (build_daily_schedule e initial_state).1 in
  0 ≤ get_max_videos_per_day e ∧
  Z.of_nat (length sched) ≤ get_max_videos_per_day e ∧
  (∀ h m, (h, m) ∈ sched →
          6 ≤ h < 23 ∧ 5 ≤ m ≤ 55 ∧ h ∈ learned_hours e ++ psych_hours e).
Proof.
  intros e sched.
  assert (Hcap : 0 ≤ get_max_videos_per_day e) by (vm_compute; discriminate).
  destruct (build_daily_schedule_earliest_hours e initial_state)
    as (Hslots & _ & Hbound).
  destruct (Hbound Hcap) as (Hlen & _).
  split; [exact Hcap|]. split; [exact Hlen|exact Hslots].
Defined.

(** ** The run gate *)

(** C4 as stated fails twice: outside the active window the reason is not
    the cap-reached one; and the gate compares the cap with its own
    counter, which a scheduler that already counted today does not read
    again from the store. *)
Lemma should_run_now_cap_not_always_reported :
  let e1 := sample_env (sample_clock "2026-01-05" 0 3 0 100 0) 2 fresh_db in
  let e2 := sample_env (sample_clock "2026-01-05" 0 7 59 100 0) 2 fresh_db in
  get_max_videos_per_day e1 ≤ get_today_video_count (now e1) (db e1) ∧
  (should_run_now e1 initial_state).1 = (false, OutsideActiveHours 6 23) ∧
  (∀ c m, (should_run_now e1 initial_state).1.2 ≠ DailyCapReached c m) ∧
  get_max_videos_per_day e2 ≤ get_today_video_count (now e2) (db e2) ∧
  (should_run_now e2 (counted_none "2026-01-05")).1 = (true, OK).
Proof.
  repeat split; try (vm_compute; reflexivity); vm_compute; discriminate.
Qed.

(** C4, amended: whenever the scheduler's daily counter, as
    [get_daily_count] returns it, has reached [max_videos_per_day],
    [should_run_now] returns false, whatever the hour and the schedule.
    The reason is the cap-reached one when the hour is in the active window
    and is not the hour of the last run; outside the window it is the
    active-hours reason, and in the hour of the last run the already-ran
    reason.  On the first check of a day (or of a process) the counter is
    the store's count of the videos created today. *)
Theorem should_run_now_daily_cap e st :
  let count := (get_daily_count e st).1 in
  let cap := get_max_videos_per_day e in
  cap ≤ count →
  (should_run_now e st).1.1 = false ∧
  (is_active_hour e = false →
     (should_run_now e st).1.2 = OutsideActiveHours 6 23) ∧
  (is_active_hour e = true → now_hour (now e) = _last_run_hour st →
     (should_run_now e st).1.2 = AlreadyRanThisHour) ∧
  (is_active_hour e = true → now_hour (now e) ≠ _last_run_hour st →
     (should_run_now e st).1.2 = DailyCapReached count cap) ∧
  (_daily_run_count_date st ≠ now_date (now e) →
     count = get_today_video_count (now e) (db e)).
Proof.
  intros count cap Hcap. subst count cap. unfold should_run_now.
  destruct (is_active_hour e) eqn:Hact; simpl.
  - destruct (decide (now_hour (now e) = _last_run_hour st)) as [Hh|Hh]; simpl.
    + repeat split; try done. unfold get_daily_count. intros Hd.
      by rewrite decide_True.
    + destruct (get_daily_count e st) as [c st1] eqn:Hc. simpl in Hcap.
      rewrite decide_True by done. simpl.
      repeat split; try done. intros Hd. unfold get_daily_count in Hc.
      rewrite decide_True in Hc by done. by injection Hc as <- _.
  - repeat split; try done. unfold get_daily_count. intros Hd.
    by rewrite decide_True.
Qed.

Lemma should_run_now_daily_cap_witness :
  let e := sample_env (sample_clock "2026-01-05" 0 7 59 100 0) 2 fresh_db in
  get_max_videos_per_day e ≤ (get_daily_count e initial_state).1 ∧
  (should_run_now e initial_state).1 = (false, DailyCapReached 2 2).
Proof.
  intros e.
  assert (Hcap : get_max_videos_per_day e ≤ (get_daily_count e initial_state).1)
    by (vm_compute; discriminate).
  split; [exact Hcap|].
  destruct (should_run_now_daily_cap e initial_state Hcap)
    as (Hf & _ & _ & Hr & _).
  rewrite (surjective_pairing (should_run_now e initial_state).1).
  rewrite Hf, Hr; [reflexivity | reflexivity | vm_compute; discriminate].
Defined.



(** ** The tiered best hours of a weekday *)

Lemma distinct_spec {A} `{EqDecision A} (l : list A) : ∀ seen,
  NoDup (distinct seen l) ∧
  ∀ x, x ∈ distinct seen l ↔ x ∈ l ∧ x ∉ seen.
Proof.
  induction l as [|a l IH]; intros seen; simpl.
  - split; [constructor|]. intros x. rewrite elem_of_nil. tauto.
  - destruct (decide (a ∈ seen)) as [Hin|Hin].
    + destruct (IH seen) as [Hn Hm]. split; [done|].
      intros x. rewrite Hm, elem_of_cons. split; [tauto|].
      intros [[->|?] ?]; tauto.
    + destruct (IH (a :: seen)) as [Hn Hm]. split.
      * constructor; [|done]. rewrite Hm, elem_of_cons. tauto.
      * intros x. rewrite !elem_of_cons, Hm, elem_of_cons.
        destruct (decide (x = a)) as [->|]; tauto.
Qed.

Lemma filter_fmap {A B} (f : A → B) (P : B → Prop) `{∀ y, Decision (P y)}
    (l : list A) :
  filter P (f <$> l) = f <$> filter (λ x, P (f x)) l.
Proof.
  induction l as [|x l IH]; [done|].
  rewrite fmap_cons, !filter_cons, IH.
  destruct (decide (P (f x))); done.
Qed.

Lemma StronglySorted_fmap_elem {A B} (f : A → B) (R1 : relation A)
    (R2 : relation B) (l : list A) :
  (∀ x y, x ∈ l → y ∈ l → R1 x y → R2 (f x) (f y)) →
  StronglySorted R1 l → StronglySorted R2 (f <$> l).
Proof.
  intros HR Hl. induction Hl as [|x l Hl IH Hx]; [constructor|].
  rewrite fmap_cons. constructor.
  - apply IH. intros a b Ha Hb. apply HR; by apply list_elem_of_further.
  - apply Forall_fmap, Forall_forall. intros y Hy. simpl.
    rewrite Forall_forall in Hx.
    apply HR; [apply list_elem_of_here|by apply list_elem_of_further|auto].
Qed.

(** The first [n] rows of a table sorted by score are its top hours. *)
Lemma top_hours_of_sorted {B} (proj : B → Z) (key : B → Qc) (L : list B)
    (qualifies : Z → Prop) (score : Z → Qc) (n : Z) :
  0 ≤ n →
  StronglySorted (desc_Qc key) L →
  NoDup (proj <$> L) →
  (∀ h, qualifies h ↔ h ∈ proj <$> L) →
  (∀ g, g ∈ L → score (proj g) = key g) →
  Spec.top_hours qualifies score n (proj <$> take (Z.to_nat n) L).
Proof.
  intros Hn Hsorted Hnd Hq Hscore.
  assert (Hsub : ∀ g, g ∈ take (Z.to_nat n) L → g ∈ L).
  { intros g. apply sublist_subseteq, sublist_take. }
  unfold Spec.top_hours. repeat split.
  - rewrite fmap_take. eapply sublist_NoDup; [exact Hnd|apply sublist_take].
  - intros h Hh. apply Hq. apply list_elem_of_fmap in Hh as (g & -> & Hg).
    apply list_elem_of_fmap. eauto.
  - apply (StronglySorted_fmap_elem _ (desc_Qc key)).
    + intros x y Hx Hy Hxy. rewrite !Hscore by auto. exact Hxy.
    + by apply StronglySorted_take.
  - intros a b Ha Hb Hnb. apply list_elem_of_fmap in Ha as (ga & -> & Hga).
    apply Hq, list_elem_of_fmap in Hb as (gb & -> & Hgb).
    rewrite <- (take_drop (Z.to_nat n) L) in Hgb.
    apply elem_of_app in Hgb as [Hgb|Hgb].
    { exfalso. apply Hnb. apply list_elem_of_fmap. eauto. }
    rewrite !Hscore; auto.
    + eapply (StronglySorted_take_drop (desc_Qc key)); eauto.
    + rewrite <- (take_drop (Z.to_nat n) L). apply elem_of_app. auto.
  - rewrite length_fmap, length_take. lia.
  - rewrite length_fmap, length_take. intros Hlt h Hh.
    rewrite take_ge by lia. by apply Hq.
Qed.

Lemma or_zero_sql_avg (l : list Qc) :
  l ≠ [] → or_zero (sql_avg l) = Spec.average l.
Proof. destruct l; [done|]. intros _. reflexivity. Qed.

(** *** Tier 1 *)

Lemma hour_samples_eq d h db :
  filter (λ v, post_hour v = h) (day_rows d (Analytics.videos db))
  = Spec.day_hour_samples db d h.
Proof.
  unfold day_rows, Spec.day_hour_samples. rewrite list_filter_filter.
  apply list_filter_iff. intros v. tauto.
Qed.

Lemma hour_group_cnt d h db :
  g_cnt (hour_group (day_rows d (Analytics.videos db)) h)
  = Z.of_nat (length (Spec.day_hour_samples db d h)).
Proof. unfold hour_group. simpl. by rewrite hour_samples_eq. Qed.

Lemma tier1_sorted_elem d db g :
  g ∈ tier1_sorted d db ↔
  g = hour_group (day_rows d (Analytics.videos db)) (g_hour g) ∧
  Spec.tier1_qualifies db d (g_hour g).
Proof.
  unfold tier1_sorted, order_by_desc_Qc, group_by_post_hour.
  rewrite merge_sort_Permutation, list_elem_of_filter, list_elem_of_fmap.
  unfold Spec.tier1_qualifies. split.
  - intros (Hc & h & -> & Hh). split; [done|].
    rewrite hour_group_cnt in Hc. simpl. lia.
  - intros (Hg & Hq). split.
    + rewrite Hg, hour_group_cnt. lia.
    + exists (g_hour g). split; [done|].
      apply (distinct_spec _ []). split; [|apply not_elem_of_nil].
      destruct (Spec.day_hour_samples db d (g_hour g)) as [|v vs] eqn:E;
        [simpl in Hq; lia|].
      assert (Hv : v ∈ Spec.day_hour_samples db d (g_hour g))
        by (rewrite E; apply list_elem_of_here).
      rewrite <- hour_samples_eq in Hv.
      apply list_elem_of_filter in Hv as [Hh Hv].
      apply list_elem_of_fmap. exists v. auto.
Qed.

Lemma tier1_sorted_hours d db h :
  Spec.tier1_qualifies db d h ↔ h ∈ g_hour <$> tier1_sorted d db.
Proof.
  rewrite list_elem_of_fmap. split.
  - intros Hq. exists (hour_group (day_rows d (Analytics.videos db)) h).
    split; [done|]. apply tier1_sorted_elem. simpl. auto.
  - intros (g & -> & Hg). by apply tier1_sorted_elem in Hg as [_ Hq].
Qed.

Lemma tier1_sorted_NoDup d db : NoDup (g_hour <$> tier1_sorted d db).
Proof.
  unfold tier1_sorted, order_by_desc_Qc, group_by_post_hour.
  rewrite merge_sort_Permutation, filter_fmap, <- list_fmap_compose.
  rewrite (list_fmap_ext _ id) by done.
  rewrite list_fmap_id. apply NoDup_filter, (distinct_spec _ []).
Qed.

Lemma tier1_sorted_score d db g :
  g ∈ tier1_sorted d db → Spec.tier1_score db d (g_hour g) = g_avg_eng g.
Proof.
  intros [Hg Hq]%tier1_sorted_elem. rewrite Hg at 2.
  unfold hour_group, Spec.tier1_score, avg_engagement_of. simpl.
  rewrite hour_samples_eq, or_zero_sql_avg; [done|].
  unfold Spec.tier1_qualifies in Hq.
  destruct (Spec.day_hour_samples db d (g_hour g)); [simpl in Hq; lia|done].
Qed.

(** *** Tier 2 *)

Lemma tier2_sorted_elem db (r : Z * HourlyRow) :
  r ∈ tier2_sorted db ↔
  hourly_performance db !! r.1 = Some r.2 ∧ 3 ≤ h_total_videos r.2.
Proof.
  unfold tier2_sorted, order_by_desc_Qc.
  rewrite merge_sort_Permutation, list_elem_of_filter.
  destruct r as [h row]. rewrite elem_of_map_to_list. simpl. tauto.
Qed.

Lemma tier2_sorted_hours db h :
  Spec.tier2_qualifies db h ↔ h ∈ (tier2_sorted db).*1.
Proof.
  unfold Spec.tier2_qualifies. rewrite list_elem_of_fmap. split.
  - intros (row & Hl & Ht). exists (h, row). split; [done|].
    by apply tier2_sorted_elem.
  - intros ([h' row] & -> & Hr). apply tier2_sorted_elem in Hr. eauto.
Qed.

Lemma NoDup_fmap_filter {A B} (f : A → B) (P : A → Prop)
    `{∀ x, Decision (P x)} (l : list A) :
  NoDup (f <$> l) → NoDup (f <$> filter P l).
Proof.
  induction l as [|x l IH]; [done|].
  rewrite fmap_cons, filter_cons. intros [Hx Hl]%NoDup_cons.
  destruct (decide (P x)); [|auto].
  rewrite fmap_cons. apply NoDup_cons. split; [|auto].
  intros Hin. apply Hx. apply list_elem_of_fmap in Hin as (y & -> & Hy).
  apply list_elem_of_fmap. exists y. split; [done|].
  by apply list_elem_of_filter in Hy as [_ Hy].
Qed.

Lemma tier2_sorted_NoDup db : NoDup (tier2_sorted db).*1.
Proof.
  unfold tier2_sorted, order_by_desc_Qc. rewrite merge_sort_Permutation.
  apply NoDup_fmap_filter, NoDup_fst_map_to_list.
Qed.

Lemma tier2_sorted_score db (r : Z * HourlyRow) :
  r ∈ tier2_sorted db → Spec.tier2_score db r.1 = h_avg_engagement r.2.
Proof.
  intros [Hl _]%tier2_sorted_elem. unfold Spec.tier2_score. by rewrite Hl.
Qed.

(** C1: for a requested count [n >= 0], [get_best_hours_for_day] returns
    the up-to-[n] hours of the weekday's videos with views that have at
    least 2 samples, best average engagement first, when there is such an
    hour; otherwise the up-to-[n] hours of the hourly aggregate table with
    at least 3 samples, best average engagement first; otherwise the empty
    list. *)
Theorem get_best_hours_for_day_tiers day_of_week n db :
  0 ≤ n →
  let r := get_best_hours_for_day day_of_week n db in
  ((∃ h, Spec.tier1_qualifies db day_of_week h) →
     Spec.top_hours (Spec.tier1_qualifies db day_of_week)
                    (Spec.tier1_score db day_of_week) n r) ∧
  ((¬ ∃ h, Spec.tier1_qualifies db day_of_week h) →
   (∃ h, Spec.tier2_qualifies db h) →
     Spec.top_hours (Spec.tier2_qualifies db) (Spec.tier2_score db) n r) ∧
  ((¬ ∃ h, Spec.tier1_qualifies db day_of_week h) →
   (¬ ∃ h, Spec.tier2_qualifies db h) →
     r = []).
Proof.
  intros Hn r.
  assert (Hlim : ∀ {B} (l : list B), sql_limit n l = take (Z.to_nat n) l).
  { intros B l. unfold sql_limit. rewrite decide_False by lia. done. }
  assert (H1 : (∃ h, Spec.tier1_qualifies db day_of_week h) →
               r = g_hour <$> take (Z.to_nat n) (tier1_sorted day_of_week db)).
  { intros [h Hh]. subst r. unfold get_best_hours_for_day, tier1_rows.
    rewrite Hlim.
    destruct (take (Z.to_nat n) (tier1_sorted day_of_week db)) eqn:E; [|done].
    apply take_nil_inv in E as [E|E].
    - unfold tier2_rows. by rewrite Hlim, E, take_0.
    - apply tier1_sorted_hours in Hh. rewrite E in Hh.
      by apply elem_of_nil in Hh. }
  assert (H2 : (¬ ∃ h, Spec.tier1_qualifies db day_of_week h) →
               r = (take (Z.to_nat n) (tier2_sorted db)).*1).
  { intros Hno. subst r. unfold get_best_hours_for_day, tier1_rows, tier2_rows.
    rewrite !Hlim.
    destruct (tier1_sorted day_of_week db) as [|g l] eqn:E;
      [by rewrite take_nil|].
    exfalso. apply Hno. exists (g_hour g). apply tier1_sorted_hours.
    rewrite E, fmap_cons. apply list_elem_of_here. }
  split; [|split].
  - intros Hex. rewrite (H1 Hex).
    apply (top_hours_of_sorted g_hour g_avg_eng);
      auto using tier1_sorted_NoDup, tier1_sorted_hours, tier1_sorted_score.
    apply StronglySorted_merge_sort; apply _.
  - intros Hno Hex. rewrite (H2 Hno).
    apply (top_hours_of_sorted fst (λ r, h_avg_engagement r.2));
      auto using tier2_sorted_NoDup, tier2_sorted_hours, tier2_sorted_score.
    apply StronglySorted_merge_sort; apply _.
  - intros Hno Hno2. rewrite (H2 Hno).
    destruct (tier2_sorted db) as [|g l] eqn:E; [by rewrite take_nil|].
    exfalso. apply Hno2. exists g.1. apply tier2_sorted_hours.
    rewrite E, fmap_cons. apply list_elem_of_here.
Qed.

Lemma get_best_hours_for_day_tiers_witness :
  0 ≤ 2 ∧
  (∃ h, Spec.tier1_qualifies learned_db 0 h) ∧
  Spec.top_hours (Spec.tier1_qualifies learned_db 0)
                 (Spec.tier1_score learned_db 0) 2
                 (get_best_hours_for_day 0 2 learned_db).
Proof.
  assert (Hn : 0 ≤ 2) by lia.
  assert (Hex : ∃ h, Spec.tier1_qualifies learned_db 0 h).
  { exists 21. unfold Spec.tier1_qualifies. vm_compute. lia. }
  split; [exact Hn|]. split; [exact Hex|].
  destruct (get_best_hours_for_day_tiers 0 2 learned_db Hn) as (H1 & _).
  exact (H1 Hex).
Defined.



(** * Further properties of the store *)

Import StatsFetcher.

(** ** Invariants of the three writers *)

Lemma update_where_run_id_fmap {B} (g : Video → B) rid f (vs : list Video) :
  (∀ v, g (f v) = g v) →
  g <$> update_where_run_id rid f vs = g <$> vs.
Proof.
  intros Hg. unfold update_where_run_id. rewrite <- list_fmap_compose.
  apply list_fmap_ext. intros i v _. simpl.
  destruct (decide (run_id v = rid)); auto.
Qed.

Lemma log_video_videos rid sd out now db :
  Analytics.videos (log_video rid sd out now db) =
  if has_run_id rid db then Analytics.videos db
  else Analytics.videos db ++ [new_video rid sd out now].
Proof. unfold log_video. by destruct (has_run_id rid db). Qed.

Lemma engagement_of_zero : engagement_of 0 0 0 0 = Qc_of_Z 0.
Proof. apply Qc_is_canon. reflexivity. Qed.

(** X1: the derived columns of every row follow from its counts
    ([engagement_rate] by the engagement formula, [pumped] by the
    threshold) in the empty store, and each of [log_video],
    [update_performance] and [save_platform_ids] keeps it so. *)
Theorem metrics_consistent_invariant db :
  Forall metrics_consistent (Analytics.videos db) →
  (∀ rid sd out now,
     Forall metrics_consistent
            (Analytics.videos (log_video rid sd out now db))) ∧
  (∀ rid views likes comments shares wta now,
     Forall metrics_consistent
            (Analytics.videos
               (update_performance rid views likes comments shares wta
                                   now db).1)) ∧
  (∀ rid yt tt,
     Forall metrics_consistent
            (Analytics.videos (save_platform_ids rid yt tt db))).
Proof.
  intros Hdb. split; [|split].
  - intros rid sd out now. rewrite log_video_videos.
    destruct (has_run_id rid db); [done|].
    apply Forall_app. split; [done|]. apply Forall_singleton.
    split; simpl; [by rewrite engagement_of_zero|reflexivity].
  - intros rid views likes comments shares wta now. simpl.
    unfold update_where_run_id. apply Forall_fmap.
    eapply Forall_impl; [exact Hdb|]. intros v Hv. simpl.
    destruct (decide (run_id v = rid)); [|done]. by split.
  - intros rid yt tt. simpl. unfold update_where_run_id. apply Forall_fmap.
    eapply Forall_impl; [exact Hdb|]. intros v Hv. simpl.
    destruct (decide (run_id v = rid)); [|done]. exact Hv.
Qed.

Lemma metrics_consistent_invariant_witness :
  let db := log_video "r1" (sample_script "A") "a.mp4"
              (sample_clock "2026-01-05" 0 7 30 100 0) (sample_db []) in
  Forall metrics_consistent (Analytics.videos db) ∧
  Forall metrics_consistent
    (Analytics.videos
       (update_performance "r1" 12000 30 20 10 (Qc_of_Z 0) (Qc_of_Z 200)
                           db).1).
Proof.
  intros db.
  assert (H0 : Forall metrics_consistent (Analytics.videos (sample_db [])))
    by constructor.
  assert (H : Forall metrics_consistent (Analytics.videos db)).
  { destruct (metrics_consistent_invariant (sample_db []) H0) as (Hl & _).
    apply Hl. }
  split; [exact H|].
  destruct (metrics_consistent_invariant db H) as (_ & Hu & _). apply Hu.
Defined.

(** X2: the history only grows.  [update_performance] and
    [save_platform_ids] leave the creation-time columns of every row
    (run id, format, topic, hook, posting hour and weekday, creation time,
    output path) and the order of the rows as they are; [log_video] keeps
    all rows unchanged and adds at most one at the end; and all three keep
    the run ids unique. *)
Theorem history_append_only db :
  (∀ rid views likes comments shares wta now,
     let db' := (update_performance rid views likes comments shares wta
                                    now db).1 in
     creation_fields <$> Analytics.videos db'
       = creation_fields <$> Analytics.videos db) ∧
  (∀ rid yt tt,
     creation_fields <$> Analytics.videos (save_platform_ids rid yt tt db)
       = creation_fields <$> Analytics.videos db) ∧
  (∀ rid sd out now,
     Analytics.videos db `prefix_of`
       Analytics.videos (log_video rid sd out now db) ∧
     (length (Analytics.videos (log_video rid sd out now db))
      ≤ S (length (Analytics.videos db)))%nat) ∧
  (unique_run_ids db →
     (∀ rid views likes comments shares wta now,
        unique_run_ids (update_performance rid views likes comments shares
                                           wta now db).1) ∧
     (∀ rid yt tt, unique_run_ids (save_platform_ids rid yt tt db)) ∧
     (∀ rid sd out now, unique_run_ids (log_video rid sd out now db))).
Proof.
  split; [|split; [|split]].
  - intros. subst db'. simpl. by apply update_where_run_id_fmap.
  - intros. simpl. by apply update_where_run_id_fmap.
  - intros rid sd out now. rewrite log_video_videos.
    destruct (has_run_id rid db) eqn:E.
    + split; [done|lia].
    + split; [by apply prefix_app_r|]. rewrite length_app. simpl. lia.
  - intros Hu. unfold unique_run_ids in *. split; [|split].
    + intros. simpl. by rewrite update_where_run_id_fmap.
    + intros. simpl. by rewrite update_where_run_id_fmap.
    + intros rid sd out now. rewrite log_video_videos.
      destruct (has_run_id rid db) eqn:E; [done|].
      apply has_run_id_false in E. rewrite fmap_app. apply NoDup_app.
      split; [done|]. split; [|apply NoDup_singleton].
      intros x Hx Hx'. simpl in Hx'. apply list_elem_of_singleton in Hx'.
      by subst x.
Qed.

Lemma history_append_only_witness :
  let db := sample_db [sample_video "r0" 1 19 0 0 10 "X" 0] in
  unique_run_ids db ∧
  unique_run_ids (log_video "r1" (sample_script "A") "a.mp4"
                    (sample_clock "2026-01-05" 0 7 30 100 0) db).
Proof.
  intros db.
  assert (Hu : unique_run_ids db).
  { unfold unique_run_ids. simpl. apply NoDup_singleton. }
  split; [exact Hu|].
  destruct (history_append_only db) as (_ & _ & _ & H).
  destruct (H Hu) as (_ & _ & Hl). apply Hl.
Defined.

(** ** The count of today's videos *)

Lemma today_count_creation_fields now (vs ws : list Video) :
  creation_fields <$> vs = creation_fields <$> ws →
  length (filter (λ v, (today_start now ≤ created_at v)%Qc) vs)
  = length (filter (λ v, (today_start now ≤ created_at v)%Qc) ws).
Proof.
  revert ws. induction vs as [|v vs IH]; intros [|w ws] Heq; try done.
  rewrite !fmap_cons in Heq.
  assert (Hrest : creation_fields <$> vs = creation_fields <$> ws)
    by (by inversion Heq).
  assert (Hc : created_at v = created_at w) by (by inversion Heq).
  rewrite !filter_cons, Hc. destruct (decide (today_start now ≤ created_at w)%Qc); simpl;
    rewrite (IH ws Hrest); done.
Qed.

(** X3: [get_today_video_count] goes up by exactly one when [log_video]
    stores a new run id at a time not before today's midnight; it does not
    move when the run id is taken, when the video is stamped before
    midnight, or under [update_performance] and [save_platform_ids]. *)
Theorem today_count_after_writes today db :
  (∀ rid sd out now,
     get_today_video_count today (log_video rid sd out now db) =
     if has_run_id rid db then get_today_video_count today db
     else if decide (today_start today ≤ now_time now)%Qc
          then get_today_video_count today db + 1
          else get_today_video_count today db) ∧
  (∀ rid views likes comments shares wta now,
     get_today_video_count today
       (update_performance rid views likes comments shares wta now db).1
     = get_today_video_count today db) ∧
  (∀ rid yt tt,
     get_today_video_count today (save_platform_ids rid yt tt db)
     = get_today_video_count today db).
Proof.
  split; [|split].
  - intros rid sd out now. unfold get_today_video_count.
    rewrite log_video_videos. destruct (has_run_id rid db); [done|].
    rewrite filter_app, length_app, filter_cons, filter_nil. simpl.
    destruct (decide (today_start today ≤ now_time now)%Qc); simpl; lia.
  - intros. unfold get_today_video_count. f_equal.
    apply today_count_creation_fields. simpl.
    by apply update_where_run_id_fmap.
  - intros. unfold get_today_video_count. f_equal.
    apply today_count_creation_fields. simpl.
    by apply update_where_run_id_fmap.
Qed.



(** ** Metrics and the viral follow-up list *)

Lemma viral_candidate_run_ids db rid :
  rid ∈ c_run_id <$> get_viral_candidates db ↔
  ∃ v, v ∈ Analytics.videos db ∧ run_id v = rid ∧ pumped v = 1 ∧
       topic v ≠ EmptyString ∧ followup_count v (Analytics.videos db) = 0.
Proof.
  unfold get_viral_candidates, pumped_with_topic, order_by_desc_Z.
  rewrite <- list_fmap_compose, list_elem_of_fmap. split.
  - intros (v & -> & Hv). apply list_elem_of_filter in Hv as [Hf Hv].
    rewrite merge_sort_Permutation in Hv.
    apply list_elem_of_filter in Hv as [[Hp Ht] Hv]. exists v. auto.
  - intros (v & Hv & <- & Hp & Ht & Hf). exists v. split; [done|].
    apply list_elem_of_filter. split; [done|].
    rewrite merge_sort_Permutation. apply list_elem_of_filter. auto.
Qed.

Lemma followup_count_creation_fields v v' (vs ws : list Video) :
  creation_fields v = creation_fields v' →
  creation_fields <$> vs = creation_fields <$> ws →
  followup_count v vs = followup_count v' ws.
Proof.
  intros Hv. unfold followup_count. intros Heq. f_equal.
  revert ws Heq. induction vs as [|x vs IH]; intros [|y ws] Heq; try done.
  rewrite !fmap_cons in Heq.
  assert (Hrest : creation_fields <$> vs = creation_fields <$> ws)
    by (by inversion Heq).
  assert (Hiff : is_followup_of v x ↔ is_followup_of v' y).
  { unfold is_followup_of. unfold creation_fields in Hv.
    inversion Hv. inversion Heq. by repeat match goal with
      | H : _ = _ |- _ => rewrite H; clear H end. }
  rewrite !filter_cons.
  destruct (decide (is_followup_of v x)), (decide (is_followup_of v' y));
    simpl; rewrite ?(IH ws Hrest); tauto.
Qed.

(** X4: when [update_performance] writes the metrics of a record that has
    a topic and no later record with the same topic, the record is in
    [get_viral_candidates] afterwards if the views written are at least
    10000; and whatever the record, it is not in the list if the views
    written are below 10000. *)
Theorem update_performance_viral_candidate
    rid views likes comments shares wta now db v :
  v ∈ Analytics.videos db → run_id v = rid → topic v ≠ EmptyString →
  ¬ Spec.has_later_same_topic db v →
  let db' := (update_performance rid views likes comments shares wta now db).1 in
  (10000 ≤ views → rid ∈ c_run_id <$> get_viral_candidates db') ∧
  (views < 10000 → rid ∉ c_run_id <$> get_viral_candidates db').
Proof.
  intros Hv Hrid Ht Hno db'. subst db'. split.
  - intros Hviews. apply viral_candidate_run_ids. simpl.
    exists (set_metrics views likes comments shares wta v).
    split; [|split; [done|split; [|split; [done|]]]].
    + apply update_where_run_id_elem. exists v. split; [done|].
      by rewrite decide_True.
    + simpl. by apply pumped_of_spec.
    + rewrite <- (followup_count_creation_fields v _ (Analytics.videos db)).
      * by apply followup_count_zero.
      * reflexivity.
      * symmetry. by apply update_where_run_id_fmap.
  - intros Hviews Hin. apply viral_candidate_run_ids in Hin
      as (w & Hw & Hr & Hp & _). simpl in Hw.
    apply update_where_run_id_elem in Hw as (u & Hu & ->).
    destruct (decide (run_id u = rid)) as [_|Hne]; [|done].
    simpl in Hp. apply pumped_of_spec in Hp. lia.
Qed.

Lemma update_performance_viral_candidate_witness :
  let v := sample_video "r1" 1 19 0 0 10 "X" 0 in
  let db := sample_db [v] in
  v ∈ Analytics.videos db ∧ ¬ Spec.has_later_same_topic db v ∧
  "r1"%string ∈ c_run_id <$> get_viral_candidates
    (update_performance "r1" 12000 30 20 10 (Qc_of_Z 0) (Qc_of_Z 200) db).1.
Proof.
  intros v db.
  assert (Hv : v ∈ Analytics.videos db) by apply list_elem_of_here.
  assert (Hno : ¬ Spec.has_later_same_topic db v).
  { intros (w & Hw & Hr & _). apply list_elem_of_singleton in Hw. by subst w. }
  split; [exact Hv|]. split; [exact Hno|].
  destruct (update_performance_viral_candidate "r1" 12000 30 20 10 (Qc_of_Z 0)
              (Qc_of_Z 200) db v Hv eq_refl) as [H _];
    [discriminate | exact Hno |].
  apply H. lia.
Defined.

(** ** The best hour and the best format *)

Lemma choice_elem {A} (l : list A) raw :
  l ≠ [] → ∃ x, choice l raw = Some x ∧ x ∈ l.
Proof.
  intros Hl. unfold choice. destruct l as [|a l]; [done|].
  set (k := a :: l) in *.
  assert (Hlen : 0 < Z.of_nat (length k)) by (subst k; simpl; lia).
  pose proof (Z.mod_pos_bound raw _ Hlen) as Hb.
  destruct (lookup_lt_is_Some_2 k (Z.to_nat (raw `mod` Z.of_nat (length k))))
    as [x Hx]; [lia|].
  exists x. split; [done|]. by eapply list_elem_of_lookup_2.
Qed.

Lemma psychology_peaks_cases w :
  default [7; 8; 12; 19; 20] (PSYCHOLOGY_PEAK_HOURS w) ∈
  [[7; 8; 12; 19; 20]; [7; 8; 12; 19; 20; 21]; [7; 8; 12; 19];
   [10; 11; 12; 14; 20]; [11; 12; 14; 19]].
Proof.
  destruct w as [|p|p]; simpl; [list_mem| |list_mem].
  do 3 (try destruct p as [p|p|]; simpl; try (by list_mem)).
Qed.

Lemma psychology_peaks_bounds w h :
  h ∈ default [7; 8; 12; 19; 20] (PSYCHOLOGY_PEAK_HOURS w) → 7 ≤ h ≤ 21.
Proof.
  pose proof (psychology_peaks_cases w) as Hp. intros Hh.
  repeat (apply elem_of_cons in Hp as [Hp|Hp];
          [rewrite Hp in Hh;
           repeat (apply elem_of_cons in Hh as [->|Hh]; [lia|]);
           by apply elem_of_nil in Hh|]).
  by apply elem_of_nil in Hp.
Qed.

Lemma psychology_peaks_nonempty w :
  default [7; 8; 12; 19; 20] (PSYCHOLOGY_PEAK_HOURS w) ≠ [].
Proof.
  pose proof (psychology_peaks_cases w) as Hp. intros Hnil.
  rewrite Hnil in Hp.
  repeat (apply elem_of_cons in Hp as [Hp|Hp]; [discriminate Hp|]).
  by apply elem_of_nil in Hp.
Qed.

Lemma head_sorted_max {A} (key : A → Qc) (l : list A) x y :
  StronglySorted (desc_Qc key) l → head l = Some x → y ∈ l →
  (key y ≤ key x)%Qc.
Proof.
  intros Hs Hh Hy. destruct l as [|a l]; [done|]. injection Hh as ->.
  apply StronglySorted_inv in Hs as [_ Hs].
  apply elem_of_cons in Hy as [->|Hy]; [done|].
  rewrite Forall_forall in Hs. by apply Hs.
Qed.

(** X5: [get_best_post_hour] always returns an hour.  When the hourly table
    has a row with at least 3 videos, the hour returned has such a row and
    no such row has a greater average engagement; otherwise it is one of
    the psychology peak hours of the weekday, between 7 and 21. *)
Theorem get_best_post_hour_spec now raw db :
  ∃ h, get_best_post_hour now raw db = Some h ∧
    ((∃ h', Spec.tier2_qualifies db h') →
       Spec.tier2_qualifies db h ∧
       ∀ h', Spec.tier2_qualifies db h' →
             (Spec.tier2_score db h' ≤ Spec.tier2_score db h)%Qc) ∧
    ((¬ ∃ h', Spec.tier2_qualifies db h') →
       h ∈ get_psychology_peaks_today now ∧ 7 ≤ h ≤ 21).
Proof.
  unfold get_best_post_hour, tier2_rows, sql_limit.
  rewrite decide_False by lia. simpl.
  destruct (tier2_sorted db) as [|g l] eqn:E; simpl.
  - destruct (choice_elem (get_psychology_peaks_today now) raw) as (h & Hc & Hh).
    { apply psychology_peaks_nonempty. }
    exists h. split; [done|]. split.
    + intros [h' Hq]. apply tier2_sorted_hours in Hq. rewrite E in Hq.
      by apply elem_of_nil in Hq.
    + intros _. split; [done|]. by eapply psychology_peaks_bounds.
  - exists g.1. split; [done|].
    assert (Hg : g ∈ tier2_sorted db) by (rewrite E; apply list_elem_of_here).
    assert (Hq : Spec.tier2_qualifies db g.1).
    { apply tier2_sorted_hours, list_elem_of_fmap. eauto. }
    split.
    + intros _. split; [done|]. intros h' Hq'.
      apply tier2_sorted_hours, list_elem_of_fmap in Hq' as (g' & -> & Hg').
      rewrite !tier2_sorted_score by done.
      apply (head_sorted_max (λ r, h_avg_engagement r.2) (tier2_sorted db));
        [|by rewrite E|done].
      apply StronglySorted_merge_sort; apply _.
    + intros Hno. exfalso. apply Hno. eauto.
Qed.



(** ** The aggregate tables *)

Section fold_insert.
Context {K V : Type} `{Countable K}.
Context (f : K → option V) (step : gmap K V → K → gmap K V).
Hypothesis step_spec : ∀ t key,
  step t key = match f key with Some v => <[key := v]> t | None => t end.

Lemma foldl_insert_lookup (keys : list K) : ∀ (tbl : gmap K V) k,
  foldl step tbl keys !! k =
  match (if decide (k ∈ keys) then f k else None) with
  | Some v => Some v
  | None => tbl !! k
  end.
Proof.
  induction keys as [|key keys IH]; intros tbl k; cbn [foldl].
  - by destruct (decide (k ∈ [])) as [Hin|_]; [apply elem_of_nil in Hin|].
  - rewrite IH, step_spec. destruct (decide (k ∈ keys)) as [Hin|Hin].
    + rewrite decide_True by (by apply list_elem_of_further).
      destruct (f k) eqn:Ek; [done|].
      destruct (f key) eqn:Ekey; [|done].
      rewrite lookup_insert_ne; [done|]. intros ->. congruence.
    + destruct (decide (k = key)) as [->|Hne].
      * rewrite decide_True by apply list_elem_of_here.
        destruct (f key); [by rewrite lookup_insert_eq|done].
      * rewrite decide_False by (rewrite elem_of_cons; tauto).
        destruct (f key); [by rewrite lookup_insert_ne|done].
Qed.
End fold_insert.

Lemma recalc_hour_spec vs now t hour :
  recalc_hour vs now t hour =
  match hour_row vs now hour with Some v => <[hour := v]> t | None => t end.
Proof.
  unfold recalc_hour, hour_row.
  by destruct (decide (0 < Z.of_nat (length (hour_rows hour vs)))).
Qed.

Lemma recalc_format_spec vs now t fmt :
  recalc_format vs now t fmt =
  match format_row vs now fmt with Some v => <[fmt := v]> t | None => t end.
Proof.
  unfold recalc_format, format_row.
  by destruct (decide (0 < Z.of_nat (length (format_rows fmt vs)))).
Qed.

Lemma recalculate_hourly_lookup now db h :
  hourly_performance (_recalculate_aggregates now db) !! h =
  match (if decide (0 ≤ h < 24) then hour_row (Analytics.videos db) now h
         else None) with
  | Some v => Some v
  | None => hourly_performance db !! h
  end.
Proof.
  unfold _recalculate_aggregates. cbn [hourly_performance].
  rewrite (foldl_insert_lookup (hour_row (Analytics.videos db) now) _
             (recalc_hour_spec _ _)).
  destruct (decide (h ∈ seqZ 0 24)) as [Hin|Hin];
    rewrite elem_of_seqZ in Hin.
  - by rewrite decide_True by lia.
  - by rewrite decide_False by lia.
Qed.

Lemma recalculate_format_lookup now db fmt :
  format_performance (_recalculate_aggregates now db) !! fmt =
  match (if decide (fmt ∈ Analytics.ALL_FORMATS)
         then format_row (Analytics.videos db) now fmt else None) with
  | Some v => Some v
  | None => format_performance db !! fmt
  end.
Proof.
  unfold _recalculate_aggregates. cbn [format_performance].
  apply (foldl_insert_lookup (format_row (Analytics.videos db) now) _
           (recalc_format_spec _ _)).
Qed.

(** X6: after [_recalculate_aggregates], an hour from 0 to 23 that has at
    least one video with views holds a row with the number of those videos,
    the averages of their views and of their engagement rates, and the
    time of the recalculation; the row of every other hour is what it was
    before (a row is never deleted), and the [videos] table is not
    touched. *)
Theorem recalculate_hourly_rows now db h :
  let db' := _recalculate_aggregates now db in
  let rows := filter (λ v, post_hour v = h ∧ 0 < Analytics.views v)
                     (Analytics.videos db) in
  Analytics.videos db' = Analytics.videos db ∧
  (0 ≤ h < 24 → rows ≠ [] →
     hourly_performance db' !! h =
     Some {| h_avg_views :=
               Spec.average ((λ v, Qc_of_Z (Analytics.views v)) <$> rows);
             h_avg_engagement := Spec.average (engagement_rate <$> rows);
             h_total_videos := Z.of_nat (length rows);
             h_last_updated := now |}) ∧
  (h < 0 ∨ 24 ≤ h ∨ rows = [] →
     hourly_performance db' !! h = hourly_performance db !! h).
Proof.
  intros db' rows. subst db'. split; [done|].
  rewrite recalculate_hourly_lookup. unfold hour_row.
  change (hour_rows h (Analytics.videos db)) with rows. split.
  - intros Hh Hrows. rewrite decide_True by done.
    destruct rows as [|v rows'] eqn:E; [done|].
    rewrite decide_True by (simpl; lia).
    unfold avg_views_of, avg_engagement_of.
    by rewrite !or_zero_sql_avg by done.
  - intros Hcase. destruct (decide (0 ≤ h < 24)) as [Hh|Hh]; [|done].
    destruct Hcase as [?|[?|Hrows]]; [lia|lia|].
    rewrite Hrows. simpl. done.
Qed.

Lemma recalculate_hourly_rows_witness :
  let db' := _recalculate_aggregates (Qc_of_Z 9) learned_db in
  0 ≤ 21 < 24 ∧
  h_total_videos <$> (hourly_performance db' !! 21) = Some 2 ∧
  hourly_performance db' !! 5 = hourly_performance learned_db !! 5.
Proof.
  intros db'.
  destruct (recalculate_hourly_rows (Qc_of_Z 9) learned_db 21) as (_ & H1 & _).
  destruct (recalculate_hourly_rows (Qc_of_Z 9) learned_db 5) as (_ & _ & H2).
  split; [lia|]. split.
  - subst db'. rewrite H1; [reflexivity | lia | discriminate].
  - apply H2. right. right. reflexivity.
Defined.

Lemma DB_eq (a b : DB) :
  Analytics.videos a = Analytics.videos b →
  hourly_performance a = hourly_performance b →
  format_performance a = format_performance b → a = b.
Proof. destruct a, b. simpl. congruence. Qed.

(** X7: [_recalculate_aggregates] is idempotent: running it again at the
    same time on its own result changes nothing. *)
Theorem recalculate_aggregates_idempotent now db :
  _recalculate_aggregates now (_recalculate_aggregates now db)
  = _recalculate_aggregates now db.
Proof.
  set (db1 := _recalculate_aggregates now db).
  assert (Hv : Analytics.videos db1 = Analytics.videos db) by done.
  assert (Hh : hourly_performance (_recalculate_aggregates now db1)
               = hourly_performance db1).
  { apply map_eq. intros h. rewrite recalculate_hourly_lookup, Hv.
    subst db1. rewrite recalculate_hourly_lookup.
    destruct (decide (0 ≤ h < 24));
      [destruct (hour_row (Analytics.videos db) now h)|]; done. }
  assert (Hf : format_performance (_recalculate_aggregates now db1)
               = format_performance db1).
  { apply map_eq. intros f. rewrite recalculate_format_lookup, Hv.
    subst db1. rewrite recalculate_format_lookup.
    destruct (decide (f ∈ Analytics.ALL_FORMATS));
      [destruct (format_row (Analytics.videos db) now f)|]; done. }
  by apply DB_eq.
Qed.

Lemma top_pumped_topics_elem fmt limit vs t :
  t ∈ top_pumped_topics fmt limit vs →
  ∃ v, v ∈ vs ∧ format v = fmt ∧ pumped v = 1 ∧ topic v = t.
Proof.
  unfold top_pumped_topics, sql_limit, order_by_desc_Z.
  intros (v & -> & Hv)%list_elem_of_fmap.
  assert (Hv' : v ∈ merge_sort (desc_Z Analytics.views)
                  (filter (λ v, format v = fmt ∧ pumped v = 1) vs)).
  { destruct (decide (limit < 0)); [done|].
    eapply sublist_subseteq; [apply sublist_take|done]. }
  rewrite merge_sort_Permutation in Hv'.
  apply list_elem_of_filter in Hv' as [[Hf Hp] Hin]. eauto.
Qed.

(** X8: after [_recalculate_aggregates], each of the three fixed formats
    that has a video with views holds a row with the number of those
    videos and their averages; its best-topics list has at most 10 entries,
    all of them topics of pumped videos of that format, and its first 8
    entries are what [get_pumped_topics] returns.  The row of any other
    format tag is what it was before. *)
Theorem recalculate_format_rows now db fmt :
  let db' := _recalculate_aggregates now db in
  let rows := filter (λ v, format v = fmt ∧ 0 < Analytics.views v)
                     (Analytics.videos db) in
  (fmt ∈ ["story_lesson"; "scary_truth"; "hidden_psychology"]%string →
   rows ≠ [] →
     ∃ row, format_performance db' !! fmt = Some row ∧
       f_total_videos row = Z.of_nat (length rows) ∧
       f_avg_views row =
         Spec.average ((λ v, Qc_of_Z (Analytics.views v)) <$> rows) ∧
       f_avg_engagement row = Spec.average (engagement_rate <$> rows) ∧
       f_last_updated row = now ∧
       (length (f_best_topics row) ≤ 10)%nat ∧
       (∀ t, t ∈ f_best_topics row →
             ∃ v, v ∈ Analytics.videos db ∧ format v = fmt ∧ pumped v = 1
                  ∧ topic v = t) ∧
       take 8 (f_best_topics row) = get_pumped_topics fmt db') ∧
  (fmt ∉ ["story_lesson"; "scary_truth"; "hidden_psychology"]%string
   ∨ rows = [] →
     format_performance db' !! fmt = format_performance db !! fmt).
Proof.
  intros db' rows. subst db'.
  rewrite recalculate_format_lookup. unfold format_row.
  change (format_rows fmt (Analytics.videos db)) with rows.
  change Analytics.ALL_FORMATS
    with ["story_lesson"; "scary_truth"; "hidden_psychology"]%string.
  split.
  - intros Hf Hrows. rewrite decide_True by done.
    destruct rows as [|v rows'] eqn:E; [done|].
    rewrite decide_True by (simpl; lia).
    eexists. split; [reflexivity|]. cbn [f_total_videos f_avg_views
      f_avg_engagement f_last_updated f_best_topics].
    unfold avg_views_of, avg_engagement_of.
    rewrite !or_zero_sql_avg by done.
    split; [done|]. split; [done|]. split; [done|]. split; [done|].
    split; [|split].
    + unfold top_pumped_topics, sql_limit. rewrite decide_False by lia.
      rewrite length_fmap, length_take. lia.
    + apply top_pumped_topics_elem.
    + unfold get_pumped_topics, top_pumped_topics, sql_limit.
      rewrite !decide_False by lia. cbn [Analytics.videos].
      rewrite <- fmap_take, take_take. done.
  - intros Hcase.
    destruct (decide (fmt ∈ ["story_lesson"; "scary_truth";
                             "hidden_psychology"]%string)) as [Hf|Hf];
      [|done].
    destruct Hcase as [?|Hrows]; [done|]. rewrite Hrows. simpl. done.
Qed.

Lemma recalculate_format_rows_witness :
  let db := sample_db [sample_video "r1" 1 19 12000 2 10 "X" 1] in
  let db' := _recalculate_aggregates (Qc_of_Z 9) db in
  "story_lesson"%string
    ∈ ["story_lesson"; "scary_truth"; "hidden_psychology"]%string ∧
  ∃ row, format_performance db' !! "story_lesson"%string = Some row ∧
         f_total_videos row = 1 ∧
         take 8 (f_best_topics row) = get_pumped_topics "story_lesson" db'.
Proof.
  intros db db'.
  assert (Hin : "story_lesson"%string
                ∈ ["story_lesson"; "scary_truth"; "hidden_psychology"]%string)
    by apply list_elem_of_here.
  split; [exact Hin|].
  destruct (recalculate_format_rows (Qc_of_Z 9) db "story_lesson") as [H _].
  destruct (H Hin) as (row & Hl & Ht & _ & _ & _ & _ & _ & Hp);
    [discriminate|].
  exists row. split; [exact Hl|]. split; [exact Ht|exact Hp].
Defined.

(** X9: [get_best_format] returns no format exactly when no row of the
    format table has at least 3 videos; a format it returns has such a row,
    and no such row has greater average views. *)
Theorem get_best_format_spec db :
  (get_best_format db = None ↔
   ∀ f r, format_performance db !! f = Some r → f_total_videos r < 3) ∧
  (∀ f, get_best_format db = Some f →
     ∃ r, format_performance db !! f = Some r ∧ 3 ≤ f_total_videos r ∧
          ∀ f' r', format_performance db !! f' = Some r' →
                   3 ≤ f_total_videos r' → (f_avg_views r' ≤ f_avg_views r)%Qc).
Proof.
  unfold get_best_format, best_format_rows, sql_limit, order_by_desc_Qc.
  rewrite decide_False by lia.
  set (L := merge_sort (desc_Qc (λ r : string * FormatRow, f_avg_views r.2))
              (filter (λ r, 3 ≤ f_total_videos r.2)
                 (map_to_list (format_performance db)))).
  assert (HL : ∀ g, g ∈ L ↔ format_performance db !! g.1 = Some g.2
                             ∧ 3 ≤ f_total_videos g.2).
  { intros [f r]. subst L.
    rewrite merge_sort_Permutation, list_elem_of_filter, elem_of_map_to_list.
    simpl. tauto. }
  assert (Hs : StronglySorted
                 (desc_Qc (λ r : string * FormatRow, f_avg_views r.2)) L).
  { apply StronglySorted_merge_sort; apply _. }
  destruct L as [|g l] eqn:E; simpl.
  - split; [|done]. split; [|done]. intros _ f r Hl.
    destruct (decide (3 ≤ f_total_videos r)) as [Hr|Hr]; [|lia].
    exfalso. apply (not_elem_of_nil (f, r)). apply HL. simpl. auto.
  - split.
    + split; [done|]. intros Hall. exfalso.
      assert (Hg : g ∈ g :: l) by apply list_elem_of_here.
      apply HL in Hg as [Hg Hr]. specialize (Hall _ _ Hg). lia.
    + intros f [= <-].
      assert (Hg : g ∈ g :: l) by apply list_elem_of_here.
      apply HL in Hg as [Hg Hr]. exists g.2. split; [done|]. split; [done|].
      intros f' r' Hl' Hr'.
      apply (head_sorted_max (λ r : string * FormatRow, f_avg_views r.2)
               (g :: l) g (f', r')); [done|done|].
      apply HL. simpl. auto.
Qed.



(** ** The topic history *)

Lemma used_topics_elem db t :
  t ∈ used (get_all_used_topics db) ↔
  t ≠ EmptyString ∧ ∃ v, v ∈ Analytics.videos db ∧ topic v = t.
Proof.
  unfold get_all_used_topics, order_by_desc_Qc. cbn [used].
  rewrite list_elem_of_fmap. split.
  - intros (v & -> & Hv). rewrite merge_sort_Permutation in Hv.
    apply list_elem_of_filter in Hv as [Ht Hv]. eauto.
  - intros (Ht & v & Hv & <-). exists v. split; [done|].
    rewrite merge_sort_Permutation. by apply list_elem_of_filter.
Qed.

Lemma pumped_topics_elem db t :
  t ∈ pumped_topics (get_all_used_topics db) ↔
  t ≠ EmptyString ∧
  ∃ v, v ∈ Analytics.videos db ∧ pumped v = 1 ∧ topic v = t.
Proof.
  unfold get_all_used_topics, order_by_desc_Qc. cbn [pumped_topics].
  rewrite list_elem_of_fmap. split.
  - intros (v & -> & Hv). apply list_elem_of_filter in Hv as [Hp Hv].
    rewrite merge_sort_Permutation in Hv.
    apply list_elem_of_filter in Hv as [Ht Hv]. eauto.
  - intros (Ht & v & Hv & Hp & <-). exists v. split; [done|].
    apply list_elem_of_filter. split; [done|].
    rewrite merge_sort_Permutation. by apply list_elem_of_filter.
Qed.

(** X10: in the history that [get_all_used_topics] returns, the used
    topics are the non-empty topics of all videos, one entry for each
    video, the pumped topics are those of the pumped videos, and the pumped
    list is a sub-list of the used list, in the same order. *)
Theorem get_all_used_topics_spec db :
  let ui := get_all_used_topics db in
  used ui ≡ₚ
    topic <$> filter (λ v, topic v ≠ EmptyString) (Analytics.videos db) ∧
  pumped_topics ui ≡ₚ
    topic <$> filter (λ v, pumped v = 1 ∧ topic v ≠ EmptyString)
                     (Analytics.videos db) ∧
  pumped_topics ui `sublist_of` used ui ∧
  EmptyString ∉ used ui.
Proof.
  unfold get_all_used_topics, order_by_desc_Qc. cbn [used pumped_topics].
  split; [|split; [|split]].
  - by rewrite merge_sort_Permutation.
  - by rewrite merge_sort_Permutation, list_filter_filter.
  - apply fmap_sublist, sublist_filter.
  - intros (v & Ht & Hv)%list_elem_of_fmap.
    rewrite merge_sort_Permutation in Hv.
    by apply list_elem_of_filter in Hv as [Hne _].
Qed.

Lemma pumped_topics_nil db :
  pumped_topics (get_all_used_topics db) = [] ↔
  ∀ v, v ∈ Analytics.videos db → pumped v = 1 → topic v = EmptyString.
Proof.
  split.
  - intros Hnil v Hv Hp. destruct (decide (topic v = EmptyString)) as [|Hne];
      [done|].
    assert (Hin : topic v ∈ pumped_topics (get_all_used_topics db)).
    { apply pumped_topics_elem. split; [done|]. by exists v. }
    rewrite Hnil in Hin. by apply elem_of_nil in Hin.
  - intros Hall.
    destruct (pumped_topics (get_all_used_topics db)) as [|t l] eqn:E; [done|].
    assert (Hin : t ∈ pumped_topics (get_all_used_topics db)).
    { rewrite E. apply list_elem_of_here. }
    apply pumped_topics_elem in Hin as (Hne & v & Hv & Hp & Ht).
    exfalso. apply Hne. rewrite <- Ht. by apply Hall.
Qed.

(** X11: once [log_video] has stored a video with a non-empty topic under
    a new run id in a store where no video with a topic has pumped, the
    freshness filter, fed with [get_all_used_topics], returns and rejects
    every candidate that shares at least 3 meaningful words with that
    topic. *)
Theorem logged_topic_is_not_fresh rid sd out now db candidate :
  has_run_id rid db = false →
  sd_topic sd ≠ EmptyString →
  (3 ≤ size (_topic_words candidate ∩ _topic_words (sd_topic sd)))%nat →
  (∀ v, v ∈ Analytics.videos db → pumped v = 1 → topic v = EmptyString) →
  _topic_is_fresh candidate
    (get_all_used_topics (log_video rid sd out now db)) = Returned false.
Proof.
  intros Hfresh Ht Hs Hnp. apply topic_is_fresh_false.
  - apply pumped_topics_nil. intros v Hv Hp.
    rewrite log_video_videos, Hfresh in Hv.
    apply elem_of_app in Hv as [Hv|Hv]; [by apply Hnp|].
    apply list_elem_of_singleton in Hv. subst v. discriminate Hp.
  - exists (sd_topic sd). split; [|done].
    apply used_topics_elem. split; [done|].
    exists (new_video rid sd out now). split; [|done].
    rewrite log_video_videos, Hfresh. apply elem_of_app. right.
    apply list_elem_of_here.
Qed.

Lemma logged_topic_is_not_fresh_witness :
  let sd := sample_script "Trader lost everything in 2021" in
  let db := sample_db [sample_video "r0" 1 19 200 2 10 "Why banks fail" 0] in
  has_run_id "r1" db = false ∧
  _topic_is_fresh "Trader lost it all in 2021"
    (get_all_used_topics
       (log_video "r1" sd "a.mp4" (sample_clock "2026-01-05" 0 7 30 100 0) db))
  = Returned false.
Proof.
  intros sd db. split; [reflexivity|].
  apply (logged_topic_is_not_fresh "r1" sd "a.mp4"
           (sample_clock "2026-01-05" 0 7 30 100 0) db).
  - reflexivity.
  - discriminate.
  - vm_compute. lia.
  - intros v Hv Hp. apply list_elem_of_singleton in Hv. subst v.
    discriminate Hp.
Defined.

(** ** Recent hooks *)

Lemma filter_id_Forall {A} (P : A → Prop) `{∀ x, Decision (P x)} (l : list A) :
  Forall P l → filter P l = l.
Proof.
  induction 1 as [|x l Hx Hl IH]; [done|].
  by rewrite filter_cons, decide_True, IH.
Qed.

(** X12: for a limit that is not negative, [get_used_hooks] returns at most
    [limit] hooks, none of them empty; they are the hooks of the most
    recently created videos that have one, newest first: every video with
    a hook that is left out was created no later than every video whose
    hook is returned. *)
Theorem get_used_hooks_spec limit db :
  0 ≤ limit →
  ∃ rows,
    get_used_hooks limit db = hook_text <$> rows ∧
    Z.of_nat (length rows) ≤ limit ∧
    (∀ v, v ∈ rows → v ∈ Analytics.videos db ∧ hook_text v ≠ EmptyString) ∧
    StronglySorted (λ v w, (created_at w ≤ created_at v)%Qc) rows ∧
    (∀ v w, v ∈ rows → w ∈ Analytics.videos db →
            hook_text w ≠ EmptyString → w ∉ rows →
            (created_at w ≤ created_at v)%Qc) ∧
    (Z.of_nat (length rows) < limit →
       ∀ w, w ∈ Analytics.videos db → hook_text w ≠ EmptyString → w ∈ rows).
Proof.
  intros Hlim. exists (take (Z.to_nat limit) (hook_rows db)).
  assert (Helem : ∀ v, v ∈ hook_rows db ↔
                       hook_text v ≠ EmptyString ∧ v ∈ Analytics.videos db).
  { intros v. unfold hook_rows, order_by_desc_Qc.
    by rewrite merge_sort_Permutation, list_elem_of_filter. }
  assert (Hsorted : StronglySorted (desc_Qc created_at) (hook_rows db)).
  { apply StronglySorted_merge_sort; apply _. }
  assert (Hsub : ∀ v, v ∈ take (Z.to_nat limit) (hook_rows db) →
                      v ∈ hook_rows db).
  { intros v. apply sublist_subseteq, sublist_take. }
  split; [|split; [|split; [|split; [|split]]]].
  - unfold get_used_hooks, sql_limit. rewrite decide_False by lia.
    apply filter_id_Forall, Forall_fmap, Forall_forall.
    intros v Hv. simpl. by apply Hsub, Helem in Hv as [Hne _].
  - rewrite length_take. lia.
  - intros v Hv. apply Hsub, Helem in Hv. tauto.
  - by apply StronglySorted_take.
  - intros v w Hv Hw Hne Hnw.
    assert (Hw' : w ∈ hook_rows db) by (by apply Helem).
    rewrite <- (take_drop (Z.to_nat limit) (hook_rows db)) in Hw'.
    apply elem_of_app in Hw' as [Hw'|Hw']; [done|].
    eapply (StronglySorted_take_drop (desc_Qc created_at)); eauto.
  - rewrite length_take. intros Hlt w Hw Hne.
    rewrite take_ge by lia. by apply Helem.
Qed.

Lemma get_used_hooks_spec_witness :
  0 ≤ 20 ∧ ∃ rows, get_used_hooks 20 fresh_db = hook_text <$> rows ∧
                   Z.of_nat (length rows) ≤ 20.
Proof.
  assert (H : 0 ≤ 20) by lia. split; [exact H|].
  destruct (get_used_hooks_spec 20 fresh_db H) as (rows & Heq & Hlen & _).
  exists rows. split; [exact Heq|exact Hlen].
Defined.

(** ** Platform identifiers and the stats fetch list *)

Lemma stats_fetch_run_ids d now db rid :
  rid ∈ s_run_id <$> get_videos_for_stats_fetch d now db ↔
  ∃ v, v ∈ Analytics.videos db ∧ run_id v = rid ∧ due_for_stats d now v.
Proof.
  unfold get_videos_for_stats_fetch, order_by_desc_Qc.
  rewrite <- list_fmap_compose, list_elem_of_fmap. split.
  - intros (v & -> & Hv). rewrite merge_sort_Permutation in Hv.
    apply list_elem_of_filter in Hv as [Hd Hv]. eauto.
  - intros (v & Hv & <- & Hd). exists v. split; [done|].
    rewrite merge_sort_Permutation. by apply list_elem_of_filter.
Qed.

(** X13: [get_videos_for_stats_fetch] lists a video only once a platform
    identifier is stored for it.  A video that [log_video] has just
    stored under a new run id is not listed; it
    is listed after [save_platform_ids] has stored a non-empty YouTube or
    TikTok identifier for it, if it is not older than [max_age_days]; and
    it is not listed after [save_platform_ids] was called without any
    identifier. *)
Theorem stats_fetch_needs_platform_id d today db rid :
  (∀ sd out now,
     has_run_id rid db = false →
     rid ∉ s_run_id <$>
       get_videos_for_stats_fetch d today (log_video rid sd out now db)) ∧
  (∀ v yt tt,
     v ∈ Analytics.videos db → run_id v = rid →
     (stats_cutoff d today ≤ created_at v)%Qc →
     or_empty yt ≠ EmptyString ∨ or_empty tt ≠ EmptyString →
     rid ∈ s_run_id <$>
       get_videos_for_stats_fetch d today (save_platform_ids rid yt tt db)) ∧
  rid ∉ s_run_id <$>
    get_videos_for_stats_fetch d today (save_platform_ids rid None None db).
Proof.
  split; [|split].
  - intros sd out now Hfresh (v & Hv & Hr & _ & Hid)%stats_fetch_run_ids.
    rewrite log_video_videos, Hfresh in Hv.
    apply elem_of_app in Hv as [Hv|Hv].
    + apply has_run_id_false in Hfresh. apply Hfresh.
      apply list_elem_of_fmap. eauto.
    + apply list_elem_of_singleton in Hv. subst v. simpl in Hid.
      by destruct Hid.
  - intros v yt tt Hv Hr Hc Hid. apply stats_fetch_run_ids.
    exists (set_platform_ids (or_empty yt) (or_empty tt)
              (youtube_url_of (or_empty yt)) (tiktok_url_of (or_empty tt)) v).
    split; [|split; [done|split; [done|exact Hid]]].
    simpl. apply update_where_run_id_elem. exists v. split; [done|].
    by rewrite decide_True.
  - intros (w & Hw & Hr & _ & Hid)%stats_fetch_run_ids. simpl in Hw.
    apply update_where_run_id_elem in Hw as (u & Hu' & ->).
    destruct (decide (run_id u = rid)); [|done]. simpl in Hid.
    by destruct Hid.
Qed.

Lemma stats_fetch_needs_platform_id_witness :
  let v := sample_video "r1" 1 19 0 0 10 "X" 0 in
  let db := sample_db [v] in
  let today := sample_clock "2026-01-05" 0 7 30 100 0 in
  v ∈ Analytics.videos db ∧
  (stats_cutoff 30 today ≤ created_at v)%Qc ∧
  "r1"%string ∈ s_run_id <$>
    get_videos_for_stats_fetch 30 today
      (save_platform_ids "r1" (Some "abc"%string) None db).
Proof.
  intros v db today.
  assert (Hv : v ∈ Analytics.videos db) by apply list_elem_of_here.
  assert (Hc : (stats_cutoff 30 today ≤ created_at v)%Qc)
    by (vm_compute; discriminate).
  split; [exact Hv|]. split; [exact Hc|].
  destruct (stats_fetch_needs_platform_id 30 today db "r1") as (_ & H & _).
  apply (H v (Some "abc"%string) None Hv eq_refl Hc).
  left. discriminate.
Defined.

(** X14: [save_platform_ids] is last-write-wins: a second call for the same
    run id replaces all that the first call stored; and calls for
    different run ids do not affect each other. *)
Theorem save_platform_ids_last_write_wins rid rid' yt tt yt' tt' db :
  save_platform_ids rid yt tt (save_platform_ids rid yt' tt' db)
  = save_platform_ids rid yt tt db ∧
  (rid ≠ rid' →
   save_platform_ids rid yt tt (save_platform_ids rid' yt' tt' db)
   = save_platform_ids rid' yt' tt' (save_platform_ids rid yt tt db)).
Proof.
  split.
  - apply DB_eq; try done. simpl. unfold update_where_run_id.
    rewrite <- list_fmap_compose. apply list_fmap_ext. intros i v _. simpl.
    destruct (decide (run_id v = rid)) as [Hr|Hr]; simpl.
    + by rewrite decide_True.
    + by rewrite decide_False.
  - intros Hne. apply DB_eq; try done. simpl. unfold update_where_run_id.
    rewrite <- !list_fmap_compose. apply list_fmap_ext. intros i v _. simpl.
    repeat (case_decide; simpl in *); congruence.
Qed.

Lemma save_platform_ids_last_write_wins_witness :
  let db := sample_db [sample_video "r1" 1 19 0 0 10 "X" 0;
                       sample_video "r2" 1 20 0 0 11 "Y" 0] in
  "r1"%string ≠ "r2"%string ∧
  save_platform_ids "r1" (Some "a"%string) None
    (save_platform_ids "r2" None (Some "b"%string) db)
  = save_platform_ids "r2" None (Some "b"%string)
      (save_platform_ids "r1" (Some "a"%string) None db).
Proof.
  intros db.
  assert (Hne : "r1"%string ≠ "r2"%string) by discriminate.
  split; [exact Hne|].
  destruct (save_platform_ids_last_write_wins "r1" "r2" (Some "a"%string) None
              None (Some "b"%string) db) as [_ H].
  exact (H Hne).
Defined.



(** * Further properties of the scheduler *)

Import SchedulerRuns.

Lemma chosen_hours_sublist e : chosen_hours e `sublist_of` active_hours e.
Proof.
  unfold chosen_hours.
  destruct (py_prefix_take (get_max_videos_per_day e) (active_hours e))
    as [k ->].
  apply sublist_take.
Qed.

Lemma build_daily_schedule_hours e st :
  (build_daily_schedule e st).1.*1 = chosen_hours e.
Proof. unfold build_daily_schedule. simpl. apply add_jitter_hours. Qed.

Lemma build_daily_schedule_slots e st :
  StronglySorted Z.lt (build_daily_schedule e st).1.*1 ∧
  ∀ h m, (h, m) ∈ (build_daily_schedule e st).1 →
         in_active_window h ∧ 5 ≤ m ≤ 55.
Proof.
  split.
  - rewrite build_daily_schedule_hours.
    eapply StronglySorted_sublist;
      [apply chosen_hours_sublist|apply active_hours_sorted].
  - intros h m Hin. split.
    + assert (Hh : h ∈ chosen_hours e).
      { rewrite <- (build_daily_schedule_hours e st).
        apply list_elem_of_fmap. by exists (h, m). }
      apply (sublist_subseteq _ _ (chosen_hours_sublist e)) in Hh.
      by apply active_hours_elem in Hh as [Hh _].
    + unfold build_daily_schedule in Hin. simpl in Hin.
      by eapply add_jitter_minutes.
Qed.

Lemma get_today_schedule_cached e st :
  (get_today_schedule e st).1 = _today_schedule (get_today_schedule e st).2.
Proof.
  unfold get_today_schedule.
  destruct (decide (_ ∨ _)); [|done].
  by destruct (build_daily_schedule e st).
Qed.

Lemma get_today_schedule_ok e st :
  schedule_ok st → schedule_ok (get_today_schedule e st).2.
Proof.
  intros Hok. unfold get_today_schedule.
  destruct (decide (_ ∨ _)); [|done].
  destruct (build_daily_schedule e st) as [s st1] eqn:E. simpl.
  unfold schedule_ok. simpl.
  pose proof (build_daily_schedule_slots e st) as Hs. by rewrite E in Hs.
Qed.

Lemma get_daily_count_schedule e st :
  _today_schedule (get_daily_count e st).2 = _today_schedule st ∧
  _schedule_date (get_daily_count e st).2 = _schedule_date st ∧
  _last_run_hour (get_daily_count e st).2 = _last_run_hour st ∧
  rng_pos (get_daily_count e st).2 = rng_pos st.
Proof. unfold get_daily_count. by destruct (decide (_ ≠ _)). Qed.

Lemma get_daily_count_idem e st :
  get_daily_count e (get_daily_count e st).2
  = ((get_daily_count e st).1, (get_daily_count e st).2).
Proof.
  unfold get_daily_count at 2 3 4.
  destruct (decide (_daily_run_count_date st ≠ now_date (now e))) as [Hd|Hd];
    simpl; unfold get_daily_count; simpl.
  - by rewrite decide_False by (intros Hn; by apply Hn).
  - by rewrite decide_False by done.
Qed.

(** What [should_run_now] leaves in the state: the state of
    [get_today_schedule] after [get_daily_count], of [get_daily_count]
    alone, or the state it was given. *)
Lemma should_run_now_state e st :
  (should_run_now e st).2 = st ∨
  (should_run_now e st).2 = (get_daily_count e st).2 ∨
  (should_run_now e st).2
    = (get_today_schedule e (get_daily_count e st).2).2.
Proof.
  unfold should_run_now.
  destruct (negb (is_active_hour e)); [by left|].
  destruct (decide (now_hour (now e) = _last_run_hour st)); [by left|].
  destruct (get_daily_count e st) as [c st1]. simpl.
  destruct (decide (get_max_videos_per_day e ≤ c)); [right; by left|].
  destruct (get_today_schedule e st1) as [s st2]. simpl.
  destruct (filter _ s) as [|[h m] l]; [right; by right|].
  destruct (decide (now_minute (now e) < m)); right; by right.
Qed.

Lemma get_today_schedule_frame e st :
  _last_run_hour (get_today_schedule e st).2 = _last_run_hour st ∧
  _daily_run_count_date (get_today_schedule e st).2
    = _daily_run_count_date st ∧
  _daily_run_count_count (get_today_schedule e st).2
    = _daily_run_count_count st.
Proof.
  unfold get_today_schedule. destruct (decide (_ ∨ _)); [|done].
  unfold build_daily_schedule. simpl. done.
Qed.

Lemma get_daily_count_after_schedule e st :
  get_daily_count e (get_today_schedule e st).2
  = ((get_daily_count e st).1,
     (get_today_schedule e (get_daily_count e st).2).2).
Proof.
  destruct (get_today_schedule_frame e st) as (_ & Hd & Hc).
  unfold get_daily_count. rewrite Hd, Hc.
  destruct (decide (_daily_run_count_date st ≠ now_date (now e))); simpl.
  - f_equal. unfold get_today_schedule. simpl.
    destruct (decide (_ ∨ _)); simpl; [|by destruct st].
    unfold build_daily_schedule. simpl. done.
  - f_equal.
Qed.

(** X15: every schedule the scheduler holds, from the initial state on, has
    strictly ascending hours inside the active window and minutes between
    5 and 55: [get_today_schedule], [should_run_now] and
    [inc_daily_count] keep it so, and what [get_today_schedule] returns is
    the schedule it leaves in the cache. *)
Theorem schedule_ok_invariant e st :
  schedule_ok st →
  schedule_ok (get_today_schedule e st).2 ∧
  schedule_ok (should_run_now e st).2 ∧
  schedule_ok (inc_daily_count e st) ∧
  (get_today_schedule e st).1 = _today_schedule (get_today_schedule e st).2.
Proof.
  intros Hok.
  assert (Hc : schedule_ok (get_daily_count e st).2).
  { unfold schedule_ok.
    destruct (get_daily_count_schedule e st) as [Heq _]. by rewrite Heq. }
  split; [by apply get_today_schedule_ok|]. split; [|split].
  - destruct (should_run_now_state e st) as [Hs | [Hs | Hs]]; rewrite Hs; [done | done |].
    by apply get_today_schedule_ok.
  - unfold inc_daily_count, schedule_ok. simpl. exact Hc.
  - apply get_today_schedule_cached.
Qed.

Lemma schedule_ok_initial : schedule_ok initial_state.
Proof.
  split; [constructor|]. intros h m Hin. by apply elem_of_nil in Hin.
Qed.

Lemma schedule_ok_invariant_witness :
  let e := sample_env (sample_clock "2026-01-05" 0 7 59 100 0) 2 learned_db in
  schedule_ok initial_state ∧
  schedule_ok (should_run_now e initial_state).2.
Proof.
  intros e. split; [exact schedule_ok_initial|].
  destruct (schedule_ok_invariant e initial_state schedule_ok_initial)
    as (_ & H & _).
  exact H.
Defined.

Lemma filter_hour_unique (sched : list (Z * Z)) h m :
  NoDup sched.*1 → (h, m) ∈ sched →
  filter (λ s, s.1 = h) sched = [(h, m)].
Proof.
  induction sched as [|[h' m'] sched IH]; intros Hnd Hin.
  - by apply elem_of_nil in Hin.
  - rewrite fmap_cons in Hnd. apply NoDup_cons in Hnd as [Hh' Hnd].
    rewrite filter_cons. simpl in *.
    apply elem_of_cons in Hin as [Heq|Hin].
    + injection Heq as <- <-. rewrite decide_True by done. f_equal.
      apply filter_nil_Forall, Forall_forall. intros [h2 m2] Hin2 Heq2.
      simpl in Heq2. subst h2. apply Hh'. apply list_elem_of_fmap.
      by exists (h, m2).
    + rewrite decide_False; [by apply IH|].
      intros ->. apply Hh'. apply list_elem_of_fmap. by exists (h, m).
Qed.

Lemma StronglySorted_lt_NoDup (l : list Z) : StronglySorted Z.lt l → NoDup l.
Proof.
  induction 1 as [|x l Hl IH Hx]; constructor; [|done].
  intros Hin. rewrite Forall_forall in Hx. specialize (Hx x Hin). lia.
Qed.

(** X16: on a state whose cached schedule is well formed,
    [should_run_now] answers true exactly when the hour is in the active
    window, is not the hour of the last run, the daily counter is below
    the cap, and today's schedule has a slot for this hour whose minute has
    been reached; the reason is [OK] exactly then, and a true answer never
    comes before minute 5 of an hour. *)
Theorem should_run_now_true_iff e st :
  schedule_ok st →
  let hour := now_hour (now e) in
  let count := (get_daily_count e st).1 in
  let schedule := (get_today_schedule e (get_daily_count e st).2).1 in
  ((should_run_now e st).1.1 = true ↔
     6 ≤ hour < 23 ∧ hour ≠ _last_run_hour st ∧
     count < get_max_videos_per_day e ∧
     ∃ m, (hour, m) ∈ schedule ∧ m ≤ now_minute (now e)) ∧
  ((should_run_now e st).1.1 = true ↔ (should_run_now e st).1.2 = OK) ∧
  ((should_run_now e st).1.1 = true → 5 ≤ now_minute (now e)).
Proof.
  intros Hok hour count schedule.
  assert (Hc : schedule_ok (get_daily_count e st).2).
  { unfold schedule_ok.
    destruct (get_daily_count_schedule e st) as [Heq _]. by rewrite Heq. }
  assert (Hs : schedule_ok (get_today_schedule e (get_daily_count e st).2).2)
    by (by apply get_today_schedule_ok).
  destruct Hs as [Hsorted Hslots].
  rewrite <- get_today_schedule_cached in Hsorted, Hslots.
  fold schedule in Hsorted, Hslots.
  apply StronglySorted_lt_NoDup in Hsorted.
  subst hour count schedule. unfold should_run_now.
  unfold is_active_hour, ACTIVE_HOURS_START, ACTIVE_HOURS_END.
  destruct (decide (6 ≤ now_hour (now e) < 23)) as [Ha|Ha].
  2:{ rewrite bool_decide_eq_false_2 by done. simpl.
      split; [|split]; [split| |]; try done. intros []. done. }
  rewrite bool_decide_eq_true_2 by done. simpl.
  destruct (decide (now_hour (now e) = _last_run_hour st)) as [Hl|Hl]; simpl.
  { split; [|split]; [split| |]; try done. intros (_ & ? & _). done. }
  destruct (get_daily_count e st) as [c st1] eqn:Ec. simpl in *.
  destruct (decide (get_max_videos_per_day e ≤ c)) as [Hcap|Hcap]; simpl.
  { split; [|split]; [split| |]; try done. intros (_ & _ & ? & _). lia. }
  destruct (get_today_schedule e st1) as [s st2] eqn:Es. simpl in *.
  destruct (filter (λ s0, s0.1 = now_hour (now e)) s) as [|[h m] l] eqn:Ef.
  { simpl. split; [|split]; [split| |]; try done.
    intros (_ & _ & _ & m & Hm & _).
    rewrite (filter_hour_unique s _ m Hsorted Hm) in Ef. done. }
  assert (Hhm : (h, m) ∈ s ∧ h = now_hour (now e)).
  { assert (Hin : (h, m) ∈ filter (λ s0, s0.1 = now_hour (now e)) s)
      by (rewrite Ef; apply list_elem_of_here).
    apply list_elem_of_filter in Hin as [Hh Hin]. auto. }
  destruct Hhm as [Hin ->].
  destruct (decide (now_minute (now e) < m)) as [Hm|Hm]; simpl.
  - split; [|split]; [split| |]; try done.
    intros (_ & _ & _ & m' & Hm' & Hle).
    rewrite (filter_hour_unique s _ m' Hsorted Hm') in Ef.
    injection Ef as ->. intros. lia.
  - split; [|split]; [split| |]; try done.
    + intros _. repeat split; try lia. exists m. split; [done|lia].
    + intros _. destruct (Hslots _ _ Hin) as [_ ?]. lia.
Qed.

Lemma should_run_now_true_iff_witness :
  let e := sample_env (sample_clock "2026-01-05" 0 7 59 100 50) 4 learned_db in
  schedule_ok initial_state ∧
  (should_run_now e initial_state).1.1 = true ∧
  5 ≤ now_minute (now e).
Proof.
  intros e. split; [exact schedule_ok_initial|].
  destruct (should_run_now_true_iff e initial_state schedule_ok_initial)
    as (_ & _ & H).
  assert (Ht : (should_run_now e initial_state).1.1 = true)
    by (vm_compute; reflexivity).
  split; [exact Ht|exact (H Ht)].
Defined.

(** ** The daily counter *)

Lemma daily_value_ext e st st' :
  _daily_run_count_date st' = _daily_run_count_date st →
  _daily_run_count_count st' = _daily_run_count_count st →
  (get_daily_count e st').1 = (get_daily_count e st).1.
Proof.
  intros Hd Hc. unfold get_daily_count. rewrite Hd, Hc.
  by destruct (decide (_ ≠ _)).
Qed.

Lemma daily_value_sync e st :
  (get_daily_count e (get_daily_count e st).2).1 = (get_daily_count e st).1.
Proof. by rewrite get_daily_count_idem. Qed.

Lemma daily_value_schedule e st :
  (get_daily_count e (get_today_schedule e st).2).1
  = (get_daily_count e st).1.
Proof.
  destruct (get_today_schedule_frame e st) as (_ & Hd & Hc).
  by apply daily_value_ext.
Qed.

Lemma daily_value_gate e st :
  (get_daily_count e (should_run_now e st).2).1 = (get_daily_count e st).1.
Proof.
  destruct (should_run_now_state e st) as [Hs | [Hs | Hs]]; rewrite Hs.
  - done.
  - apply daily_value_sync.
  - by rewrite daily_value_schedule, daily_value_sync.
Qed.

Lemma daily_value_inc e st :
  (get_daily_count e (inc_daily_count e st)).1 = (get_daily_count e st).1 + 1.
Proof.
  unfold inc_daily_count, get_daily_count.
  destruct (decide (_daily_run_count_date st ≠ now_date (now e))); simpl.
  - by rewrite decide_False by (intros Hn; by apply Hn).
  - by rewrite decide_False by done.
Qed.

Lemma daily_counter_steps_last_run e st :
  _last_run_hour (should_run_now e st).2 = _last_run_hour st.
Proof.
  destruct (should_run_now_state e st) as [Hs | [Hs | Hs]]; rewrite Hs.
  - done.
  - apply get_daily_count_schedule.
  - destruct (get_today_schedule_frame e (get_daily_count e st).2) as [-> _].
    apply get_daily_count_schedule.
Qed.

(** X17: [get_daily_count] re-reads the store only when the date has
    changed: a second call returns the same count and leaves the state
    alone, and after [inc_daily_count] it returns one more than before.
    [should_run_now] counts nothing: whatever it answers, the count that
    [get_daily_count] returns afterwards is the one it would have returned
    before, and [_last_run_hour] is what it was. *)
Theorem daily_counter_steps e st :
  get_daily_count e (get_daily_count e st).2
    = ((get_daily_count e st).1, (get_daily_count e st).2) ∧
  (get_daily_count e (inc_daily_count e st)).1
    = (get_daily_count e st).1 + 1 ∧
  (get_daily_count e (should_run_now e st).2).1 = (get_daily_count e st).1 ∧
  _last_run_hour (should_run_now e st).2 = _last_run_hour st.
Proof.
  split; [apply get_daily_count_idem|]. split; [apply daily_value_inc|].
  split; [apply daily_value_gate|]. apply daily_counter_steps_last_run.
Qed.

(** ** The schedule cache *)

(** X18: a non-empty schedule is built once a day.  After
    [get_today_schedule] has returned a non-empty schedule, every later
    call on the same date returns that schedule and changes nothing,
    whatever the settings, the database and the clock have become; on
    another date the schedule is built anew. *)
Theorem get_today_schedule_once_a_day e e' st :
  (get_today_schedule e st).1 ≠ [] →
  let st1 := (get_today_schedule e st).2 in
  (now_date (now e') = now_date (now e) →
     get_today_schedule e' st1 = ((get_today_schedule e st).1, st1)) ∧
  (now_date (now e') ≠ now_date (now e) →
     (get_today_schedule e' st1).1 = (build_daily_schedule e' st1).1).
Proof.
  intros Hne st1.
  assert (Hst1 : _today_schedule st1 = (get_today_schedule e st).1
                 ∧ _schedule_date st1 = now_date (now e)).
  { subst st1. unfold get_today_schedule in *.
    destruct (decide (_schedule_date st ≠ now_date (now e)
                      ∨ _today_schedule st = [])) as [Hd|Hd].
    - by destruct (build_daily_schedule e st).
    - simpl. split; [done|].
      destruct (decide (_schedule_date st = now_date (now e))); [done|].
      exfalso. apply Hd. by left. }
  destruct Hst1 as [Hs Hd]. split.
  - intros Hdate. unfold get_today_schedule at 1.
    rewrite decide_False; [by rewrite Hs|].
    rewrite Hs, Hd, Hdate. intros [?|?]; done.
  - intros Hdate. unfold get_today_schedule at 1.
    rewrite decide_True by (left; by rewrite Hd).
    by destruct (build_daily_schedule e' st1).
Qed.

Lemma get_today_schedule_once_a_day_witness :
  let e := sample_env (sample_clock "2026-01-05" 0 7 59 100 50) 4 learned_db in
  let e' := sample_env (sample_clock "2026-01-05" 0 9 10 200 50) 1 fresh_db in
  (get_today_schedule e initial_state).1 ≠ [] ∧
  get_today_schedule e' (get_today_schedule e initial_state).2
  = ((get_today_schedule e initial_state).1,
     (get_today_schedule e initial_state).2).
Proof.
  intros e e'.
  assert (Hne : (get_today_schedule e initial_state).1 ≠ [])
    by (vm_compute; discriminate).
  split; [exact Hne|].
  destruct (get_today_schedule_once_a_day e e' initial_state Hne) as [H _].
  apply H. reflexivity.
Defined.

(** ** The size of the schedule *)

Lemma peak_hours_cases w :
  default [7; 8; 12; 19; 20] (PEAK_HOURS w) ∈
  [[7; 8; 12; 19; 20]; [7; 8; 12; 19; 20; 21]; [7; 8; 12; 19];
   [10; 11; 12; 14; 20]; [11; 12; 14; 19]].
Proof.
  destruct w as [|p|p]; simpl; [list_mem| |list_mem].
  do 3 (try destruct p as [p|p|]; simpl; try (by list_mem)).
Qed.

Lemma psych_hours_shape e :
  NoDup (psych_hours e) ∧ (4 ≤ length (psych_hours e))%nat ∧
  ∀ h, h ∈ psych_hours e → in_active_window h.
Proof.
  unfold psych_hours. pose proof (peak_hours_cases (now_weekday (now e))) as Hp.
  unfold in_active_window, ACTIVE_HOURS_START, ACTIVE_HOURS_END.
  repeat (apply elem_of_cons in Hp as [Hp|Hp];
          [rewrite Hp; split; [|split];
           [apply (bool_decide_unpack _); vm_compute; exact I
           |simpl; lia
           |intros h Hh;
            repeat (apply elem_of_cons in Hh as [->|Hh]; [lia|]);
            by apply elem_of_nil in Hh]|]).
  by apply elem_of_nil in Hp.
Qed.

Lemma active_hours_length e : (4 ≤ length (active_hours e))%nat.
Proof.
  destruct (psych_hours_shape e) as (Hnd & Hlen & Hact).
  etrans; [exact Hlen|]. apply submseteq_length, NoDup_submseteq; [done|].
  intros h Hh. apply active_hours_elem. split; [by apply Hact|].
  apply elem_of_app. by right.
Qed.

(** X19: for every weekday and every store, the schedule of a day has
    exactly [max_videos_per_day] slots when that cap is between 1 and 4,
    and at least 4 slots when the cap is larger: the prior table alone
    fills four slots of the active window. *)
Theorem build_daily_schedule_size e st :
  let cap := get_max_videos_per_day e in
  let n := Z.of_nat (length (build_daily_schedule e st).1) in
  (1 ≤ cap ≤ 4 → n = cap) ∧ (4 ≤ cap → 4 ≤ n ≤ cap).
Proof.
  intros cap n. subst n.
  rewrite <- (length_fmap fst), build_daily_schedule_hours.
  unfold chosen_hours, py_prefix. fold cap.
  pose proof (active_hours_length e) as Hlen.
  split; intros Hcap; rewrite decide_True by lia; rewrite length_take; lia.
Qed.

Lemma build_daily_schedule_size_witness :
  let e := sample_env (sample_clock "2026-01-05" 0 7 59 100 50) 3 fresh_db in
  1 ≤ get_max_videos_per_day e ≤ 4 ∧
  Z.of_nat (length (build_daily_schedule e initial_state).1)
  = get_max_videos_per_day e.
Proof.
  intros e.
  assert (Hcap : 1 ≤ get_max_videos_per_day e ≤ 4)
    by (split; vm_compute; discriminate).
  split; [exact Hcap|].
  destruct (build_daily_schedule_size e initial_state) as [H _].
  exact (H Hcap).
Defined.

(** ** One scheduler cycle *)

Lemma should_run_now_true_below_cap e st :
  (should_run_now e st).1.1 = true →
  (get_daily_count e st).1 < get_max_videos_per_day e ∧
  is_active_hour e = true.
Proof.
  unfold should_run_now. destruct (is_active_hour e); simpl; [|done].
  destruct (decide (now_hour (now e) = _last_run_hour st)); [done|].
  destruct (get_daily_count e st) as [c st1]. simpl.
  destruct (decide (get_max_videos_per_day e ≤ c)); [done|].
  intros _. split; [lia|done].
Qed.

Lemma should_run_now_already_ran e st :
  is_active_hour e = true → _last_run_hour st = now_hour (now e) →
  (should_run_now e st).1 = (false, AlreadyRanThisHour).
Proof.
  intros Hact Hl. unfold should_run_now. rewrite Hact. simpl.
  by rewrite decide_True by done.
Qed.

Lemma daily_value_run_prefix e st n hour :
  (get_daily_count e
     (set_last_run_hour hour
        (skip_draws n
           (get_daily_count e (get_today_schedule e st).2).2))).1
  = (get_daily_count e st).1.
Proof.
  rewrite (daily_value_ext e
             (get_daily_count e (get_today_schedule e st).2).2) by done.
  by rewrite daily_value_sync, daily_value_schedule.
Qed.

(** X20: a cycle of [run_once] that is not forced succeeds only when the
    gate allowed it and the pipeline returned a result; the daily count is
    then one more than before and at most the cap, the hour is recorded,
    and a gate check in the same hour answers "already ran this hour".  A
    cycle that does not succeed, forced or not, leaves the daily count,
    the hour of the last run and the stats timer as they were. *)
Theorem run_once_cycle force pipeline_ok intel_draws e p :
  let r := run_once force pipeline_ok intel_draws e p in
  let count := (get_daily_count e (sched p)).1 in
  (r.1 = true →
     pipeline_ok = true ∧
     (get_daily_count e (sched r.2)).1 = count + 1 ∧
     _last_run_hour (sched r.2) = now_hour (now e) ∧
     _last_stats_fetch r.2 = now_time (now e) ∧
     (force = false →
        (should_run_now e (sched p)).1.1 = true ∧
        count + 1 ≤ get_max_videos_per_day e ∧
        (should_run_now e (sched r.2)).1 = (false, AlreadyRanThisHour))) ∧
  (r.1 = false →
     (get_daily_count e (sched r.2)).1 = count ∧
     _last_run_hour (sched r.2) = _last_run_hour (sched p) ∧
     _last_stats_fetch r.2 = _last_stats_fetch p).
Proof.
  intros r count. subst r count. unfold run_once.
  set (gate := if force then ((true, OK), sched p)
               else should_run_now e (sched p)).
  assert (Hg : (get_daily_count e gate.2).1 = (get_daily_count e (sched p)).1
               ∧ _last_run_hour gate.2 = _last_run_hour (sched p)).
  { subst gate. destruct force; [done|]. split.
    - apply daily_value_gate.
    - apply daily_counter_steps_last_run. }
  destruct Hg as [Hgc Hgl].
  destruct (gate.1.1) eqn:Eg; simpl.
  2:{ split; [done|]. intros _. simpl. auto. }
  destruct pipeline_ok; simpl.
  - split; [|done]. intros _. split; [done|].
    rewrite daily_value_inc, daily_value_run_prefix, Hgc.
    split; [done|].
    assert (Hl : _last_run_hour
               (inc_daily_count e
                  (set_last_run_hour (now_hour (now e))
                     (skip_draws intel_draws
                        (get_daily_count e
                           (get_today_schedule e gate.2).2).2)))
             = now_hour (now e)).
    { unfold inc_daily_count. simpl.
      by destruct (get_daily_count_schedule e
                     (set_last_run_hour (now_hour (now e))
                        (skip_draws intel_draws
                           (get_daily_count e
                              (get_today_schedule e gate.2).2).2)))
        as (_ & _ & -> & _). }
    split; [exact Hl|]. split; [done|].
    intros ->. subst gate. simpl in Eg.
    destruct (should_run_now_true_below_cap e (sched p) Eg) as [Hcap Hact].
    split; [done|]. split; [lia|].
    by apply should_run_now_already_ran.
  - split; [done|]. intros _. simpl.
    split; [|split; [|done]].
    + rewrite (daily_value_ext e
                 (get_daily_count e (get_today_schedule e gate.2).2).2)
        by done.
      by rewrite daily_value_sync, daily_value_schedule.
    + destruct (get_daily_count_schedule e (get_today_schedule e gate.2).2)
        as (_ & _ & -> & _).
      by destruct (get_today_schedule_frame e gate.2) as [-> _].
Qed.

Lemma run_once_cycle_witness :
  let e := sample_env (sample_clock "2026-01-05" 0 7 59 100 50) 4 learned_db in
  let p := {| sched := initial_state; _last_stats_fetch := Qc_of_Z 0 |} in
  let r := run_once false true 2 e p in
  r.1 = true ∧
  (get_daily_count e (sched r.2)).1 = (get_daily_count e (sched p)).1 + 1 ∧
  (should_run_now e (sched r.2)).1 = (false, AlreadyRanThisHour).
Proof.
  intros e p r.
  assert (Hr : r.1 = true) by (vm_compute; reflexivity).
  split; [exact Hr|].
  destruct (run_once_cycle false true 2 e p) as [H _].
  destruct (H Hr) as (_ & Hc & _ & _ & Hf).
  destruct (Hf eq_refl) as (_ & _ & Ha).
  split; [exact Hc|exact Ha].
Defined.

Lemma run_once_true_timer force pipeline_ok intel_draws e p :
  (run_once force pipeline_ok intel_draws e p).1 = true →
  _last_stats_fetch (run_once force pipeline_ok intel_draws e p).2
  = now_time (now e).
Proof.
  unfold run_once.
  destruct (negb _); [done|]. by destruct pipeline_ok.
Qed.

(** X21: [maybe_fetch_stats] fetches at most once in two hours and never
    touches the scheduler's variables.  When less than 7200 seconds have
    passed since the last fetch, or since the last successful [run_once],
    it leaves the database and the process state as they are; otherwise
    its database is that of [fetch_and_update_all] and the timer is set to
    the time of the call. *)
Theorem maybe_fetch_stats_rate_limit yt_fetch time e p :
  let r := maybe_fetch_stats yt_fetch time e p in
  sched r.2 = sched p ∧
  ((now_time (now e) - _last_stats_fetch p < Qc_of_Z 7200)%Qc →
     r = (db e, p)) ∧
  (¬ (now_time (now e) - _last_stats_fetch p < Qc_of_Z 7200)%Qc →
     r.1 = (fetch_and_update_all yt_fetch time (now e) (db e)).1 ∧
     _last_stats_fetch r.2 = now_time (now e)) ∧
  (∀ force intel_draws e0,
     (run_once force true intel_draws e0 p).1 = true →
     (now_time (now e) - now_time (now e0) < Qc_of_Z 7200)%Qc →
     maybe_fetch_stats yt_fetch time e
       (run_once force true intel_draws e0 p).2
     = (db e, (run_once force true intel_draws e0 p).2)).
Proof.
  intros r. subst r. unfold maybe_fetch_stats, STATS_FETCH_INTERVAL.
  change (2 * 3600) with 7200. split; [|split; [|split]].
  - by destruct (decide _).
  - intros Hlt. by rewrite decide_True.
  - intros Hge. by rewrite decide_False.
  - intros force intel_draws e0 Hr Hlt.
    rewrite (run_once_true_timer _ _ _ _ _ Hr). by rewrite decide_True.
Qed.



(** * Further properties of the topic selection *)

(** ** Topic words *)

Lemma lower_char_idem c : lower_char (lower_char c) = lower_char c.
Proof. destruct c as [[] [] [] [] [] [] [] []]; reflexivity. Qed.

Lemma lower_idem s : lower (lower s) = lower s.
Proof.
  induction s as [|c s IH]; [done|]. simpl. by rewrite lower_char_idem, IH.
Qed.

Lemma strip_other_kept s : all_chars kept_char (strip_other s) = true.
Proof.
  induction s as [|c s IH]; [done|]. simpl.
  destruct (kept_char c) eqn:E; [|done]. simpl. by rewrite E.
Qed.

Lemma all_chars_app P s c :
  all_chars P (s +:+ String c EmptyString) = all_chars P s && P c.
Proof.
  induction s as [|a s IH]; simpl; [by rewrite andb_true_r|].
  by rewrite IH, andb_assoc.
Qed.

Lemma split_go_words s : ∀ cur,
  all_chars word_char cur = true → all_chars kept_char s = true →
  Forall (λ w, w ≠ EmptyString ∧ all_chars word_char w = true)
         (split_go cur s).
Proof.
  induction s as [|c s IH]; intros cur Hcur Hs; simpl.
  - destruct cur; simpl; [constructor|]. apply Forall_singleton. by split.
  - simpl in Hs. apply andb_true_iff in Hs as [Hc Hs].
    destruct (Ascii.eqb c " ") eqn:Esp.
    + destruct cur as [|a cur'] eqn:Ecur; simpl.
      * by apply IH.
      * constructor; [by split|]. by apply IH.
    + apply IH; [|done]. rewrite all_chars_app, Hcur. simpl.
      unfold word_char. by rewrite Hc, Esp.
Qed.

(** X22: every word that [_topic_words] returns is non-empty, consists of
    the characters [a]-[z] and [0]-[9] only, and is not a stop-word; the
    result does not depend on the case of the letters [A]-[Z]; and a topic
    without a letter or digit has no words. *)
Theorem topic_words_normal_form topic :
  (∀ w, w ∈ _topic_words topic →
        w ≠ EmptyString ∧ all_chars word_char w = true ∧ w ∉ _STOP) ∧
  _topic_words (lower topic) = _topic_words topic ∧
  (all_chars (λ c, negb (word_char (lower_char c))) topic = true →
   _topic_words topic = ∅).
Proof.
  split; [|split].
  - intros w. unfold _topic_words.
    rewrite elem_of_difference, elem_of_list_to_set. intros [Hw Hstop].
    pose proof (split_go_words (strip_other (lower topic)) EmptyString
                  eq_refl (strip_other_kept _)) as Hall.
    rewrite Forall_forall in Hall. destruct (Hall w Hw). auto.
  - unfold _topic_words. by rewrite lower_idem.
  - intros Hno. unfold _topic_words.
    assert (Hsplit : split (strip_other (lower topic)) = []).
    { unfold split. clear -Hno.
      induction topic as [|c s IH]; [done|]. simpl in *.
      apply andb_true_iff in Hno as [Hc Hs]. unfold word_char in Hc.
      destruct (kept_char (lower_char c)) eqn:Ek; simpl in *; [|by apply IH].
      destruct (Ascii.eqb (lower_char c) " ") eqn:Esp; [|done].
      simpl. by apply IH. }
    rewrite Hsplit. simpl. apply set_eq. intros x.
    rewrite elem_of_difference. split; [intros [Hx _]|intros Hx].
    + by apply not_elem_of_empty in Hx.
    + by apply not_elem_of_empty in Hx.
Qed.

Lemma topic_words_normal_form_witness :
  all_chars (λ c, negb (word_char (lower_char c))) "?!  ...  #" = true ∧
  _topic_words "?!  ...  #" = ∅.
Proof.
  assert (H : all_chars (λ c, negb (word_char (lower_char c))) "?!  ...  #"
              = true) by reflexivity.
  split; [exact H|].
  destruct (topic_words_normal_form "?!  ...  #") as (_ & _ & Hempty).
  exact (Hempty H).
Defined.

(** ** Freshness *)

(** X23: on a history without pumped topic, where the filter returns, a
    candidate with fewer than 3 meaningful words is fresh, and so is every
    candidate when no topic was used yet; and a candidate that is fresh
    stays fresh when used topics are removed. *)
Theorem topic_is_fresh_monotone candidate ui ui' :
  pumped_topics ui = [] →
  pumped_topics ui' = [] →
  ((size (_topic_words candidate) < 3)%nat →
     _topic_is_fresh candidate ui = Returned true) ∧
  (used ui = [] → _topic_is_fresh candidate ui = Returned true) ∧
  ((∀ u, u ∈ used ui' → u ∈ used ui) →
   _topic_is_fresh candidate ui = Returned true →
   _topic_is_fresh candidate ui' = Returned true).
Proof.
  intros Hp Hp'. split; [|split].
  - intros Hsize. apply (topic_is_fresh_true _ _ Hp). intros (u & _ & Hs).
    pose proof (subseteq_size (_topic_words candidate ∩ _topic_words u)
                  (_topic_words candidate)
                  (intersection_subseteq_l _ _)). lia.
  - intros Hused. apply (topic_is_fresh_true _ _ Hp). intros (u & Hu & _).
    rewrite Hused in Hu. by apply elem_of_nil in Hu.
  - intros Hu Hfresh. apply (topic_is_fresh_true _ _ Hp) in Hfresh.
    apply (topic_is_fresh_true _ _ Hp'). intros (u & Hin & Hs).
    apply Hfresh. exists u. split; [by apply Hu|done].
Qed.

Lemma topic_is_fresh_monotone_witness :
  let ui := {| used := ["Trader lost everything in 2021"]%string;
               pumped_topics := [] |} in
  pumped_topics ui = [] ∧
  (size (_topic_words "Banks fail") < 3)%nat ∧
  _topic_is_fresh "Banks fail" ui = Returned true.
Proof.
  intros ui.
  assert (Hp : pumped_topics ui = []) by reflexivity.
  assert (H : (size (_topic_words "Banks fail") < 3)%nat)
    by (vm_compute; lia).
  split; [exact Hp|]. split; [exact H|].
  destruct (topic_is_fresh_monotone "Banks fail" ui ui Hp Hp) as [Hs _].
  exact (Hs H).
Defined.

(** ** Picking a fresh topic *)

Lemma insert_desc_Permutation {A} (key : A → Qc) x (l : list A) :
  insert_desc key x l ≡ₚ x :: l.
Proof.
  induction l as [|y l IH]; [done|]. simpl.
  destruct (decide (key x < key y)%Qc); [|done].
  rewrite IH. apply Permutation_swap.
Qed.

Lemma sorted_reverse_Permutation {A} (key : A → Qc) (l : list A) :
  sorted_reverse key l ≡ₚ l.
Proof.
  induction l as [|x l IH]; [done|]. unfold sorted_reverse in *. simpl.
  by rewrite insert_desc_Permutation, IH.
Qed.

Lemma format_scores_formats intel draw fmts : ∀ pos,
  (format_scores intel draw pos fmts).1.*1 = fmts.
Proof.
  induction fmts as [|f fmts IH]; intros pos; [done|]. simpl.
  destruct (viral_angles (intel f)).
  - specialize (IH (S pos)).
    destruct (format_scores intel draw (S pos) fmts). simpl in *.
    by f_equal.
  - specialize (IH pos).
    destruct (format_scores intel draw pos fmts). simpl in *. by f_equal.
Qed.

Lemma noisy_keys_formats draw scores : ∀ pos,
  (noisy_keys draw pos scores).*1 = scores.*1.
Proof.
  induction scores as [|[f s] scores IH]; intros pos; [done|]. simpl.
  by rewrite IH.
Qed.

Lemma sorted_formats_Permutation intel draw pos :
  sorted_formats intel draw pos ≡ₚ RunPipeline.ALL_FORMATS.
Proof.
  unfold sorted_formats.
  pose proof (format_scores_formats intel draw RunPipeline.ALL_FORMATS pos)
    as Hf.
  destruct (format_scores intel draw pos RunPipeline.ALL_FORMATS)
    as [scores pos'].
  cbn [fst] in Hf. cbv beta iota.
  by rewrite sorted_reverse_Permutation, noisy_keys_formats, Hf.
Qed.

Lemma first_fresh_spec used_info topics :
  match first_fresh used_info topics with
  | Returned (Some t) => t ∈ topics ∧ eligible used_info t
  | Returned None =>
      ∀ t, t ∈ topics →
           t = EmptyString ∨ _topic_is_fresh t used_info = Returned false
  | Raised e =>
      ∃ t, t ∈ topics ∧ t ≠ EmptyString ∧
           _topic_is_fresh t used_info = Raised e
  end.
Proof.
  induction topics as [|t topics IH]; simpl.
  - intros t Ht. by apply elem_of_nil in Ht.
  - destruct (is_empty t) eqn:Ee.
    + destruct (first_fresh used_info topics) as [[t'|]|e].
      * destruct IH. split; [by apply list_elem_of_further|done].
      * intros t' Ht'. apply elem_of_cons in Ht' as [Ht'|Ht'];
          [|by apply IH]. subst t'. left. by destruct t.
      * destruct IH as (t' & Hin & H). exists t'.
        split; [by apply list_elem_of_further|done].
    + destruct (_topic_is_fresh t used_info) as [[|]|e] eqn:Ef.
      * split; [apply list_elem_of_here|]. split; [|done]. by destruct t.
      * destruct (first_fresh used_info topics) as [[t'|]|e].
        -- destruct IH. split; [by apply list_elem_of_further|done].
        -- intros t' Ht'. apply elem_of_cons in Ht' as [Ht'|Ht'];
             [|by apply IH]. subst t'. by right.
        -- destruct IH as (t' & Hin & H). exists t'.
           split; [by apply list_elem_of_further|done].
      * exists t. split; [apply list_elem_of_here|]. split; [|done].
        by destruct t.
Qed.

Lemma pick_loop_spec intel trends used_info fmts :
  match pick_loop intel trends used_info fmts with
  | Returned (Some (t, f)) =>
      t ∈ candidates intel trends f ∧ eligible used_info t ∧
      ∃ before after, fmts = before ++ f :: after ∧
        ∀ f' t', f' ∈ before → t' ∈ candidates intel trends f' →
                 t' = EmptyString ∨
                 _topic_is_fresh t' used_info = Returned false
  | Returned None =>
      ∀ f t, f ∈ fmts → t ∈ candidates intel trends f →
             t = EmptyString ∨ _topic_is_fresh t used_info = Returned false
  | Raised e =>
      ∃ f t, f ∈ fmts ∧ t ∈ candidates intel trends f ∧
             t ≠ EmptyString ∧ _topic_is_fresh t used_info = Raised e
  end.
Proof.
  induction fmts as [|f fmts IH]; simpl.
  - intros f t Hf. by apply elem_of_nil in Hf.
  - pose proof (first_fresh_spec used_info (candidates intel trends f)) as Hff.
    destruct (first_fresh used_info (candidates intel trends f))
      as [[t|]|e].
    + destruct Hff as [Hin He]. split; [done|]. split; [done|].
      exists [], fmts. split; [done|]. intros f' t' Hf'.
      by apply elem_of_nil in Hf'.
    + destruct (pick_loop intel trends used_info fmts) as [[[t f0]|]|e].
      * destruct IH as (Hin & He & before & after & Heq & Hb).
        split; [done|]. split; [done|].
        exists (f :: before), after. split; [by rewrite Heq|].
        intros f' t' Hf'. apply elem_of_cons in Hf' as [Hf'|Hf'];
          [subst f'; by apply Hff|by apply Hb].
      * intros f' t' Hf'. apply elem_of_cons in Hf' as [Hf'|Hf'];
          [subst f'; by apply Hff|by apply IH].
      * destruct IH as (f' & t' & Hf' & H). exists f', t'.
        split; [by apply list_elem_of_further|done].
    + destruct Hff as (t & Hin & H). exists f, t.
      split; [apply list_elem_of_here|done].
Qed.

(** X24: on a history without pumped topic, where the freshness filter
    returns, [_pick_fresh_topic] returns and never gives a topic that the
    filter rejects.  A pair it returns consists of one of the three formats
    and a non-empty, fresh topic among that format's candidates (the best
    topic, the first four main topics, the trends), and no format ranked
    before it has such a candidate; it returns nothing exactly when no
    candidate of any format is non-empty and fresh, whatever the random
    source. *)
Theorem pick_fresh_topic_spec intel trends used_info draw pos :
  pumped_topics used_info = [] →
  let formats := ["story_lesson"; "scary_truth"; "hidden_psychology"]%string in
  match _pick_fresh_topic intel trends used_info draw pos with
  | Returned (Some (t, f)) =>
      f ∈ formats ∧ t ∈ candidates intel trends f ∧
      t ≠ EmptyString ∧ _topic_is_fresh t used_info = Returned true ∧
      ∃ before after,
        sorted_formats intel draw pos = before ++ f :: after ∧
        ∀ f' t', f' ∈ before → t' ∈ candidates intel trends f' →
                 ¬ eligible used_info t'
  | Returned None =>
      ∀ f t, f ∈ formats → t ∈ candidates intel trends f →
             t = EmptyString ∨ _topic_is_fresh t used_info = Returned false
  | Raised _ => False
  end.
Proof.
  intros Hp formats. unfold _pick_fresh_topic.
  pose proof (pick_loop_spec intel trends used_info
                (sorted_formats intel draw pos)) as Hspec.
  pose proof (sorted_formats_Permutation intel draw pos) as Hperm.
  change RunPipeline.ALL_FORMATS with formats in Hperm.
  destruct (pick_loop intel trends used_info (sorted_formats intel draw pos))
    as [[[t f]|]|e].
  - destruct Hspec as (Hin & [Hne Hf] & before & after & Heq & Hb).
    split; [|split; [done|split; [done|split; [done|]]]].
    + rewrite <- Hperm, Heq. apply elem_of_app. right. apply list_elem_of_here.
    + exists before, after. split; [done|]. intros f' t' Hf' Ht' [Hne' He].
      destruct (Hb f' t' Hf' Ht') as [H|H]; [done|congruence].
  - intros f t Hf Ht. rewrite <- Hperm in Hf. exact (Hspec f t Hf Ht).
  - destruct Hspec as (f & t & _ & _ & _ & Hr).
    rewrite (topic_is_fresh_no_pumped _ _ Hp) in Hr. discriminate Hr.
Qed.

Lemma pick_fresh_topic_spec_witness :
  let intel := λ _ : string, mkIntel [] EmptyString [] in
  let trends := λ f : string,
    if decide (f = "scary_truth"%string)
    then ["Trader lost it all in 2021"; "Why banks fail"]%string else [] in
  let used_info := {| used := ["Trader lost everything in 2021"]%string;
                      pumped_topics := [] |} in
  pumped_topics used_info = [] ∧
  _pick_fresh_topic intel trends used_info (λ i, Z.of_nat i * 17) 0
  = Returned (Some ("Why banks fail", "scary_truth")%string) ∧
  _topic_is_fresh "Why banks fail" used_info = Returned true.
Proof.
  intros intel trends used_info.
  assert (Hp : pumped_topics used_info = []) by reflexivity.
  assert (He : _pick_fresh_topic intel trends used_info
                 (λ i, Z.of_nat i * 17) 0
               = Returned (Some ("Why banks fail", "scary_truth")%string))
    by (vm_compute; reflexivity).
  split; [exact Hp|]. split; [exact He|].
  pose proof (pick_fresh_topic_spec intel trends used_info
                (λ i, Z.of_nat i * 17) 0 Hp) as H.
  cbv zeta in H. rewrite He in H.
  destruct H as (_ & _ & _ & Hf & _). exact Hf.
Defined.

(** With a pumped topic in the history the exception of the filter leaves
    [_pick_fresh_topic] at the first candidate that is not empty: no topic
    is ever returned. *)
Lemma pick_fresh_topic_raises intel trends used_info draw pos :
  pumped_topics used_info ≠ [] →
  let formats := ["story_lesson"; "scary_truth"; "hidden_psychology"]%string in
  match _pick_fresh_topic intel trends used_info draw pos with
  | Returned (Some _) => False
  | Returned None =>
      ∀ f t, f ∈ formats → t ∈ candidates intel trends f → t = EmptyString
  | Raised e =>
      e = TypeError ∧
      ∃ f t, f ∈ formats ∧ t ∈ candidates intel trends f ∧ t ≠ EmptyString
  end.
Proof.
  intros Hp formats. unfold _pick_fresh_topic.
  pose proof (pick_loop_spec intel trends used_info
                (sorted_formats intel draw pos)) as Hspec.
  pose proof (sorted_formats_Permutation intel draw pos) as Hperm.
  change RunPipeline.ALL_FORMATS with formats in Hperm.
  destruct (pick_loop intel trends used_info (sorted_formats intel draw pos))
    as [[[t f]|]|e].
  - destruct Hspec as (_ & [_ Hf] & _).
    rewrite (topic_is_fresh_pumped _ _ Hp) in Hf. discriminate Hf.
  - intros f t Hf Ht. rewrite <- Hperm in Hf.
    destruct (Hspec f t Hf Ht) as [H|H]; [done|].
    rewrite (topic_is_fresh_pumped _ _ Hp) in H. discriminate H.
  - destruct Hspec as (f & t & Hf & Ht & Hne & Hr). split; [by destruct e|].
    exists f, t. rewrite Hperm in Hf. done.
Qed.



(** * The stats fetch and the dashboard *)

Import App.

(** ** [fetch_and_update_all] *)

Section fetch.
Context (yt_fetch : string → option YtStats) (time : Z → Qc).

Lemma fetch_step_none db n s :
  stats_for yt_fetch s = None →
  fetch_step yt_fetch time (db, n) s = (db, n).
Proof. intros Hs. unfold fetch_step. by rewrite Hs. Qed.

Lemma fetch_step_update db n s yt :
  stats_for yt_fetch s = Some yt →
  s_views s < Z.max (yt_views yt) 0 ∨ n = 0 →
  fetch_step yt_fetch time (db, n) s =
  ((update_performance (s_run_id s) (Z.max (yt_views yt) 0)
      (Z.max (yt_likes yt) 0) (Z.max (yt_comments yt) 0) 0
      (Qc_of_Z 0) (time n) db).1, n + 1).
Proof. intros Hs Hc. unfold fetch_step. by rewrite Hs, decide_True. Qed.

Lemma fetch_step_skip db n s yt :
  stats_for yt_fetch s = Some yt →
  ¬ (s_views s < Z.max (yt_views yt) 0 ∨ n = 0) →
  fetch_step yt_fetch time (db, n) s = (db, n).
Proof. intros Hs Hc. unfold fetch_step. by rewrite Hs, decide_False. Qed.

Lemma first_with_stats_cons_none s L :
  stats_for yt_fetch s = None →
  first_with_stats yt_fetch (s :: L) = first_with_stats yt_fetch L.
Proof.
  intros Hs. unfold first_with_stats. rewrite filter_cons, Hs.
  rewrite decide_False; [done|]. by intros [? ?].
Qed.

Lemma first_with_stats_cons_some s yt L :
  stats_for yt_fetch s = Some yt →
  first_with_stats yt_fetch (s :: L) = Some s.
Proof.
  intros Hs. unfold first_with_stats. rewrite filter_cons, Hs.
  by rewrite decide_True by eauto.
Qed.

Lemma fetch_fold_rows L : ∀ db n, 0 ≤ n →
  let r := foldl (fetch_step yt_fetch time) (db, n) L in
  n ≤ r.2 ≤ n + Z.of_nat (length L) ∧
  (n = 0 → (r.2 = 0 ↔ first_with_stats yt_fetch L = None)) ∧
  ∀ i v, Analytics.videos db !! i = Some v →
    ∃ v', Analytics.videos r.1 !! i = Some v' ∧
      (v' = v ∨
       ∃ s yt, s ∈ L ∧ s_run_id s = run_id v ∧
               stats_for yt_fetch s = Some yt ∧ v' = merged_row yt v ∧
               (s_views s < Z.max (yt_views yt) 0 ∨
                (n = 0 ∧ first_with_stats yt_fetch L = Some s))).
Proof.
  induction L as [|s0 L IH]; intros db n Hn; cbn [foldl].
  - simpl. split; [lia|]. split; [done|]. intros i v Hv. exists v. auto.
  - destruct (stats_for yt_fetch s0) as [yt0|] eqn:Es.
    2:{ rewrite (fetch_step_none _ _ _ Es).
        destruct (IH db n Hn) as (Hb & Hz & Hrows).
        split; [simpl length; lia|]. split.
        - intros H0. rewrite first_with_stats_cons_none by done. by apply Hz.
        - intros i v Hv. destruct (Hrows i v Hv) as (v' & Hl & Hcase).
          exists v'. split; [done|].
          destruct Hcase as [-> | (s & yt & Hs & Hr & Hst & Hv' & Hc)];
            [by left|right].
          exists s, yt. split; [by apply list_elem_of_further|].
          rewrite first_with_stats_cons_none by done. auto. }
    destruct (decide (s_views s0 < Z.max (yt_views yt0) 0 ∨ n = 0))
      as [Hupd|Hupd].
    + rewrite (fetch_step_update _ _ _ _ Es Hupd).
      set (db1 := (update_performance (s_run_id s0) (Z.max (yt_views yt0) 0)
                     (Z.max (yt_likes yt0) 0) (Z.max (yt_comments yt0) 0) 0
                     (Qc_of_Z 0) (time n) db).1).
      destruct (IH db1 (n + 1) ltac:(lia)) as (Hb & _ & Hrows).
      split; [simpl length; lia|]. split.
      * intros H0. rewrite (first_with_stats_cons_some _ _ _ Es).
        split; [lia|done].
      * intros i v Hv.
        assert (Hv1 : Analytics.videos db1 !! i
                      = Some (if decide (run_id v = s_run_id s0)
                              then merged_row yt0 v else v)).
        { subst db1. simpl. unfold update_where_run_id.
          by rewrite list_lookup_fmap, Hv. }
        destruct (Hrows i _ Hv1) as (v' & Hl & Hcase).
        exists v'. split; [done|].
        destruct Hcase as [-> | (s & yt & Hs & Hr & Hst & Hv' & Hc)].
        -- destruct (decide (run_id v = s_run_id s0)) as [Hrid|_];
             [right|by left].
           exists s0, yt0. split; [apply list_elem_of_here|].
           split; [done|]. split; [done|]. split; [done|].
           destruct Hupd as [Hlt | Hz0]; [by left|right].
           by rewrite (first_with_stats_cons_some _ _ _ Es).
        -- right. exists s, yt. split; [by apply list_elem_of_further|].
           split; [by destruct (decide (run_id v = s_run_id s0))|].
           split; [done|]. split.
           ++ rewrite Hv'. by destruct (decide (run_id v = s_run_id s0)).
           ++ destruct Hc as [?|[? _]]; [by left|lia].
    + rewrite (fetch_step_skip _ _ _ _ Es Hupd).
      destruct (IH db n Hn) as (Hb & Hz & Hrows).
      split; [simpl length; lia|]. split.
      * intros H0. exfalso. apply Hupd. by right.
      * intros i v Hv. destruct (Hrows i v Hv) as (v' & Hl & Hcase).
        exists v'. split; [done|].
        destruct Hcase as [-> | (s & yt & Hs & Hr & Hst & Hv' & Hc)];
          [by left|right].
        exists s, yt. split; [by apply list_elem_of_further|].
        split; [done|]. split; [done|]. split; [done|].
        destruct Hc as [?|[? _]]; [by left|]. exfalso. apply Hupd. by right.
Qed.
End fetch.

Lemma unique_run_id_eq db v w :
  unique_run_ids db → v ∈ Analytics.videos db → w ∈ Analytics.videos db →
  run_id v = run_id w → v = w.
Proof.
  unfold unique_run_ids. intros Hu Hv Hw Heq.
  apply list_elem_of_lookup in Hv as [i Hi].
  apply list_elem_of_lookup in Hw as [j Hj].
  assert (i = j) as ->.
  { apply (NoDup_lookup _ i j (run_id v) Hu);
      rewrite list_lookup_fmap; [rewrite Hi|rewrite Hj]; simpl; congruence. }
  congruence.
Qed.

Lemma fetched_rows_elem d now db s :
  s ∈ get_videos_for_stats_fetch d now db ↔
  ∃ v, v ∈ Analytics.videos db ∧ due_for_stats d now v ∧ s = to_stats_row v.
Proof.
  unfold get_videos_for_stats_fetch, order_by_desc_Qc.
  rewrite list_elem_of_fmap. split.
  - intros (v & -> & Hv). rewrite merge_sort_Permutation in Hv.
    apply list_elem_of_filter in Hv as [Hd Hv]. eauto.
  - intros (v & Hv & Hd & ->). exists v. split; [done|].
    rewrite merge_sort_Permutation. by apply list_elem_of_filter.
Qed.

Lemma fetch_and_update_all_db yt_fetch time now db :
  (fetch_and_update_all yt_fetch time now db).1 =
  (foldl (fetch_step yt_fetch time) (db, 0)
         (get_videos_for_stats_fetch 30 now db)).1.
Proof.
  unfold fetch_and_update_all.
  destruct (get_videos_for_stats_fetch 30 now db) as [|s l]; [done|].
  by destruct (foldl (fetch_step yt_fetch time) (db, 0) (s :: l)).
Qed.

Lemma fetch_and_update_all_updated yt_fetch time now db :
  (fetch_and_update_all yt_fetch time now db).2 =
  match get_videos_for_stats_fetch 30 now db with
  | [] => None
  | fetched => Some (foldl (fetch_step yt_fetch time) (db, 0) fetched).2
  end.
Proof.
  unfold fetch_and_update_all.
  destruct (get_videos_for_stats_fetch 30 now db) as [|s l]; [done|].
  by destruct (foldl (fetch_step yt_fetch time) (db, 0) (s :: l)).
Qed.

(** X25: on a store with unique run ids, [fetch_and_update_all] changes a
    row only by writing the stats fetched for it: a row with no platform
    identifier, older than 30 days, without a YouTube identifier, or for
    which YouTube returned nothing, is left as it is.  A row it changes
    gets the fetched views, likes and comments (none below 0), no shares
    and a watch time of 0, and its views have grown, except for the first
    fetched video with stats, which is written whatever its views were. *)
Theorem fetch_and_update_all_rows yt_fetch time now db i v :
  unique_run_ids db → Analytics.videos db !! i = Some v →
  let r := fetch_and_update_all yt_fetch time now db in
  let fetched := get_videos_for_stats_fetch 30 now db in
  ∃ v', Analytics.videos r.1 !! i = Some v' ∧
    (v' = v ∨
     (due_for_stats 30 now v ∧
      ∃ yt, youtube_id v ≠ EmptyString ∧ yt_fetch (youtube_id v) = Some yt ∧
            v' = merged_row yt v ∧
            (Analytics.views v < Analytics.views v' ∨
             first_with_stats yt_fetch fetched = Some (to_stats_row v)))).
Proof.
  intros Hu Hv r fetched. subst r. rewrite fetch_and_update_all_db.
  fold fetched.
  destruct (fetch_fold_rows yt_fetch time fetched db 0 ltac:(lia))
    as (_ & _ & Hrows).
  destruct (Hrows i v Hv) as (v' & Hl & Hcase).
  exists v'. split; [done|].
  destruct Hcase as [-> | (s & yt & Hs & Hr & Hst & Hv' & Hc)]; [by left|].
  right. subst fetched.
  apply fetched_rows_elem in Hs as (w & Hw & Hd & ->). simpl in Hr.
  assert (w = v) as ->.
  { apply (unique_run_id_eq db); [done|done| |done].
    by eapply list_elem_of_lookup_2. }
  split; [done|]. exists yt. unfold stats_for in Hst. simpl in Hst.
  destruct (is_empty (youtube_id v)) eqn:Ee; [done|].
  split; [by destruct (youtube_id v)|]. split; [done|]. split; [done|].
  destruct Hc as [Hlt|[_ Hfirst]]; [left|by right].
  rewrite Hv'. simpl in *. done.
Qed.

Lemma fetch_and_update_all_rows_witness :
  let v := sample_video "r1" 1 19 500 2 10 "X" 0 in
  let db := sample_db [v] in
  let now := sample_clock "2026-01-05" 0 7 30 100 0 in
  unique_run_ids db ∧ Analytics.videos db !! 0%nat = Some v ∧
  ∃ v', Analytics.videos
          (fetch_and_update_all (λ _, Some (mkYtStats 900 9 3))
             (λ _, Qc_of_Z 100) now db).1 !! 0%nat = Some v' ∧ v' = v.
Proof.
  intros v db now.
  assert (Hu : unique_run_ids db).
  { unfold unique_run_ids. simpl. apply NoDup_singleton. }
  split; [exact Hu|]. split; [reflexivity|].
  destruct (fetch_and_update_all_rows (λ _, Some (mkYtStats 900 9 3))
              (λ _, Qc_of_Z 100) now db 0%nat v Hu eq_refl)
    as (v' & Hl & Hcase).
  exists v'. split; [exact Hl|].
  destruct Hcase as [Heq | ((_ & Hid) & _)]; [exact Heq|].
  destruct Hid as [Hid | Hid]; exfalso; apply Hid; reflexivity.
Defined.

(** X26: [fetch_and_update_all] returns no count exactly when there is no
    video to fetch for, and then leaves the store as it is; a count it
    returns lies between 0 and the number of fetched videos and is 0
    exactly when YouTube returned stats for none of them. *)
Theorem fetch_and_update_all_count yt_fetch time now db :
  let r := fetch_and_update_all yt_fetch time now db in
  let fetched := get_videos_for_stats_fetch 30 now db in
  (r.2 = None ↔ fetched = []) ∧
  (fetched = [] → r.1 = db) ∧
  (∀ n, r.2 = Some n →
        0 ≤ n ≤ Z.of_nat (length fetched) ∧
        (n = 0 ↔ first_with_stats yt_fetch fetched = None)).
Proof.
  intros r fetched. subst r.
  rewrite fetch_and_update_all_db, fetch_and_update_all_updated.
  fold fetched.
  destruct (fetch_fold_rows yt_fetch time fetched db 0 ltac:(lia))
    as (Hb & Hz & _).
  destruct fetched as [|s0 l] eqn:Ef.
  { split; [done|]. split; [done|]. intros n Hn. discriminate Hn. }
  split; [split; intros H; discriminate H|].
  split; [intros H; discriminate H|].
  intros n [= <-]. split; [|by apply Hz].
  destruct Hb as [Hb1 Hb2]. split; [exact Hb1|]. etrans; [exact Hb2|]. lia.
Qed.

(** ** The dashboard *)

(** X27: the schedule that the dashboard shows ([get_schedule] of
    [app.py], which repeats the steps of the scheduler on its own copy of
    the prior table) is the list of hours of the schedule that
    [build_daily_schedule] builds from the same settings, clock and
    store. *)
Theorem dashboard_schedule_agrees e st :
  App.schedule_hours e = (build_daily_schedule e st).1.*1.
Proof. rewrite build_daily_schedule_hours. reflexivity. Qed.

Lemma as_int_accepted val stored v :
  (post_settings val stored).1 = Accepted v →
  ∃ z, as_int val = Some z ∧ 1 ≤ z ≤ 20 ∧
       (post_settings val stored).2 = Some z.
Proof.
  unfold post_settings. destruct (as_int val) as [z|]; [|done].
  destruct (decide (1 ≤ z ≤ 20)); [|done]. intros _. eauto.
Qed.

(** X28: [post_settings] stores a cap only if the value sent is an integer
    (or a boolean, which Python counts as one) from 1 to 20; anything else
    is answered with an error and the stored setting stays as it is.  With
    a setting it has accepted, the scheduler's cap is between 1 and 20 and
    the schedule of a day has at least one slot and at most cap slots. *)
Theorem post_settings_validates val stored :
  let r := post_settings val stored in
  (r.1 = Rejected400 → r.2 = stored) ∧
  (r.1 = Rejected400 ↔ ∀ z, as_int val = Some z → z < 1 ∨ 20 < z) ∧
  (∀ v e st, r.1 = Accepted v → setting e = r.2 →
     as_int val = Some (get_max_videos_per_day e) ∧
     1 ≤ get_max_videos_per_day e ≤ 20 ∧
     1 ≤ Z.of_nat (length (build_daily_schedule e st).1)
       ≤ get_max_videos_per_day e).
Proof.
  intros r. subst r. split; [|split].
  - unfold post_settings. destruct (as_int val) as [z|]; [|done].
    by destruct (decide (1 ≤ z ≤ 20)).
  - unfold post_settings. destruct (as_int val) as [z|].
    + destruct (decide (1 ≤ z ≤ 20)); simpl.
      * split; [done|]. intros H. specialize (H z eq_refl). lia.
      * split; [|done]. intros _ z' [= <-]. lia.
    + split; [|done]. intros _ z Hz. discriminate Hz.
  - intros v e st Hacc Hset.
    destruct (as_int_accepted val stored v Hacc) as (z & Hz & Hr & Hs).
    assert (Hcap : get_max_videos_per_day e = z).
    { unfold get_max_videos_per_day. by rewrite Hset, Hs. }
    rewrite Hcap. split; [done|]. split; [done|].
    rewrite <- (length_fmap fst), build_daily_schedule_hours.
    unfold chosen_hours, py_prefix. rewrite Hcap.
    pose proof (active_hours_length e) as Hlen.
    rewrite decide_True by lia. rewrite length_take. lia.
Qed.

Lemma post_settings_validates_witness :
  let e := sample_env (sample_clock "2026-01-05" 0 7 59 100 50) 3 fresh_db in
  (post_settings (JInt 3) None).1 = Accepted (JInt 3) ∧
  setting e = (post_settings (JInt 3) None).2 ∧
  1 ≤ Z.of_nat (length (build_daily_schedule e initial_state).1)
    ≤ get_max_videos_per_day e.
Proof.
  intros e.
  assert (Ha : (post_settings (JInt 3) None).1 = Accepted (JInt 3))
    by reflexivity.
  assert (Hs : setting e = (post_settings (JInt 3) None).2) by reflexivity.
  split; [exact Ha|]. split; [exact Hs|].
  destruct (post_settings_validates (JInt 3) None) as (_ & _ & H).
  destruct (H (JInt 3) e initial_state Ha Hs) as (_ & _ & Hlen).
  exact Hlen.
Defined.
